(** * Verification of the fetch and parse core of the match-data service

    The development embeds [parsers.py], [http_client.py] and the
    date-listing assembly of [app.py] as Rocq functions and proves the
    properties stated for them.

    Python values are modelled as follows.
    - A [str] is a [list ascii]; an [ascii] stands for the code point of the
      same number, so the model covers the code points 0..255.  The character
      classes ([str.isspace], [str.isdigit], decimal digits, [str.lower]) are
      written out for that range.
    - An [int] is a [Z]; [None] is the [None] of an [option].
    - A [dict] whose order is not observed is a [gmap]; the [urls] dict, which
      is iterated, is its list of items.
    - A raised exception is the [Raise] case of a result type. *)

From Stdlib Require Import List Ascii String ZArith Bool Lia DecimalString.
From stdpp Require Import gmap strings list fin_maps.
Import ListNotations.

Local Open Scope Z_scope.
Set Warnings "-register-all".

(** * Python strings *)

Module PyStr.

(** A string literal of the source. *)
Definition py (s : string) : list ascii := list_ascii_of_string s.

Definition code (c : ascii) : Z := Z.of_nat (nat_of_ascii c).

(** [str.isspace] on one character: the code points below 256 with the
    White_Space property or a bidirectional class of WS, B or S. *)
Definition isspace (c : ascii) : bool :=
  let n := code c in
  ((9 <=? n) && (n <=? 13)) || ((28 <=? n) && (n <=? 32))
  || (n =? 133) || (n =? 160).

(** The characters for which [int] reads a decimal digit. *)
Definition isdecimal (c : ascii) : bool :=
  let n := code c in (48 <=? n) && (n <=? 57).

(** [str.isdigit] on one character: the decimal digits and the superscripts
    two, three and one. *)
Definition isdigit_char (c : ascii) : bool :=
  let n := code c in
  isdecimal c || (n =? 178) || (n =? 179) || (n =? 185).

(** [s.isdigit()]: false on the empty string. *)
Definition isdigit (s : list ascii) : bool :=
  match s with
  | [] => false
  | _ => forallb isdigit_char s
  end.

Fixpoint dropwhile {A} (p : A -> bool) (l : list A) : list A :=
  match l with
  | [] => []
  | x :: l' => if p x then dropwhile p l' else l
  end.

Definition lstrip (s : list ascii) : list ascii := dropwhile isspace s.
Definition rstrip (s : list ascii) : list ascii :=
  rev (dropwhile isspace (rev s)).

(** [s.strip()] *)
Definition strip (s : list ascii) : list ascii := rstrip (lstrip s).

(** [l[lo:hi]] with Python's treatment of negative and out-of-range bounds;
    [None] is an omitted bound. *)
Definition norm_index (len i : Z) : Z :=
  let j := if i <? 0 then i + len else i in
  Z.max 0 (Z.min len j).

Definition slice {A} (lo hi : option Z) (l : list A) : list A :=
  let len := Z.of_nat (length l) in
  let a := match lo with Some i => norm_index len i | None => 0 end in
  let b := match hi with Some i => norm_index len i | None => len end in
  firstn (Z.to_nat (b - a)) (skipn (Z.to_nat a) l).

Definition eqb_ascii (a b : ascii) : bool := Ascii.eqb a b.

Fixpoint prefixb (p s : list ascii) : bool :=
  match p, s with
  | [], _ => true
  | a :: p', b :: s' => eqb_ascii a b && prefixb p' s'
  | _ :: _, [] => false
  end.

(** [s.startswith(p)] and [s.endswith(p)] *)
Definition startswith (s p : list ascii) : bool := prefixb p s.
Definition endswith (s p : list ascii) : bool := prefixb (rev p) (rev s).

(** [p in s] *)
Fixpoint contains (s p : list ascii) : bool :=
  prefixb p s ||
  match s with
  | [] => false
  | _ :: s' => contains s' p
  end.

(** [s.split(sep)] for a separator of one character. *)
Fixpoint split_on (sep : ascii) (s : list ascii) : list (list ascii) :=
  match s with
  | [] => [[]]
  | c :: s' =>
      if eqb_ascii c sep then [] :: split_on sep s'
      else match split_on sep s' with
           | w :: ws => (c :: w) :: ws
           | [] => [[c]]
           end
  end.

(** [s.split()]: the maximal runs of characters that are not whitespace. *)
Fixpoint words_from (cur : list ascii) (s : list ascii) : list (list ascii) :=
  match s with
  | [] => match cur with [] => [] | _ => [rev cur] end
  | c :: s' =>
      if isspace c
      then match cur with
           | [] => words_from [] s'
           | _ => rev cur :: words_from [] s'
           end
      else words_from (c :: cur) s'
  end.

Definition split_ws (s : list ascii) : list (list ascii) := words_from [] s.

(** [sep.join(ws)] *)
Fixpoint join (sep : list ascii) (ws : list (list ascii)) : list ascii :=
  match ws with
  | [] => []
  | [w] => w
  | w :: ws' => w ++ sep ++ join sep ws'
  end.

(** [s.lower()] on the code points below 256: the letters A to Z and the
    capital letters 192 to 222 other than the multiplication sign. *)
Definition lower_char (c : ascii) : ascii :=
  let n := code c in
  if ((65 <=? n) && (n <=? 90))
     || ((192 <=? n) && (n <=? 222) && negb (n =? 215))
  then ascii_of_nat (Z.to_nat (n + 32)) else c.

Definition lower (s : list ascii) : list ascii := map lower_char s.

(** The characters removed by the [strip] call of the league and country
    parsers: the single quote and the double quote (code point 34). *)
Definition isquote (c : ascii) : bool :=
  eqb_ascii c "'"%char || (code c =? 34).

Definition strip_chars (p : ascii -> bool) (s : list ascii) : list ascii :=
  rev (dropwhile p (rev (dropwhile p s))).

(** The value of a run of decimal digits. *)
Definition digits_value (ds : list ascii) : Z :=
  fold_left (fun acc c => 10 * acc + (code c - 48)) ds 0.

(** The digit groups of an integer literal: digits, with single
    underscores only between digits. *)
Fixpoint digit_groups (s : list ascii) (seen : bool) : option (list ascii) :=
  match s with
  | [] => if seen then Some [] else None
  | c :: s' =>
      if isdecimal c
      then option_map (cons c) (digit_groups s' true)
      else if eqb_ascii c "_"%char && seen
           then match s' with
                | d :: _ => if isdecimal d then digit_groups s' false else None
                | [] => None
                end
           else None
  end.

(** The characters [int] passes over at the two ends of its argument.  They
    are fewer than those of [str.strip]: the whitespace of C (9 to 13 and
    the space) and, since a text that is not ASCII is first rewritten with
    a space for each of its whitespace characters above 127, the code
    points 133 and 160.  The separators 28 to 31 are whitespace for
    [str.isspace] and are refused by [int]. *)
Definition int_space (c : ascii) : bool :=
  let n := code c in
  ((9 <=? n) && (n <=? 13)) || (n =? 32) || (n =? 133) || (n =? 160).

(** [sys.get_int_max_str_digits()], at the default of the interpreter. *)
Definition int_max_str_digits : Z := 4300.

(** [int(s)]: [None] stands for the [ValueError], which is also what a
    literal of more digits than [int_max_str_digits] gives; the underscores
    of the literal do not count as digits. *)
Definition int (s : list ascii) : option Z :=
  match strip_chars int_space s with
  | [] => None
  | c :: r =>
      let negative := eqb_ascii c "-"%char in
      let literal := if negative || eqb_ascii c "+"%char then r else c :: r in
      match digit_groups literal false with
      | Some ds =>
          if Z.of_nat (length ds) <=? int_max_str_digits
          then Some (if negative then - digits_value ds else digits_value ds)
          else None
      | None => None
      end
  end.

End PyStr.

Import PyStr.

(** * Python values shared by the modules *)

(** An exception instance: its class, as far as the handlers of the source
    tell classes apart, and its message [str(e)]. *)
Inductive exn_class : Type :=
  | ClientError       (* aiohttp.ClientError and its subclasses *)
  | JSONDecodeError   (* json.JSONDecodeError *)
  | ValueError
  | IndexError
  | TypeError
  | AttributeError
  | OtherException.   (* any other subclass of Exception *)

Record exn : Type := Exn { exn_cls : exn_class; exn_msg : list ascii }.

(** The outcome of evaluating Python code that may raise. *)
Inductive result (A : Type) : Type :=
  | Return (a : A)
  | Raise (e : exn).
Arguments Return {A} a.
Arguments Raise {A} e.

Definition bind {A B} (r : result A) (k : A -> result B) : result B :=
  match r with
  | Return a => k a
  | Raise e => Raise e
  end.

Notation "'try!' x := r 'in' k" := (bind r (fun x => k))
  (at level 10, x name, r at level 100, k at level 200).

(** A decoded JSON document. *)
Inductive json : Type :=
  | JNull
  | JBool (b : bool)
  | JInt (n : Z)
  | JStr (s : list ascii)
  | JArr (l : list json)
  | JObj (fields : list (list ascii * json)).

(** [d.get(k, default)] on a decoded JSON object. *)
Fixpoint obj_get (k : list ascii) (fields : list (list ascii * json))
  : option json :=
  match fields with
  | [] => None
  | (k', v) :: fs => if decide (k' = k) then Some v else obj_get k fs
  end.

(** The truth of a decoded JSON value. *)
Definition truthy_json (v : json) : bool :=
  match v with
  | JNull => false
  | JBool b => b
  | JInt n => negb (n =? 0)
  | JStr s => negb (bool_decide (s = []))
  | JArr l => negb (bool_decide (l = []))
  | JObj fields => negb (bool_decide (fields = []))
  end.

(** [d.get(k, default)] with its default. *)
Definition obj_get_default (k : string) (default : json)
    (fields : list (list ascii * json)) : json :=
  match obj_get (py k) fields with
  | Some v => v
  | None => default
  end.

(** A naive [datetime]: the six fields the source sets; the microsecond is
    always 0 and there is no [tzinfo]. *)
Record datetime : Type := Datetime {
  dt_year : Z; dt_month : Z; dt_day : Z;
  dt_hour : Z; dt_minute : Z; dt_second : Z
}.

Definition is_leap (y : Z) : bool :=
  (y mod 4 =? 0) && (negb (y mod 100 =? 0) || (y mod 400 =? 0)).

Definition days_in_month (y m : Z) : Z :=
  if m =? 2 then (if is_leap y then 29 else 28)
  else if (m =? 4) || (m =? 6) || (m =? 9) || (m =? 11) then 30
  else 31.

(** [datetime(year, month, day, hour, minute, second)]: [None] stands for
    the [ValueError] of a field out of range. *)
Definition mk_datetime (y mo d h mi s : Z) : option datetime :=
  if (1 <=? y) && (y <=? 9999) && (1 <=? mo) && (mo <=? 12)
     && (1 <=? d) && (d <=? days_in_month y mo)
     && (0 <=? h) && (h <=? 23) && (0 <=? mi) && (mi <=? 59)
     && (0 <=? s) && (s <=? 59)
  then Some (Datetime y mo d h mi s) else None.

(** One decimal digit as a character. *)
Definition digit_char (d : Z) : ascii := ascii_of_nat (Z.to_nat (48 + d mod 10)).

(** A number of the range of a datetime field on [w] digits, zero padded. *)
Fixpoint pad_digits (w : nat) (n : Z) : list ascii :=
  match w with
  | O => []
  | S w' => pad_digits w' (n / 10) ++ [digit_char n]
  end.

(** [dt.isoformat()] of a datetime whose microsecond is 0. *)
Definition isoformat (t : datetime) : list ascii :=
  pad_digits 4 (dt_year t) ++ py "-" ++ pad_digits 2 (dt_month t) ++ py "-"
  ++ pad_digits 2 (dt_day t) ++ py "T" ++ pad_digits 2 (dt_hour t) ++ py ":"
  ++ pad_digits 2 (dt_minute t) ++ py ":" ++ pad_digits 2 (dt_second t).

(** * The regular expressions of the array parser *)

Module Regex.

(** The body of [(.*?)\];]: the shortest run of characters other than a
    line feed that is followed by a closing bracket and a semicolon. *)
Fixpoint lazy_body (s : list ascii) : option (list ascii) :=
  match s with
  | [] => None
  | c :: s' =>
      if prefixb (py "];") s then Some []
      else if code c =? 10 then None
      else option_map (cons c) (lazy_body s')
  end.

Fixpoint takewhile {A} (p : A -> bool) (l : list A) : list A :=
  match l with
  | [] => []
  | x :: l' => if p x then x :: takewhile p l' else []
  end.

(** One match of [<letter>\[(\d+)\]=\[(.*?)\];] at the head of [s]: the two
    groups and the number of characters matched. *)
Definition match_at (letter : ascii) (s : list ascii)
  : option (list ascii * list ascii * nat) :=
  match s with
  | c0 :: c1 :: r =>
      if eqb_ascii c0 letter && eqb_ascii c1 "["%char
      then
        let ds := takewhile isdecimal r in
        match ds with
        | [] => None
        | _ =>
            let r1 := dropwhile isdecimal r in
            if prefixb (py "]=[") r1
            then match lazy_body (skipn 3 r1) with
                 | Some body =>
                     Some (ds, body, (2 + length ds + 3 + length body + 2)%nat)
                 | None => None
                 end
            else None
        end
      else None
  | _ => None
  end.

(** [re.finditer]: the matches from left to right, none overlapping; [skip]
    counts the characters still covered by the last match. *)
Fixpoint finditer_from (letter : ascii) (skip : nat) (s : list ascii)
  : list (list ascii * list ascii) :=
  match s with
  | [] => []
  | _ :: s' =>
      match skip with
      | S k => finditer_from letter k s'
      | O =>
          match match_at letter s with
          | Some (ds, body, n) => (ds, body) :: finditer_from letter (n - 1) s'
          | None => finditer_from letter 0 s'
          end
      end
  end.

Definition finditer (letter : ascii) (s : list ascii)
  : list (list ascii * list ascii) := finditer_from letter 0 s.

End Regex.

(** * The parsed document *)

Module Soup.

(** A node of the tree BeautifulSoup builds: a string or a tag with its
    attributes and contents.  The document itself is a tag. *)
Inductive node : Type :=
  | Text (s : list ascii)
  | Elem (name : list ascii) (attrs : list (list ascii * list ascii))
         (children : list node).

Fixpoint assoc (k : list ascii) (l : list (list ascii * list ascii))
  : option (list ascii) :=
  match l with
  | [] => None
  | (k', v) :: l' => if decide (k' = k) then Some v else assoc k l'
  end.

(** [tag.get(k)] *)
Definition get (k : list ascii) (n : node) : option (list ascii) :=
  match n with
  | Text _ => None
  | Elem _ attrs _ => assoc k attrs
  end.

(** [tag.get(k, default)] *)
Definition get_default (k default : list ascii) (n : node) : list ascii :=
  match get k n with
  | Some v => v
  | None => default
  end.

(** [tag.descendants]: the nodes below a tag, in document order. *)
Fixpoint descendants (n : node) : list node :=
  match n with
  | Text _ => []
  | Elem _ _ cs => flat_map (fun c => c :: descendants c) cs
  end.

(** The descendants, each with its parent and its next sibling. *)
Fixpoint located (p : node) : list (node * node * option node) :=
  match p with
  | Text _ => []
  | Elem _ _ cs =>
      (fix go (l : list node) : list (node * node * option node) :=
         match l with
         | [] => []
         | c :: l' => (c, p, head l') :: located c ++ go l'
         end) cs
  end.

(** [node.text] *)
Fixpoint text (n : node) : list ascii :=
  match n with
  | Text s => s
  | Elem _ _ cs => flat_map text cs
  end.

(** The tests of a [find] call. *)
Definition is_tag (name : list ascii) (n : node) : bool :=
  match n with
  | Text _ => false
  | Elem name' _ _ => bool_decide (name' = name)
  end.

Definition attr_is (k v : list ascii) (n : node) : bool :=
  bool_decide (get k n = Some v).

(** [class_=c]: one of the classes of the tag is [c]. *)
Definition has_class (c : list ascii) (n : node) : bool :=
  match get (py "class") n with
  | Some v => existsb (fun c' => bool_decide (c' = c)) (split_ws v)
  | None => false
  end.

(** [class_=re.compile(pat)] for a pattern that is a plain word. *)
Definition class_search (pat : list ascii) (n : node) : bool :=
  match get (py "class") n with
  | Some v => existsb (fun c' => contains c' pat) (split_ws v)
  | None => false
  end.

(** The pattern of the ids of the data rows, [tr\d+_\d+], at the head of a
    string and anywhere in it. *)
Definition tr_id_at (s : list ascii) : bool :=
  match s with
  | c0 :: c1 :: r =>
      eqb_ascii c0 "t"%char && eqb_ascii c1 "r"%char &&
      match Regex.takewhile isdecimal r, dropwhile isdecimal r with
      | _ :: _, u :: d :: _ => eqb_ascii u "_"%char && isdecimal d
      | _, _ => false
      end
  | _ => false
  end.

Fixpoint tr_id_search (s : list ascii) : bool :=
  tr_id_at s ||
  match s with
  | [] => false
  | _ :: s' => tr_id_search s'
  end.

Definition id_is_data_row (n : node) : bool :=
  match get (py "id") n with
  | Some v => tr_id_search v
  | None => false
  end.

(** [tag.find_all(...)] and [tag.find(...)] with the tests [p]. *)
Definition find_all (p : node -> bool) (n : node) : list node :=
  List.filter p (descendants n).

Definition find (p : node -> bool) (n : node) : option node :=
  head (find_all p n).

Definition find_located (p : node -> bool) (n : node)
  : option (node * node * option node) :=
  head (List.filter (fun x => p (fst (fst x))) (located n)).

(** [find(name, id=i)] and [find(name, class_=c)] *)
Definition tag_id (name i : list ascii) (n : node) : bool :=
  is_tag name n && attr_is (py "id") i n.
Definition tag_class (name c : list ascii) (n : node) : bool :=
  is_tag name n && has_class c n.

(** Truth of a node: a string is true when it is not empty, a tag always. *)
Definition truthy (n : node) : bool :=
  match n with
  | Text [] => false
  | _ => true
  end.

End Soup.

Import Soup.

(** * parsers.py *)

Module Parsers.

(** ** MatchDateParser *)

(** The dict built by [_parse_match_data]. *)
Record MatchRecord : Type := {
  match_id : option Z;
  league_id : option Z;
  home_team_id : option Z;
  away_team_id : option Z;
  home_team : list ascii;
  away_team : list ascii;
  match_time : option datetime;
  match_datetime_raw : list ascii
}.

(** [_parse_datetime]: every exception is swallowed by the bare [except]. *)
Definition _parse_datetime (datetime_str : list ascii) : option datetime :=
  match split_on ","%char datetime_str with
  | p0 :: p1 :: p2 :: p3 :: p4 :: p5 :: _ =>
      match int p0, int p1, int p2, int p3, int p4, int p5 with
      | Some year, Some month, Some day, Some hour, Some minute, Some second =>
          mk_datetime year month day hour minute second
      | _, _, _, _, _, _ => None
      end
  | _ => None
  end.

(** The state of the scanner of [_parse_match_data]. *)
Record scan : Type := Scan {
  parts : list (list ascii);
  current : list ascii;
  in_quotes : bool
}.

(** One turn of the [for char in data_str] loop. *)
Definition scan_step (st : scan) (char : ascii) : scan :=
  if eqb_ascii char "'"%char && negb (in_quotes st)
  then Scan (parts st) (current st) true
  else if eqb_ascii char "'"%char && in_quotes st
  then Scan (parts st ++ [current st]) [] false
  else if eqb_ascii char ","%char && negb (in_quotes st)
  then match strip (current st) with
       | [] => Scan (parts st) [] (in_quotes st)
       | c => Scan (parts st ++ [c]) [] (in_quotes st)
       end
  else Scan (parts st) (current st ++ [char]) (in_quotes st).

(** The positional fields of one record body. *)
Definition tokenize (data_str : list ascii) : list (list ascii) :=
  let st := fold_left scan_step data_str (Scan [] [] false) in
  match strip (current st) with
  | [] => parts st
  | c => parts st ++ [c]
  end.

(** [int(p) if p.isdigit() else None]; the [int] call may raise. *)
Definition int_if_digit (p : list ascii) : result (option Z) :=
  if isdigit p
  then match int p with
       | Some n => Return (Some n)
       | None => Raise (Exn ValueError (py "invalid literal for int()"))
       end
  else Return None.

(** The [try] block of [_parse_match_data]. *)
Definition parse_match_data_try (data_str : list ascii)
  : result (option MatchRecord) :=
  match tokenize data_str with
  | p0 :: p1 :: p2 :: p3 :: p4 :: p5 :: p6 :: _ =>
      let datetime_str := p6 in
      let match_time := _parse_datetime datetime_str in
      try! mid := int_if_digit p0 in
      try! lid := int_if_digit p1 in
      try! hid := int_if_digit p2 in
      try! aid := int_if_digit p3 in
      Return (Some {| match_id := mid; league_id := lid;
                      home_team_id := hid; away_team_id := aid;
                      home_team := p4; away_team := p5;
                      match_time := match_time;
                      match_datetime_raw := datetime_str |})
  | _ => Return None
  end.

(** [_parse_match_data]: an exception is logged and gives [None]. *)
Definition _parse_match_data (data_str : list ascii) : option MatchRecord :=
  match parse_match_data_try data_str with
  | Return r => r
  | Raise _ => None
  end.

(** The [UnboundLocalError] of the handler of [_parse_matches], which
    reads [index] in its message: it is raised when no turn of the loop has
    assigned [index] yet. *)
Definition unbound_index : exn :=
  Exn OtherException
    (py "cannot access local variable 'index' where it is not associated with a value").

(** The loop of [_parse_matches] over the matches of the pattern of the A
    array.  [index] is the local variable of that name, [None] while it is
    unbound.  In the [try] block only [int(match.group(1))] can raise,
    [_parse_match_data] having a handler of its own; the handler of the
    loop then formats its warning with [index] and goes on to the next
    match, or raises when [index] is unbound. *)
Fixpoint parse_matches_loop (ms : list (list ascii * list ascii))
    (index : option Z) (matches : list MatchRecord)
  : result (list MatchRecord) :=
  match ms with
  | [] => Return matches
  | m :: ms' =>
      match int (fst m) with
      | Some i =>
          let data_str := snd m in
          match _parse_match_data data_str with
          | Some match_data => parse_matches_loop ms' (Some i) (matches ++ [match_data])
          | None => parse_matches_loop ms' (Some i) matches
          end
      | None =>
          match index with
          | Some _ => parse_matches_loop ms' index matches
          | None => Raise unbound_index
          end
      end
  end.

(** [_parse_matches] *)
Definition _parse_matches (js_code : list ascii) : result (list MatchRecord) :=
  parse_matches_loop (Regex.finditer "A"%char js_code) None [].

(** The records a list of matches of the pattern contributes: those whose
    index [int] reads and that [_parse_match_data] accepts, in their
    order. *)
Definition accepted (ms : list (list ascii * list ascii)) : list MatchRecord :=
  omap (fun m => match int (fst m) with
                 | Some _ => _parse_match_data (snd m)
                 | None => None
                 end) ms.

(** No id field is a run of digit characters that [int] rejects, so
    building the dict of the record raises nothing. *)
Definition ids_convert (ids : list (list ascii)) : Prop :=
  Forall (fun p => isdigit p = true -> is_Some (int p)) ids.

(** The dict built for one league. *)
Record LeagueRecord : Type := {
  lg_league_id : list ascii;
  lg_league_code : list ascii;
  lg_league_name : list ascii;
  lg_color : option (list ascii)
}.

(** [[p.strip().strip(quotes) for p in data_str.split(',')]] *)
Definition simple_parts (data_str : list ascii) : list (list ascii) :=
  map (fun p => strip_chars isquote (strip p)) (split_on ","%char data_str).

(** [_parse_leagues]: a match whose index [int] refuses is passed over by
    the bare [except]. *)
Definition _parse_leagues (js_code : list ascii) : gmap Z LeagueRecord :=
  fold_left
    (fun (leagues : gmap Z LeagueRecord) m =>
       match int (fst m) with
       | Some index =>
           match simple_parts (snd m) with
           | p0 :: p1 :: p2 :: rest =>
               <[ index := {| lg_league_id := p0; lg_league_code := p1;
                              lg_league_name := p2; lg_color := head rest |} ]>
                 leagues
           | _ => leagues
           end
       | None => leagues
       end)
    (Regex.finditer "B"%char js_code) ∅.

Record CountryRecord : Type := {
  ct_country_id : list ascii;
  ct_country_name : list ascii
}.

(** [_parse_countries]: a match whose index [int] refuses is passed over
    by the bare [except]. *)
Definition _parse_countries (js_code : list ascii) : gmap Z CountryRecord :=
  fold_left
    (fun (countries : gmap Z CountryRecord) m =>
       match int (fst m) with
       | Some index =>
           match simple_parts (snd m) with
           | p0 :: p1 :: _ =>
               <[ index := {| ct_country_id := p0; ct_country_name := p1 |} ]>
                 countries
           | _ => countries
           end
       | None => countries
       end)
    (Regex.finditer "C"%char js_code) ∅.

(** The dict returned by [parse_date_response]. *)
Record ParsedDate : Type := {
  pd_matches : list MatchRecord;
  pd_leagues : gmap Z LeagueRecord;
  pd_countries : gmap Z CountryRecord
}.

Section DateResponse.

(** [json.loads] on a string, as the standard library provides it; [None]
    stands for the [JSONDecodeError] of a text that is not JSON. *)
Variable json_loads : list ascii -> option json.

(** [parse_date_response]: [None] when anything raises, as when the text is
    not JSON, the document is not an object, its [Data] is not a string, or
    [_parse_matches] raises. *)
Definition parse_date_response (response_text : list ascii)
  : option ParsedDate :=
  match json_loads response_text with
  | Some (JObj fields) =>
      match match obj_get (py "Data") fields with
            | Some v => v
            | None => JStr []
            end with
      | JStr js_code =>
          match _parse_matches js_code with
          | Return matches =>
              Some {| pd_matches := matches;
                      pd_leagues := _parse_leagues js_code;
                      pd_countries := _parse_countries js_code |}
          | Raise _ => None
          end
      | _ => None
      end
  | _ => None
  end.

End DateResponse.

(** ** HTML parsing functions *)

(** [clean_score_data(text)] *)
Definition clean_score_data (text : list ascii) : list ascii :=
  match text with
  | [] => []
  | _ =>
      let cleaned := strip text in
      let cleaned :=
        if startswith cleaned (py "(") && endswith cleaned (py ")")
        then slice (Some 1) (Some (-1)) cleaned
        else cleaned in
      strip cleaned
  end.

(** The text opens and closes with a parenthesis: the test under which
    [clean_score_data] removes a pair. *)
Definition parenthesized (s : list ascii) : bool :=
  startswith s (py "(") && endswith s (py ")").

(** [x.text.strip() if x else default] *)
Definition text_or (default : list ascii) (x : option node) : list ascii :=
  match x with
  | Some n => strip (text n)
  | None => default
  end.

Record Player : Type := {
  player_id : option (list ascii);
  position : list ascii;
  number : list ascii;
  name : list ascii
}.

(** [parse_player_list(container)] *)
Definition parse_player_list (container : option node) : list Player :=
  match container with
  | None => []
  | Some c =>
      map (fun player_row =>
             {| player_id := get (py "playerid") player_row;
                position := text_or [] (find (is_tag (py "b")) player_row);
                number := text_or [] (find (is_tag (py "span")) player_row);
                name := text_or [] (find (is_tag (py "a")) player_row) |})
          (find_all (tag_class (py "div") (py "player-row")) c)
  end.

(** The dict comprehension of [parse_block]: the header of column [i] is
    the key of the text of cell [i]; a later column replaces an earlier one
    of the same header. *)
Definition row_dict (headers : list (list ascii)) (cells : list node)
  : gmap (list ascii) (list ascii) :=
  fold_left (fun (d : gmap (list ascii) (list ascii)) hc =>
               <[ fst hc := strip (text (snd hc)) ]> d)
            (combine headers cells) ∅.

(** The loop of [parse_block] over the rows after the header row. *)
Fixpoint parse_block_rows (headers : list (list ascii)) (rows : list node)
  : list (gmap (list ascii) (list ascii)) :=
  match rows with
  | [] => []
  | data_row :: rows' =>
      let cells := find_all (is_tag (py "td")) data_row in
      if (length cells =? length headers)%nat
      then row_dict headers cells :: parse_block_rows headers rows'
      else parse_block_rows headers rows'
  end.

(** [parse_block(rows_block)] *)
Definition parse_block (rows_block : list node)
  : list (gmap (list ascii) (list ascii)) :=
  match rows_block with
  | header_row :: ((_ :: _) as data_rows) =>
      let headers :=
        map (fun th => strip (text th)) (find_all (is_tag (py "th")) header_row) in
      parse_block_rows headers data_rows
  | _ => []
  end.

(** The test of the loop that looks for the row of the half-time header:
    the text of the row has "HT" in it and the row has a [th]. *)
Definition is_split_row (row : node) : bool :=
  contains (text row) (py "HT")
  && bool_decide (is_Some (find (is_tag (py "th")) row)).

(** The loop itself: the index of the first such row, counted from [i]. *)
Fixpoint find_split (i : Z) (rows : list node) : option Z :=
  match rows with
  | [] => None
  | row :: rows' =>
      if is_split_row row then Some i else find_split (i + 1) rows'
  end.

(** The blocks as the specification words them: the header texts of a
    header row, the value cells of a data row, and the rows of a block
    that have as many value cells as the header row has header cells, each
    as a dict from the header texts to the cell texts. *)
Definition headers_of (header_row : node) : list (list ascii) :=
  map (fun th => strip (text th)) (find_all (is_tag (py "th")) header_row).

Definition cells_of (data_row : node) : list node :=
  find_all (is_tag (py "td")) data_row.

Definition block_of (header_row : node) (data_rows : list node)
  : list (gmap (list ascii) (list ascii)) :=
  map (fun r => row_dict (headers_of header_row) (cells_of r))
      (List.filter
         (fun r => (length (cells_of r) =? length (headers_of header_row))%nat)
         data_rows).

(** The dict returned by [parse_standings_table]. *)
Record StandingsTable : Type := {
  full_time : list (gmap (list ascii) (list ascii));
  half_time : list (gmap (list ascii) (list ascii))
}.

(** [l[i]] for an index that is not negative. *)
Definition index {A} (l : list A) (i : Z) : result A :=
  match l !! Z.to_nat i with
  | Some x => Return x
  | None => Raise (Exn IndexError (py "list index out of range"))
  end.

(** [parse_standings_table(table)] *)
Definition parse_standings_table (table : node) : result StandingsTable :=
  let all_rows := find_all (is_tag (py "tr")) table in
  match find_split 0 all_rows with
  | Some split_index =>
      let ft_rows := slice (Some 2) (Some split_index) all_rows in
      let ht_rows := slice (Some (split_index + 1)) None all_rows in
      try! ft_headers_row := index all_rows 1 in
      try! ht_headers_row := index all_rows split_index in
      Return {| full_time := parse_block ([ft_headers_row] ++ ft_rows);
                half_time := parse_block ([ht_headers_row] ++ ht_rows) |}
  | None => Return {| full_time := []; half_time := [] |}
  end.

Record MatchRow : Type := {
  mr_league : list ascii;
  mr_date : list ascii;
  mr_home_team : list ascii;
  mr_score : list ascii;
  mr_ht_score : list ascii;
  mr_away_team : list ascii;
  mr_corner : list ascii;
  mr_ht_corner : list ascii;
  mr_result : list ascii
}.

(** [cells[i]] where the source has checked the length. *)
Definition cell (cells : list node) (i : nat) : node := nth i cells (Text []).

(** The loop over the candidate positions of the result column. *)
Fixpoint first_result (cells : list node) (idxs : list nat) : list ascii :=
  match idxs with
  | [] => []
  | cell_idx :: idxs' =>
      if (cell_idx <? length cells)%nat
      then
        let potential_result := strip (text (cell cells cell_idx)) in
        if negb (bool_decide (potential_result = []))
           && negb (bool_decide (potential_result ∈ [[]; py "-"; py "?"]))
        then potential_result
        else first_result cells idxs'
      else first_result cells idxs'
  end.

(** [clean_score_data(x.text) if x else ""] *)
Definition score_of (x : option node) : list ascii :=
  match x with
  | Some n => clean_score_data (text n)
  | None => []
  end.

(** The body of the loop of [parse_match_list_table] for a row of at least
    8 cells. *)
Definition match_row (cells : list node) : MatchRow :=
  let score_cell := find (fun n => is_tag (py "span") n && class_search (py "fscore_") n) (cell cells 3) in
  let ht_score_cell := find (fun n => is_tag (py "span") n && class_search (py "hscore_") n) (cell cells 3) in
  let corner_cell := find (fun n => is_tag (py "span") n && class_search (py "fcorner_") n) (cell cells 5) in
  let ht_corner_cell := find (fun n => is_tag (py "span") n && class_search (py "hcorner_") n) (cell cells 5) in
  let date_text :=
    if (1 <? length cells)%nat
    then
      match strip (text (cell cells 1)) with
      | [] =>
          let date_element :=
            match find (is_tag (py "span")) (cell cells 1) with
            | Some e => Some e
            | None => find (is_tag (py "a")) (cell cells 1)
            end in
          text_or [] date_element
      | t => t
      end
    else [] in
  let result_text :=
    if (11 <? length cells)%nat then strip (text (cell cells 11))
    else if (7 <? length cells)%nat then strip (text (cell cells 7))
    else [] in
  let result_text :=
    match result_text with
    | [] => first_result cells [6; 7; 8; 9; 10; 11]%nat
    | t => t
    end in
  {| mr_league := if (0 <? length cells)%nat then strip (text (cell cells 0)) else [];
     mr_date := date_text;
     mr_home_team := if (2 <? length cells)%nat then strip (text (cell cells 2)) else [];
     mr_score := score_of score_cell;
     mr_ht_score := score_of ht_score_cell;
     mr_away_team := if (4 <? length cells)%nat then strip (text (cell cells 4)) else [];
     mr_corner := score_of corner_cell;
     mr_ht_corner := score_of ht_corner_cell;
     mr_result := result_text |}.

(** [parse_match_list_table(soup, table_id)] *)
Definition parse_match_list_table (soup : node) (table_id : list ascii)
  : list MatchRow :=
  match find (tag_id (py "table") table_id) soup with
  | None => []
  | Some table =>
      let data_rows :=
        find_all (fun n => is_tag (py "tr") n && id_is_data_row n) table in
      flat_map (fun row =>
                  let cells := find_all (is_tag (py "td")) row in
                  if (length cells <? 8)%nat then [] else [match_row cells])
               data_rows
  end.

(** [parse_standings(soup)]: a dict that has the key of a side when the
    table of that side is there. *)
Definition parse_standings (soup : node)
  : result (gmap (list ascii) StandingsTable) :=
  let standings : gmap (list ascii) StandingsTable := ∅ in
  match find (tag_id (py "div") (py "porletP4")) soup with
  | None => Return standings
  | Some standings_parent_div =>
      let home_div := find (tag_class (py "div") (py "home-div")) standings_parent_div in
      let guest_div := find (tag_class (py "div") (py "guest-div")) standings_parent_div in
      try! standings :=
        match home_div with
        | Some home_div =>
            match find (tag_class (py "table") (py "team-table-home")) home_div with
            | Some home_table =>
                try! t := parse_standings_table home_table in
                Return (<[ py "home_team_standings" := t ]> standings)
            | None => Return standings
            end
        | None => Return standings
        end in
      match guest_div with
      | Some guest_div =>
          match find (tag_class (py "table") (py "team-table-guest")) guest_div with
          | Some guest_table =>
              try! t := parse_standings_table guest_table in
              Return (<[ py "away_team_standings" := t ]> standings)
          | None => Return standings
          end
      | None => Return standings
      end
  end.

(** What an extractor returns when its section is missing, [{"error": msg}],
    or its data. *)
Inductive section (A : Type) : Type :=
  | ErrorMarker (error : list ascii)
  | Data (a : A).
Arguments ErrorMarker {A} error.
Arguments Data {A} a.

Record Injuries : Type := {
  inj_home_team : list Player;
  inj_away_team : list Player
}.

(** [parse_injury_suspension(soup)] *)
Definition parse_injury_suspension (soup : node) : section Injuries :=
  match find (tag_id (py "div") (py "porletP13")) soup with
  | None => ErrorMarker (py "Injury and Suspension section (porletP13) not found.")
  | Some injury_section =>
      let side i :=
        match find (tag_id (py "div") i) injury_section with
        | Some d => parse_player_list (find (tag_class (py "div") (py "player-list")) d)
        | None => []
        end in
      Data {| inj_home_team := side (py "injuryH");
              inj_away_team := side (py "injuryG") |}
  end.

Record Lineup : Type := {
  formation : list ascii;
  starters : list Player;
  substitutes : list Player
}.

(** The lineups of the two sides; [None] is the empty dict of a side whose
    block is missing. *)
Record Lineups : Type := {
  lu_home_team : option Lineup;
  lu_away_team : option Lineup
}.

(** [parse_last_match_lineups(soup)] *)
Definition parse_last_match_lineups (soup : node) : section Lineups :=
  match find (tag_id (py "div") (py "porletP14")) soup with
  | None => ErrorMarker (py "Last Match Lineups section (porletP14) not found.")
  | Some lineup_section =>
      let side i :=
        match find (tag_id (py "div") i) lineup_section with
        | Some d =>
            let player_lists := find_all (tag_class (py "div") (py "player-list")) d in
            Some {| formation := text_or [] (find (tag_class (py "div") (py "injury")) d);
                    starters :=
                      if (0 <? length player_lists)%nat
                      then parse_player_list (player_lists !! 0%nat) else [];
                    substitutes :=
                      if (1 <? length player_lists)%nat
                      then parse_player_list (player_lists !! 1%nat) else [] |}
        | None => None
        end in
      Data {| lu_home_team := side (py "lineupH");
              lu_away_team := side (py "lineupG") |}
  end.

Record FixtureRow : Type := {
  fx_league : list ascii;
  fx_date : list ascii;
  fx_type : list ascii;
  fx_opponent : list ascii;
  fx_countdown : list ascii
}.

Record Fixture : Type := {
  home_team_fixture : list FixtureRow;
  away_team_fixture : list FixtureRow
}.

(** [parse_fixture_table(table)] *)
Definition parse_fixture_table (table : option node) : list FixtureRow :=
  match table with
  | None => []
  | Some table =>
      flat_map (fun row =>
                  match find_all (is_tag (py "td")) row with
                  | [c0; c1; c2; c3; c4] =>
                      [{| fx_league := get_default (py "title") [] c0;
                          fx_date := strip (text c1);
                          fx_type := strip (text c2);
                          fx_opponent := strip (text c3);
                          fx_countdown := strip (text c4) |}]
                  | _ => []
                  end)
               (slice (Some 1) None (find_all (is_tag (py "tr")) table))
  end.

(** [parse_fixture(soup)] *)
Definition parse_fixture (soup : node) : section Fixture :=
  match find (tag_id (py "div") (py "porletP12")) soup with
  | None => ErrorMarker (py "Fixture section (porletP12) not found.")
  | Some fixture_section =>
      let side c :=
        match find (tag_class (py "div") c) fixture_section with
        | Some d => parse_fixture_table (find (is_tag (py "table")) d)
        | None => []
        end in
      Data {| home_team_fixture := side (py "home-div");
              away_team_fixture := side (py "guest-div") |}
  end.

Record ScoreInfo : Type := {
  status : list ascii;
  home_score : list ascii;
  away_score : list ascii;
  ht_score : list ascii;
  ht_home_score : list ascii;
  ht_away_score : list ascii
}.

(** Both halves of a first-half score are written: the text before the
    first "-" and the text after it, up to the next "-", are not empty. *)
Definition halves_present (ht_score_full : list ascii) : bool :=
  match split_on "-"%char ht_score_full with
  | p0 :: p1 :: _ =>
      negb (bool_decide (p0 = [])) && negb (bool_decide (p1 = []))
  | _ => false
  end.

(** The part of [parse_match_info] that fills [ht_score] and its two
    halves from the text of the span of the first half. *)
Definition split_ht_score (ht_score_full : list ascii)
  : list ascii * list ascii * list ascii :=
  if contains ht_score_full (py "-")
  then match split_on "-"%char ht_score_full with
       | p0 :: p1 :: _ => (ht_score_full, p0, p1)
       | _ => (ht_score_full, [], [])
       end
  else (ht_score_full, [], []).

(** What the code makes of the text [ht] of the first-half span: with a
    "-" in the text, the two sub-scores are the first two pieces of the
    text cut at every "-"; without one, they are empty. *)
Definition ht_fields (ht h a : list ascii) : Prop :=
  if contains ht (py "-")
  then exists p0 p1 rest,
         split_on "-"%char ht = p0 :: p1 :: rest
         /\ h = p0 /\ a = p1
         /\ ht = join (py "-") (p0 :: p1 :: rest)
         /\ ~ In "-"%char p0 /\ ~ In "-"%char p1
  else h = [] /\ a = [].

(** The score block of [parse_match_info]. *)
Definition parse_score_info (header : node) : ScoreInfo :=
  match find (tag_id (py "div") (py "mScore")) header with
  | None => {| status := []; home_score := []; away_score := [];
               ht_score := []; ht_home_score := []; ht_away_score := [] |}
  | Some score_container =>
      let status := text_or [] (find (tag_class (py "div") (py "state")) score_container) in
      let scores := find_all (tag_class (py "div") (py "score")) score_container in
      let '(home, away) :=
        match scores with
        | [s0; s1] => (strip (text s0), strip (text s1))
        | _ => ([], [])
        end in
      let '(ht, ht_home, ht_away) :=
        match find (fun n => is_tag (py "span") n
                             && attr_is (py "title") (py "Score 1st Half") n)
                   score_container with
        | Some ht_score_span => split_ht_score (strip (text ht_score_span))
        | None => ([], [], [])
        end in
      {| status := status; home_score := home; away_score := away;
         ht_score := ht; ht_home_score := ht_home; ht_away_score := ht_away |}
  end.

Record MatchInfo : Type := {
  mi_league : list ascii;
  mi_match_time_utc : list ascii;
  mi_home_team_name : list ascii;
  mi_home_team_logo_url : list ascii;
  mi_away_team_name : list ascii;
  mi_away_team_logo_url : list ascii;
  mi_stadium : list ascii;
  mi_weather : list ascii;
  mi_score_info : ScoreInfo
}.

(** [get_logo_url(img_tag)] *)
Definition get_logo_url (img_tag : option node) : list ascii :=
  match img_tag with
  | None => []
  | Some img =>
      let src := get_default (py "src") [] img in
      if startswith src (py "//") then py "https:" ++ src else src
  end.

Section MatchInfo.

(** [str(node)]: the text of a string, the markup of a tag as BeautifulSoup
    writes it. *)
Variable markup : node -> list ascii.

(** [parse_match_info(soup)] *)
Definition parse_match_info (soup : node) : section MatchInfo :=
  match find (tag_id (py "div") (py "fbheader")) soup with
  | None => ErrorMarker (py "Match info header (fbheader) not found.")
  | Some header =>
      let home_team_div := find (tag_class (py "div") (py "home")) header in
      let guest_team_div := find (tag_class (py "div") (py "guest")) header in
      let other_info_div := find (tag_id (py "div") (py "otherInfo")) header in
      let league_text :=
        match find (tag_class (py "span") (py "sclassLink")) header with
        | Some league_span => join (py " ") (split_ws (text league_span))
        | None => []
        end in
      let stadium :=
        match other_info_div with
        | Some d =>
            match find_located (tag_class (py "i") (py "icon-font-animation")) d with
            | Some (_, parent, _) => strip (text parent)
            | None => []
            end
        | None => []
        end in
      let weather :=
        match other_info_div with
        | Some d =>
            match find_located (tag_class (py "i") (py "icon-weather")) d with
            | Some (_, _, Some next_sibling) =>
                if truthy next_sibling then strip (markup next_sibling) else []
            | _ => []
            end
        | None => []
        end in
      let team_name div :=
        match div with
        | Some d => text_or [] (find (tag_class (py "div") (py "sclassName")) d)
        | None => []
        end in
      let team_logo div :=
        match div with
        | Some d => get_logo_url (find (is_tag (py "img")) d)
        | None => []
        end in
      Data {| mi_league := league_text;
              mi_match_time_utc :=
                match find (tag_class (py "span") (py "time")) header with
                | Some t => get_default (py "data-t") [] t
                | None => []
                end;
              mi_home_team_name := team_name home_team_div;
              mi_home_team_logo_url := team_logo home_team_div;
              mi_away_team_name := team_name guest_team_div;
              mi_away_team_logo_url := team_logo guest_team_div;
              mi_stadium := stadium;
              mi_weather := weather;
              mi_score_info := parse_score_info header |}
  end.

End MatchInfo.

(** ** The details of the page *)

(** The dict returned by [parse_h2h_details]. *)
Record H2HDetails : Type := {
  h2h_standings : gmap (list ascii) StandingsTable;
  head_to_head : list MatchRow;
  home_team_previous_matches : list MatchRow;
  away_team_previous_matches : list MatchRow;
  injury_and_suspension : section Injuries;
  last_match_lineups : section Lineups
}.

(** [parse_h2h_details(soup)]: it raises when [parse_standings] does. *)
Definition parse_h2h_details (soup : node) : result H2HDetails :=
  try! standings := parse_standings soup in
  Return {| h2h_standings := standings;
            head_to_head := parse_match_list_table soup (py "table_v3");
            home_team_previous_matches := parse_match_list_table soup (py "table_v1");
            away_team_previous_matches := parse_match_list_table soup (py "table_v2");
            injury_and_suspension := parse_injury_suspension soup;
            last_match_lineups := parse_last_match_lineups soup |}.

(** ** The odds of the first half *)

(** The three snapshots of a market and its flag. *)
Record Market : Type := {
  mk_first : json;
  mk_last : json;
  mk_current : json;
  mk_has_changed : json
}.

Record CompanyOdds : Type := {
  company_id : option json;
  company_name : json;
  european_odds : Market;
  over_under : Market;
  asian_handicap : Market
}.

(** The dict of a successful parse; the last two fields are those of its
    [raw_data_preview]. *)
Record OddsData : Type := {
  error_code : json;
  match_state : json;
  betting_companies_count : nat;
  first_half_odds : list CompanyOdds;
  total_companies : nat;
  data_keys : list (list ascii)
}.

Inductive odds_result : Type :=
  | OddsError (error : list ascii)
  | Odds (d : OddsData).

(** The name of the type of a value, as the messages of the interpreter
    write it. *)
Definition type_name (v : json) : list ascii :=
  match v with
  | JNull => py "NoneType"
  | JBool _ => py "bool"
  | JInt _ => py "int"
  | JStr _ => py "str"
  | JArr _ => py "list"
  | JObj _ => py "dict"
  end.

(** The [AttributeError] of [v.get] for a [v] that is not a dict. *)
Definition no_get (v : json) : exn :=
  Exn AttributeError
    (py "'" ++ type_name v ++ py "' object has no attribute 'get'").

(** [v.get(k, default)]: only a dict has the method. *)
Definition get_of (v : json) (k : string) (default : json) : result json :=
  match v with
  | JObj fields => Return (obj_get_default k default fields)
  | _ => Raise (no_get v)
  end.

(** The values a [for] loop over [v] goes through: the items of a list,
    the characters of a string, the keys of a dict. *)
Definition iterate (v : json) : result (list json) :=
  match v with
  | JArr l => Return l
  | JStr s => Return (map (fun c => JStr [c]) s)
  | JObj fields => Return (map (fun kv => JStr (fst kv)) fields)
  | _ => Raise (Exn TypeError
                  (py "'" ++ type_name v ++ py "' object is not iterable"))
  end.

(** One market of an entry: [odds_entry.get(name, {})] and its four
    fields. *)
Definition market_of (odds_entry : json) (name : string) : result Market :=
  try! m := get_of odds_entry name (JObj []) in
  try! f := get_of m "f" (JObj []) in
  try! l := get_of m "l" (JObj []) in
  try! r := get_of m "r" (JObj []) in
  try! hr := get_of m "hr" (JBool false) in
  Return {| mk_first := f; mk_last := l; mk_current := r; mk_has_changed := hr |}.

(** The [try] block of the loop over the entries. *)
Definition company_of (odds_entry : json) : result CompanyOdds :=
  try! cid := match odds_entry with
              | JObj fields => Return (obj_get (py "cid") fields)
              | _ => Raise (no_get odds_entry)
              end in
  try! cn := get_of odds_entry "cn" (JStr []) in
  try! euro := market_of odds_entry "euro" in
  try! ou := market_of odds_entry "ou" in
  try! ah := market_of odds_entry "ah" in
  Return {| company_id := cid; company_name := cn; european_odds := euro;
            over_under := ou; asian_handicap := ah |}.

(** The loop over the entries: an entry whose [try] block raises is
    skipped. *)
Definition parsed_companies (entries : list json) : list CompanyOdds :=
  fold_left (fun parsed_odds odds_entry =>
               match company_of odds_entry with
               | Return company_data => parsed_odds ++ [company_data]
               | Raise _ => parsed_odds
               end)
            entries [].

(** [error_code != 0]: [False] equals 0 as well. *)
Definition differs_from_zero (v : json) : bool :=
  match v with
  | JInt n => negb (n =? 0)
  | JBool b => b
  | _ => true
  end.

Section FirstHalfOdds.

(** [str(v)], as the f-string of the error code writes a value. *)
Variable py_str : json -> list ascii.

(** The outer [try] block of [parse_first_half_odds]. *)
Definition parse_first_half_odds_try (json_data : json) : result odds_result :=
  match json_data with
  | JObj (item :: items) =>
      let fields := item :: items in
      let error_code := obj_get_default "ErrCode" (JInt (-1)) fields in
      let data := obj_get_default "Data" (JObj []) fields in
      let match_state := obj_get_default "MatchState" (JInt (-1)) fields in
      if differs_from_zero error_code
      then Return (OddsError (py "API returned error code: " ++ py_str error_code))
      else
        try! mixodds := get_of data "mixodds" (JArr []) in
        try! entries := iterate mixodds in
        let parsed_odds := parsed_companies entries in
        Return (Odds {| error_code := error_code;
                        match_state := match_state;
                        betting_companies_count := length parsed_odds;
                        first_half_odds := parsed_odds;
                        total_companies := length entries;
                        data_keys :=
                          match data with
                          | JObj data_fields => map fst data_fields
                          | _ => []
                          end |})
  | _ => Return (OddsError (py "Invalid JSON data for first half odds"))
  end.

(** [parse_first_half_odds(json_data)] *)
Definition parse_first_half_odds (json_data : json) : odds_result :=
  match parse_first_half_odds_try json_data with
  | Return r => r
  | Raise e => OddsError (py "Failed to parse first half odds: " ++ exn_msg e)
  end.

End FirstHalfOdds.

(** An entry the loop keeps: a dict whose [euro], [ou] and [ah], where it
    has them, are dicts. *)
Definition is_dict (v : json) : bool :=
  match v with
  | JObj _ => true
  | _ => false
  end.

Definition well_formed_entry (odds_entry : json) : bool :=
  match odds_entry with
  | JObj fields =>
      is_dict (obj_get_default "euro" (JObj []) fields)
      && is_dict (obj_get_default "ou" (JObj []) fields)
      && is_dict (obj_get_default "ah" (JObj []) fields)
  | _ => false
  end.

(** ** The debug view of a table *)

Record CellInfo : Type := {
  ci_index : nat;
  ci_text : list ascii;
  ci_has_spans : bool;
  ci_span_classes : list (list (list ascii))
}.

Record RowStructure : Type := {
  rs_row_index : nat;
  rs_cell_count : nat;
  rs_cells : list CellInfo
}.

Record DebugInfo : Type := {
  dbg_table_id : list ascii;
  dbg_total_rows : nat;
  dbg_sample_row_structure : list RowStructure
}.

(** [enumerate(l)] *)
Definition enumerate {A} (l : list A) : list (nat * A) :=
  combine (seq 0 (length l)) l.

(** The text of a cell in the debug view: cut after 50 characters, with
    three dots, when it is longer. *)
Definition preview_text (cell : node) : list ascii :=
  let t := strip (text cell) in
  if (50 <? length t)%nat then slice None (Some 50) t ++ py "..." else t.

(** [span.get('class', [])]: the classes of a tag. *)
Definition classes_of (n : node) : list (list ascii) :=
  match get (py "class") n with
  | Some v => split_ws v
  | None => []
  end.

(** [debug_table_structure(soup, table_id)] *)
Definition debug_table_structure (soup : node) (table_id : list ascii)
  : section DebugInfo :=
  match find (tag_id (py "table") table_id) soup with
  | None =>
      ErrorMarker (py "Table with id '" ++ table_id ++ py "' not found")
  | Some table =>
      let data_rows :=
        find_all (fun n => is_tag (py "tr") n && id_is_data_row n) table in
      Data {| dbg_table_id := table_id;
              dbg_total_rows := length data_rows;
              dbg_sample_row_structure :=
                map (fun ir =>
                       let cells := find_all (is_tag (py "td")) (snd ir) in
                       {| rs_row_index := fst ir;
                          rs_cell_count := length cells;
                          rs_cells :=
                            map (fun jc =>
                                   let spans := find_all (is_tag (py "span")) (snd jc) in
                                   {| ci_index := fst jc;
                                      ci_text := preview_text (snd jc);
                                      ci_has_spans := (0 <? length spans)%nat;
                                      ci_span_classes := map classes_of spans |})
                                (enumerate cells) |})
                    (enumerate (slice None (Some 3) data_rows)) |}
  end.

(** ** Notions used to state what the parsers do *)

(** A record body written with every field in single quotes. *)
Definition quote_fields (fields : list (list ascii)) : list ascii :=
  join (py ",") (map (fun f => py "'" ++ f ++ py "'") fields).

(** The digits of an index are few enough for [int]. *)
Definition within_digit_limit (ds : list ascii) : bool :=
  Z.of_nat (length ds) <=? int_max_str_digits.

(** What one match of the pattern of the B array puts in the table of the
    leagues: its index and its dict, when the index has no more digits than
    [int] takes and the record has 3 fields at least. *)
Definition league_entry (m : list ascii * list ascii)
  : option (Z * LeagueRecord) :=
  if within_digit_limit (fst m)
  then match simple_parts (snd m) with
       | p0 :: p1 :: p2 :: rest =>
           Some (digits_value (fst m),
                 {| lg_league_id := p0; lg_league_code := p1;
                    lg_league_name := p2; lg_color := head rest |})
       | _ => None
       end
  else None.

(** The same for the C array, with 2 fields at least. *)
Definition country_entry (m : list ascii * list ascii)
  : option (Z * CountryRecord) :=
  if within_digit_limit (fst m)
  then match simple_parts (snd m) with
       | p0 :: p1 :: _ =>
           Some (digits_value (fst m),
                 {| ct_country_id := p0; ct_country_name := p1 |})
       | _ => None
       end
  else None.

(** The value an entry gives for the index [i], if it is an entry of [i]. *)
Definition entry_at {V} (i : Z) (e : option (Z * V)) : option V :=
  match e with
  | Some (k, v) => if bool_decide (k = i) then Some v else None
  | None => None
  end.

(** The texts the loop over the candidate result cells passes over. *)
Definition is_placeholder (t : list ascii) : bool :=
  bool_decide (t ∈ [[]; py "-"; py "?"]).

(** The text of the cell where [parse_match_list_table] looks for the
    result first. *)
Definition primary_result (cells : list node) : list ascii :=
  if (11 <? length cells)%nat then strip (text (cell cells 11))
  else if (7 <? length cells)%nat then strip (text (cell cells 7))
  else [].

(** ** The family of the extractors *)

(** The extractors of the HTML engine; the three match lists are the
    instances of [parse_match_list_table] at their table ids. *)
Inductive extractor : Type :=
  | MatchInfoOf
  | FixtureOf
  | StandingsOf
  | MatchListOf (table_id : list ascii)
  | InjuryOf
  | LineupsOf.

(** The container an extractor looks for first: its tag and its id. *)
Definition target (e : extractor) : list ascii * list ascii :=
  match e with
  | MatchInfoOf => (py "div", py "fbheader")
  | FixtureOf => (py "div", py "porletP12")
  | StandingsOf => (py "div", py "porletP4")
  | MatchListOf table_id => (py "table", table_id)
  | InjuryOf => (py "div", py "porletP13")
  | LineupsOf => (py "div", py "porletP14")
  end.

Definition target_missing (e : extractor) (soup : node) : Prop :=
  find (tag_id (fst (target e)) (snd (target e))) soup = None.

(** What an extractor returns. *)
Inductive output : Type :=
  | MatchInfoOut (r : section MatchInfo)
  | FixtureOut (r : section Fixture)
  | StandingsOut (r : gmap (list ascii) StandingsTable)
  | MatchListOut (r : list MatchRow)
  | InjuryOut (r : section Injuries)
  | LineupsOut (r : section Lineups).

Definition section_is_error {A} (r : section A) : bool :=
  match r with
  | ErrorMarker _ => true
  | Data _ => false
  end.

(** The value is a dict that has the key [error]. *)
Definition is_error_marker (o : output) : bool :=
  match o with
  | MatchInfoOut r => section_is_error r
  | FixtureOut r => section_is_error r
  | StandingsOut r => bool_decide (is_Some (r !! py "error"))
  | MatchListOut _ => false
  | InjuryOut r => section_is_error r
  | LineupsOut r => section_is_error r
  end.

(** The call of an extractor on a document. *)
Definition run (markup : node -> list ascii) (e : extractor) (soup : node)
  : result output :=
  match e with
  | MatchInfoOf => Return (MatchInfoOut (parse_match_info markup soup))
  | FixtureOf => Return (FixtureOut (parse_fixture soup))
  | StandingsOf => try! r := parse_standings soup in Return (StandingsOut r)
  | MatchListOf table_id =>
      Return (MatchListOut (parse_match_list_table soup table_id))
  | InjuryOf => Return (InjuryOut (parse_injury_suspension soup))
  | LineupsOf => Return (LineupsOut (parse_last_match_lineups soup))
  end.

(** What each extractor returns for a document without its container. *)
Definition missing_output (e : extractor) : output :=
  match e with
  | MatchInfoOf =>
      MatchInfoOut (ErrorMarker (py "Match info header (fbheader) not found."))
  | FixtureOf =>
      FixtureOut (ErrorMarker (py "Fixture section (porletP12) not found."))
  | StandingsOf => StandingsOut ∅
  | MatchListOf _ => MatchListOut []
  | InjuryOf =>
      InjuryOut (ErrorMarker
                   (py "Injury and Suspension section (porletP13) not found."))
  | LineupsOf =>
      LineupsOut (ErrorMarker
                    (py "Last Match Lineups section (porletP14) not found."))
  end.

End Parsers.

Import Parsers.

(** * models.py *)

Module Models.

(** [str(n)] for an integer. *)
Definition str_int (n : Z) : list ascii :=
  py (NilZero.string_of_int (Z.to_int n)).

(** An instance of [APIError]. *)
Record APIError : Type := {
  message : list ascii;
  status_code : Z;
  payload : option (list (list ascii * json))
}.

(** [APIError(message)] and [APIError(message, status_code)] *)
Definition api_error (message : list ascii) : APIError :=
  {| message := message; status_code := 400; payload := None |}.
Definition api_error_with (message : list ascii) (status_code : Z) : APIError :=
  {| message := message; status_code := status_code; payload := None |}.

(** An exception as a handler sees it: one of a library, or an
    [APIError]. *)
Inductive raised_exn : Type :=
  | LibraryExn (e : exn)
  | ApiExn (e : APIError).

(** [str(e)].  The constructor of [APIError] calls [super().__init__()]
    with no argument, so the text of an [APIError] is empty. *)
Definition str_exn (e : raised_exn) : list ascii :=
  match e with
  | LibraryExn e => exn_msg e
  | ApiExn _ => []
  end.

(** The outcome of code that may raise either. *)
Inductive outcome (A : Type) : Type :=
  | Done (a : A)
  | Raised (e : raised_exn).
Arguments Done {A} a.
Arguments Raised {A} e.

(** [validate_match_id(match_id)]: [True] is an [int] for [isinstance]. *)
Definition validate_match_id (match_id : json) : outcome json :=
  let invalid :=
    Raised (ApiExn (api_error_with
                      (py "Invalid match ID. Must be a positive integer.") 400)) in
  match match_id with
  | JInt n => if n <=? 0 then invalid else Done match_id
  | JBool b => if b then Done match_id else invalid
  | _ => invalid
  end.

(** [validate_api_key(api_key)] *)
Definition validate_api_key (api_key : json) : outcome (list ascii) :=
  match api_key with
  | JStr s =>
      if bool_decide (s = []) || (length (strip s) =? 0)%nat
      then Raised (ApiExn (api_error_with (py "Invalid API key") 400))
      else Done (strip s)
  | _ => Raised (ApiExn (api_error_with (py "Invalid API key") 400))
  end.

(** [build_success_response(data, cached, extra_fields)]; [timestamp] is
    the text of the clock at the call, and [extra_fields] is [None] or a
    dict. *)
Definition build_success_response (timestamp : list ascii) (data : json)
    (cached : bool) (extra_fields : option (gmap (list ascii) json))
  : gmap (list ascii) json :=
  let response : gmap (list ascii) json :=
    <[ py "success" := JBool true ]>
      (<[ py "timestamp" := JStr timestamp ]>
         (<[ py "data" := data ]> ∅)) in
  let response :=
    if cached then <[ py "cached" := JBool true ]> response else response in
  match extra_fields with
  | Some extra =>
      if bool_decide (extra = ∅) then response else extra ∪ response
  | None => response
  end.

(** [build_error_response(message, status_code, details)]; a [details]
    left out is [None]. *)
Definition build_error_response (timestamp : list ascii) (message : list ascii)
    (status_code : Z) (details : json) : gmap (list ascii) json :=
  let response : gmap (list ascii) json :=
    <[ py "success" := JBool false ]>
      (<[ py "timestamp" := JStr timestamp ]>
         (<[ py "error" := JStr message ]> ∅)) in
  if truthy_json details then <[ py "details" := details ]> response
  else response.

End Models.

Import Models.

(** * http_client.py *)

Module HttpClient.

(** The third component of the tuple [fetch_url] returns. *)
Inductive shape : Type := html | json_shape | error.

(** The second component: the text of the page, or a decoded JSON value;
    the dicts built for the failures are JSON objects of strings. *)
Inductive content : Type :=
  | PageText (s : list ascii)
  | JsonValue (j : json).

Section Fetch.

(** A duration measured with [time.time()]. *)
Variable Time : Type.

(** [json.loads] on a string; [None] stands for the [JSONDecodeError]. *)
Variable json_loads : list ascii -> option json.

(** What the session gives for one request. *)
Record response : Type := {
  (* None when [raise_for_status()] returns, else the message of the
     [ClientResponseError] it raises *)
  status_error : option (list ascii);
  (* [response.headers.get('content-type')] *)
  header_content_type : option (list ascii);
  (* [await response.text()] *)
  body_text : result (list ascii);
  (* [await response.json()] *)
  body_json : result json
}.

Inductive exchange : Type :=
  | GetRaises (e : exn)          (* [session.get(url)] raises *)
  | GetResponse (r : response).

(** One request as [fetch_url] observes it: the exchange, the time elapsed
    when the status has been checked, and the time elapsed when an
    exception reaches a handler. *)
Record observation : Type := {
  obs_exchange : exchange;
  elapsed_at_status : Time;
  elapsed_at_handler : Time
}.

Definition fetched : Type := list ascii * content * shape * Time.

Definition error_dict (fields : list (string * list ascii)) : content :=
  JsonValue (JObj (map (fun kv => (py (fst kv), JStr (snd kv))) fields)).

(** The three handlers that close [fetch_url]. *)
Definition handle (url key : list ascii) (o : observation) (e : exn) : fetched :=
  let fetch_time := elapsed_at_handler o in
  match exn_cls e with
  | ClientError =>
      (key, error_dict [("error", py "Failed to fetch " ++ url);
                        ("details", exn_msg e)], error, fetch_time)
  | JSONDecodeError =>
      (key, error_dict [("error", py "Failed to decode JSON from " ++ url);
                        ("details", exn_msg e)], error, fetch_time)
  | _ =>
      (key, error_dict [("error", py "Unexpected error: " ++ exn_msg e)],
       error, fetch_time)
  end.

(** The test [fetch_url] makes on the content type of a response. *)
Definition content_type_is_json (response : response) : bool :=
  let content_type :=
    lower (match header_content_type response with
           | Some v => v
           | None => []
           end) in
  contains content_type (py "application/json")
  || contains content_type (py "text/javascript").

(** [fetch_url(session, url, key)], given what the session does for the
    request.  Every exception of class [Exception] is handled, so the
    coroutine returns a tuple. *)
Definition fetch_url (url key : list ascii) (o : observation) : fetched :=
  match obs_exchange o with
  | GetRaises e => handle url key o e
  | GetResponse response =>
      match status_error response with
      | Some msg => handle url key o (Exn ClientError msg)
      | None =>
          let fetch_time := elapsed_at_status o in
          if bool_decide (key = py "h2h_details")
          then match body_text response with
               | Return text => (key, PageText text, html, fetch_time)
               | Raise e => handle url key o e
               end
          else
            if content_type_is_json response
            then match body_json response with
                 | Return json_data => (key, JsonValue json_data, json_shape, fetch_time)
                 | Raise e => handle url key o e
                 end
            else match body_text response with
                 | Return text =>
                     match json_loads text with
                     | Some json_data =>
                         (key, JsonValue json_data, json_shape, fetch_time)
                     | None =>
                         (key,
                          error_dict [("error", py "Response is not JSON");
                                      ("content", slice None (Some 200) text)],
                          error, fetch_time)
                     end
                 | Raise e => handle url key o e
                 end
      end
  end.

(** [fetch_all_urls(urls)]: one task per item of the dict, gathered in the
    order of the items.  [net key url] is what the session does for the
    task of that item.  No task raises, so [gather] returns the tuples and
    the handler of [fetch_all_urls] is not entered. *)
Definition fetch_all_urls (net : list ascii -> list ascii -> observation)
    (urls : list (list ascii * list ascii)) : list fetched :=
  map (fun item => fetch_url (snd item) (fst item) (net (fst item) (snd item)))
      urls.

End Fetch.

Arguments fetch_url {Time} json_loads url key o.
Arguments fetch_all_urls {Time} json_loads net urls.
Arguments handle {Time} url key o e.
Arguments obs_exchange {Time} o.
Arguments elapsed_at_status {Time} o.
Arguments elapsed_at_handler {Time} o.
Arguments Build_observation {Time}.

(** The projections of a result tuple. *)
Definition fetched_key {Time} (r : fetched Time) : list ascii := fst (fst (fst r)).
Definition fetched_content {Time} (r : fetched Time) : content := snd (fst (fst r)).
Definition fetched_shape {Time} (r : fetched Time) : shape := snd (fst r).
Definition fetched_time {Time} (r : fetched Time) : Time := snd r.

(** The entries of a result list for one key. *)
Definition entries_of {Time} (k : list ascii) (rs : list (fetched Time))
  : list (fetched Time) :=
  List.filter (fun r => bool_decide (fetched_key r = k)) rs.

(** ** The date request *)

(** What [requests.get] does for one request: it raises, or it returns a
    response with its status code and its text. *)
Inductive requests_outcome : Type :=
  | RequestRaises (e : exn)
  | RequestReturns (status_code : Z) (text : list ascii).

(** The [try] block of [fetch_date_data_simple]. *)
Definition fetch_date_data_try (o : requests_outcome) : outcome (list ascii) :=
  match o with
  | RequestRaises e => Raised (LibraryExn e)
  | RequestReturns status_code text =>
      if negb (status_code =? 200)
      then Raised (ApiExn (api_error
                             (py "API returned status " ++ str_int status_code)))
      else Done text
  end.

(** [fetch_date_data_simple(api_url)], given what [requests.get] does: the
    handler of [Exception] also takes the [APIError] of the [try] block. *)
Definition fetch_date_data_simple (o : requests_outcome) : outcome (list ascii) :=
  match fetch_date_data_try o with
  | Done text => Done text
  | Raised e =>
      Raised (ApiExn (api_error_with (py "Failed to fetch data: " ++ str_exn e) 500))
  end.

(** ** Sessions for the checks *)

(** A response of status 200 with the given content type and body. *)
Definition ok_response (content_type body : list ascii) : response :=
  {| status_error := None;
     header_content_type := Some content_type;
     body_text := Return body;
     body_json := Raise (Exn ClientError (py "unexpected mimetype")) |}.

(** A parser for the checks: it reads the text of an empty object only. *)
Definition loads_empty_object (s : list ascii) : option json :=
  if bool_decide (strip s = py "{}") then Some (JObj []) else None.

(** A session for the checks: every request is answered with an empty
    JSON object after 3 time units, except the one of the page, which
    fails with a client error after 7. *)
Definition net_all_ok (k u : list ascii) : observation nat :=
  Build_observation (GetResponse (ok_response (py "text/plain") (py "{}")))
    3%nat 4%nat.

Definition net_page_fails (k u : list ascii) : observation nat :=
  if bool_decide (k = py "h2h_details")
  then Build_observation
         (GetRaises (Exn ClientError (py "Cannot connect to host"))) 0%nat 7%nat
  else net_all_ok k u.

Definition two_urls : list (list ascii * list ascii) :=
  [(py "h2h_details", py "http://upstream/match/h2h-1");
   (py "ah_odds", py "http://upstream/ajax?t=2")].

End HttpClient.

(** * app.py: the date listing *)

Module App.

Record LeagueOut : Type := {
  lo_id : option Z;
  lo_name : list ascii;
  lo_code : list ascii
}.

(** One entry of the [matches] list of the response. *)
Record MatchOut : Type := {
  mo_match_id : option Z;
  mo_home_team : list ascii;
  mo_away_team : list ascii;
  mo_match_time : option (list ascii);
  mo_league : LeagueOut
}.

(** [parsed_data['leagues'].get(match['league_id'], {})] *)
Definition league_info (leagues : gmap Z LeagueRecord) (league_id : option Z)
  : option LeagueRecord :=
  match league_id with
  | Some i => leagues !! i
  | None => None
  end.

(** The dict appended for a match whose [match_time] is [t]. *)
Definition match_out (leagues : gmap Z LeagueRecord) (m : MatchRecord)
    (t : datetime) : MatchOut :=
  let info := league_info leagues (league_id m) in
  {| mo_match_id := match_id m;
     mo_home_team := home_team m;
     mo_away_team := away_team m;
     mo_match_time := Some (isoformat t);
     mo_league :=
       {| lo_id := league_id m;
          lo_name := match info with
                     | Some l => lg_league_name l
                     | None => py "Unknown"
                     end;
          lo_code := match info with
                     | Some l => lg_league_code l
                     | None => []
                     end |} |}.

(** The loop of [get_matches_by_date] over [parsed_data['matches']]. *)
Definition collect_matches (parsed_data : ParsedDate) : list MatchOut :=
  fold_left
    (fun matches m =>
       match match_time m with
       | Some t => matches ++ [match_out (pd_leagues parsed_data) m t]
       | None => matches
       end)
    (pd_matches parsed_data) [].

(** The test of the loop: the record has a [match_time]. *)
Definition has_time (m : MatchRecord) : bool :=
  bool_decide (is_Some (match_time m)).

(** The response of the date query, without its [cached_at] stamp. *)
Record DateResult : Type := {
  date : list ascii;
  match_count : nat;
  matches : list MatchOut
}.

Section DateQuery.

Variable json_loads : list ascii -> option json.

(** [get_matches_by_date(date_str)] on a cache miss, from the text the
    upstream returned on: the [Raise] case is the [APIError] that becomes
    the status 500. *)
Definition get_matches_by_date (date_str response_text : list ascii)
  : result DateResult :=
  match parse_date_response json_loads response_text with
  | None => Raise (Exn OtherException (py "Failed to parse match data"))
  | Some parsed_data =>
      let matches := collect_matches parsed_data in
      Return {| date := date_str;
                match_count := length matches;
                matches := matches |}
  end.

End DateQuery.

(** ** The details of a match *)

(** What [fetch_match_data_sync] stores under a key of its dict: the
    content of a result as it came, or what a parser made of it, or the
    error dict it writes itself. *)
Inductive slot : Type :=
  | Passed (c : HttpClient.content)
  | OddsSlot (r : odds_result)
  | MatchInfoSlot (r : section MatchInfo)
  | FixtureSlot (r : section Fixture)
  | DetailsSlot (r : H2HDetails)
  | ErrorSlot (error : list ascii).

Section MatchData.

Variable Time : Type.
Variable json_loads : list ascii -> option json.
Variable markup : node -> list ascii.
Variable py_str : json -> list ascii.

(** [BeautifulSoup(content, 'lxml')] *)
Variable make_soup : HttpClient.content -> result node.

(** The text of [random.random()] at the call. *)
Variable flesh : list ascii.

(** The dict [fetch_match_data_sync] builds, without its timestamp: the
    times under [fetch_times] and the other keys. *)
Record match_data : Type := {
  md_match_id : Z;
  fetch_times : gmap (list ascii) Time;
  slots : gmap (list ascii) slot
}.

Definition set_slot (data : match_data) (key : list ascii) (v : slot)
  : match_data :=
  {| md_match_id := md_match_id data;
     fetch_times := fetch_times data;
     slots := <[ key := v ]> (slots data) |}.

(** The value handed to [parse_first_half_odds]. *)
Definition content_value (c : HttpClient.content) : json :=
  match c with
  | HttpClient.JsonValue j => j
  | HttpClient.PageText t => JStr t
  end.

(** The [try] block for the page and its handler. *)
Definition store_page (data : match_data) (key : list ascii)
    (content : HttpClient.content) : match_data :=
  match make_soup content with
  | Raise e => set_slot data key (ErrorSlot (py "Failed to parse HTML: " ++ exn_msg e))
  | Return soup =>
      let data := set_slot data (py "match_info")
                    (MatchInfoSlot (parse_match_info markup soup)) in
      let data := set_slot data (py "fixture") (FixtureSlot (parse_fixture soup)) in
      match parse_h2h_details soup with
      | Return details => set_slot data (py "h2h_details") (DetailsSlot details)
      | Raise e =>
          set_slot data key (ErrorSlot (py "Failed to parse HTML: " ++ exn_msg e))
      end
  end.

(** The name of a tag, as the message of an unknown one writes it. *)
Definition shape_name (t : HttpClient.shape) : list ascii :=
  match t with
  | HttpClient.html => py "html"
  | HttpClient.json_shape => py "json"
  | HttpClient.error => py "error"
  end.

(** One turn of the loop over the results. *)
Definition store_result (data : match_data) (result : HttpClient.fetched Time)
  : match_data :=
  let key := HttpClient.fetched_key result in
  let content := HttpClient.fetched_content result in
  let content_type := HttpClient.fetched_shape result in
  let data :=
    {| md_match_id := md_match_id data;
       fetch_times := <[ key := HttpClient.fetched_time result ]> (fetch_times data);
       slots := slots data |} in
  match content_type with
  | HttpClient.error => set_slot data key (Passed content)
  | HttpClient.html =>
      if bool_decide (key = py "h2h_details")
      then store_page data key content
      else set_slot data key
             (ErrorSlot (py "Unknown content type: " ++ shape_name content_type))
  | HttpClient.json_shape =>
      if bool_decide (key = py "first_half_odds")
      then set_slot data key
             (OddsSlot (parse_first_half_odds py_str (content_value content)))
      else set_slot data key (Passed content)
  end.

(** What a turn of the loop stores under the key of its result, when the
    result is not a page. *)
Definition own_slot (r : HttpClient.fetched Time) : slot :=
  match HttpClient.fetched_shape r with
  | HttpClient.error => Passed (HttpClient.fetched_content r)
  | HttpClient.html => ErrorSlot (py "Unknown content type: html")
  | HttpClient.json_shape =>
      if bool_decide (HttpClient.fetched_key r = py "first_half_odds")
      then OddsSlot (parse_first_half_odds py_str
                       (content_value (HttpClient.fetched_content r)))
      else Passed (HttpClient.fetched_content r)
  end.

(** The dict of the addresses fetched for a match, in its order. *)
Definition match_urls (match_id : Z) : list (list ascii * list ascii) :=
  let id := str_int match_id in
  let ajax := py "https://live20.nowgoal25.com/ajax/soccerajax?type=14&t=" in
  [ (py "h2h_details", py "https://live20.nowgoal25.com/match/h2h-" ++ id);
    (py "ah_odds", ajax ++ py "2&id=" ++ id);
    (py "corner_odds", ajax ++ py "4&id=" ++ id);
    (py "correct_score_odds", ajax ++ py "5&id=" ++ id);
    (py "double_chance_odds", ajax ++ py "7&id=" ++ id);
    (py "odds_comp", ajax ++ py "1&id=" ++ id);
    (py "over_under_odds", ajax ++ py "3&id=" ++ id);
    (py "first_half_odds", ajax ++ py "1&id=" ++ id ++ py "&h=1&s=0&flesh=" ++ flesh) ].

(** The loop over the results, from the dict with no key yet. *)
Definition store_results (match_id : Z) (results : list (HttpClient.fetched Time))
  : match_data :=
  fold_left store_result results
    {| md_match_id := match_id; fetch_times := ∅; slots := ∅ |}.

(** [fetch_match_data_sync(match_id)], given what the session does for each
    request: the event loop it runs the fan-out on is left out. *)
Definition fetch_match_data_sync
    (net : list ascii -> list ascii -> HttpClient.observation Time)
    (match_id : Z) : outcome match_data :=
  if match_id <=? 0
  then Raised (ApiExn (api_error_with (py "Invalid match ID") 400))
  else Done (store_results match_id
               (HttpClient.fetch_all_urls json_loads net (match_urls match_id))).

End MatchData.

Arguments md_match_id {Time} m.
Arguments fetch_times {Time} m.
Arguments slots {Time} m.

(** The errors of a dict are those of the page: an error dict the loop
    writes itself sits under [h2h_details] and starts with the words of
    the handler of the page. *)
Definition only_page_errors (m : gmap (list ascii) slot) : Prop :=
  forall k msg,
    m !! k = Some (ErrorSlot msg) ->
    k = py "h2h_details"
    /\ exists detail, msg = py "Failed to parse HTML: " ++ detail.

(** ** The endpoint of the date query *)

(** The body of a response of the endpoint. *)
Inductive date_body : Type :=
  | DateBody (r : DateResult)
  | ErrorBody (error : list ascii).

(** The response of the endpoint: its body, its status, and what it stores
    in the cache, if anything. *)
Record date_response : Type := {
  body : date_body;
  status : Z;
  cache_set : option DateResult
}.

Section DateEndpoint.

Variable json_loads : list ascii -> option json.

(** [datetime.strptime(s, '%Y-%m-%d')]; [None] stands for its
    [ValueError]. *)
Variable strptime : list ascii -> option datetime.

(** The text of [random.random()] at the call. *)
Variable flesh : list ascii.

(** The address of the upstream listing for a date. *)
Definition date_api_url (date_obj : datetime) : list ascii :=
  let formatted_date :=
    str_int (dt_year date_obj) ++ py "-" ++ str_int (dt_month date_obj)
    ++ py "-" ++ str_int (dt_day date_obj) in
  py "https://live20.nowgoal25.com/ajax/SoccerAjax?type=6&date="
  ++ formatted_date ++ py "&order=league&timezone=3&flesh=" ++ flesh.

(** The route [/api/v1/matches/date/<date_str>]: [cached_data] is what the
    cache holds for the date and [upstream] what [requests.get] does for an
    address. *)
Definition matches_by_date_endpoint (cached_data : option DateResult)
    (upstream : list ascii -> HttpClient.requests_outcome)
    (date_str : list ascii) : date_response :=
  match strptime date_str with
  | None =>
      {| body := ErrorBody (py "Invalid date format. Use YYYY-MM-DD");
         status := 400; cache_set := None |}
  | Some date_obj =>
      match cached_data with
      | Some cached => {| body := DateBody cached; status := 200; cache_set := None |}
      | None =>
          let api_url := date_api_url date_obj in
          match HttpClient.fetch_date_data_simple (upstream api_url) with
          | Raised e =>
              {| body := ErrorBody (str_exn e); status := 500; cache_set := None |}
          | Done response_text =>
              match get_matches_by_date json_loads date_str response_text with
              | Raise _ =>
                  {| body := ErrorBody (str_exn (ApiExn (api_error (py "Failed to parse match data"))));
                     status := 500; cache_set := None |}
              | Return result =>
                  {| body := DateBody result; status := 200;
                     cache_set := Some result |}
              end
          end
      end
  end.

End DateEndpoint.

End App.

(** * security.py *)

Module Security.

(** A request as the functions of this module read it: its headers, under
    the names the source asks for, and the address of its peer. *)
Record request : Type := {
  headers : gmap (list ascii) (list ascii);
  remote_addr : option (list ascii)
}.

(** [request.headers.get(name)] *)
Definition header (req : request) (name : string) : option (list ascii) :=
  headers req !! py name.

(** [get_real_ip()] *)
Definition get_real_ip (req : request) : option (list ascii) :=
  match header req "X-Forwarded-For" with
  | Some (c :: v) => Some (strip (nth 0 (split_on ","%char (c :: v)) []))
  | _ =>
      match header req "X-Real-IP" with
      | Some (c :: v) => Some (c :: v)
      | _ =>
          match header req "CF-Connecting-IP" with
          | Some (c :: v) => Some (c :: v)
          | _ => remote_addr req
          end
      end
  end.

(** What a decorated endpoint returns: the refusal of the decorator, a JSON
    error with its status, or what the endpoint itself returns. *)
Inductive guarded (R : Type) : Type :=
  | Refused (error : list ascii) (status : Z)
  | Called (r : R).
Arguments Refused {R} error status.
Arguments Called {R} r.

(** [require_api_key(f)] called on a request; [api_secret_key] is the
    configured [API_SECRET_KEY] and [f] what the endpoint returns. *)
Definition require_api_key {R} (api_secret_key : list ascii) (f : R)
    (req : request) : guarded R :=
  match header req "X-API-Key" with
  | Some (c :: k) =>
      if negb (bool_decide (c :: k = api_secret_key))
      then Refused (py "Invalid API key") 403
      else Called f
  | _ => Refused (py "API key is required") 401
  end.

(** What [jwt.decode] does with a token: the payload, or one of the two
    exceptions the decorator handles. *)
Inductive jwt_outcome : Type :=
  | Decoded (payload : list (list ascii * json))
  | ExpiredSignatureError
  | InvalidTokenError.

Section Auth.

(** [jwt.decode(token, key, algorithms=['HS256'])] *)
Variable jwt_decode : list ascii -> list ascii -> jwt_outcome.

(** The token [require_auth] takes from a request: [None] inside is a
    token that is missing, and [Raise] the [IndexError] of an
    [Authorization] header with no space in it. *)
Definition auth_token (req : request) : result (option (list ascii)) :=
  try! token :=
    match header req "Authorization" with
    | Some auth_header =>
        try! t := index (split_on " "%char auth_header) 1 in Return (Some t)
    | None => Return None
    end in
  Return (match token with
          | Some (c :: t) => Some (c :: t)
          | _ => header req "X-API-Key"
          end).

(** [require_auth(f)] called on a request; [f] gets the [user_id] of the
    payload. *)
Definition require_auth {R} (jwt_secret_key : list ascii)
    (f : option json -> R) (req : request) : guarded R :=
  match auth_token req with
  | Raise _ => Refused (py "Invalid token format") 401
  | Return (Some (c :: token)) =>
      match jwt_decode (c :: token) jwt_secret_key with
      | Decoded payload => Called (f (obj_get (py "user_id") payload))
      | ExpiredSignatureError => Refused (py "Token has expired") 401
      | InvalidTokenError => Refused (py "Invalid token") 401
      end
  | Return _ => Refused (py "Token is missing") 401
  end.

End Auth.

(** ** AdvancedRateLimit *)

Section RateLimit.

(** The keys of the limiter: the addresses [get_real_ip] returns. *)
Context {K : Type} `{Countable K}.

(** The readings of [time.time()], their difference and their order, and
    the number 3600 among them. *)
Variable Time : Type.
Variable diff : Time -> Time -> Time.
Variable lt : Time -> Time -> bool.
Variable hour : Time.

(** The two dicts of an [AdvancedRateLimit]. *)
Record limiter : Type := {
  requests : gmap K (list Time);
  blocked_ips : gmap K Time
}.

(** [AdvancedRateLimit()] *)
Definition new_limiter : limiter := {| requests := ∅; blocked_ips := ∅ |}.

(** [self.requests[ip]] read from the [defaultdict]. *)
Definition deque_of (st : limiter) (ip : K) : list Time :=
  match requests st !! ip with
  | Some dq => dq
  | None => []
  end.

(** The loop that drops the readings older than the window from the left
    of the deque. *)
Definition prune (window now : Time) (dq : list Time) : list Time :=
  dropwhile (fun t => lt window (diff now t)) dq.

(** [is_allowed] after the check of the block list, with the block list
    that check leaves. *)
Definition count_request (st : limiter) (blocked : gmap K Time) (ip : K) (limit : Z)
    (window now : Time) : bool * limiter :=
  let dq := prune window now (deque_of st ip) in
  let reqs := <[ ip := dq ]> (requests st) in
  if limit <=? Z.of_nat (length dq)
  then (false, {| requests := reqs; blocked_ips := <[ ip := now ]> blocked |})
  else (true, {| requests := <[ ip := dq ++ [now] ]> reqs;
                 blocked_ips := blocked |}).

(** [is_allowed(ip, limit, window)] at the reading [now]: the answer and
    the limiter after the call. *)
Definition is_allowed (st : limiter) (ip : K) (limit : Z) (window now : Time)
  : bool * limiter :=
  match blocked_ips st !! ip with
  | Some t =>
      if lt (diff now t) hour then (false, st)
      else count_request st (delete ip (blocked_ips st)) ip limit window now
  | None => count_request st (blocked_ips st) ip limit window now
  end.

(** A run of calls for one address, at the readings of the list. *)
Fixpoint calls (st : limiter) (ip : K) (limit : Z) (window : Time)
    (times : list Time) : list bool * limiter :=
  match times with
  | [] => ([], st)
  | now :: times' =>
      let r := is_allowed st ip limit window now in
      let rs := calls (snd r) ip limit window times' in
      (fst r :: fst rs, snd rs)
  end.

(** No reading of the list is older than the window at a later one. *)
Fixpoint within_window (window : Time) (times : list Time) : Prop :=
  match times with
  | [] => True
  | t :: times' =>
      Forall (fun now => lt window (diff now t) = false) times'
      /\ within_window window times'
  end.

End RateLimit.

Arguments requests {K _ _ Time} l.
Arguments blocked_ips {K _ _ Time} l.
Arguments new_limiter {K _ _ Time}.
Arguments deque_of {K _ _ Time} st ip.
Arguments prune {Time} diff lt window now dq.
Arguments is_allowed {K _ _ Time} diff lt hour st ip limit window now.
Arguments calls {K _ _ Time} diff lt hour st ip limit window times.
Arguments within_window {Time} diff lt window times.

(** ** SecurityMiddleware *)

Section Middleware.

Variable Time : Type.
Variable diff : Time -> Time -> Time.
Variable lt : Time -> Time -> bool.
Variable hour : Time.

(** [before_request()]: the refusal it returns, if any, and the limiter
    after it; the limit and the window are the defaults of [is_allowed],
    60 and 3600. *)
Definition before_request (st : limiter (K := option (list ascii)) Time)
    (req : request) (now : Time)
  : option (list ascii * Z) * limiter (K := option (list ascii)) Time :=
  let client_ip := get_real_ip req in
  let r := is_allowed diff lt hour st client_ip 60 hour now in
  if negb (fst r) then (Some (py "Rate limit exceeded", 429), snd r)
  else (None, snd r).

End Middleware.

End Security.

(** * Documents for the checks *)

Module Samples.

Definition tag (name : string) (attrs : list (string * string))
    (children : list node) : node :=
  Elem (py name) (map (fun kv => (py (fst kv), py (snd kv))) attrs) children.

Definition txt (s : string) : node := Text (py s).

(** A page with one match list of two data rows: one of 8 cells, one of a
    single cell. *)
Definition match_list_page : node :=
  tag "[document]" []
    [tag "table" [("id", "table_v1")]
       [tag "tr" [("id", "tr1_12")]
          [tag "td" [] [txt " ENG PR "];
           tag "td" [] [tag "span" [] [txt "24-07-2025"]];
           tag "td" [] [txt "Home FC"];
           tag "td" [] [tag "span" [("class", "fscore_1")] [txt "2-1"];
                        tag "span" [("class", "hscore_1")] [txt " (1-0) "]];
           tag "td" [] [txt "Away FC"];
           tag "td" [] [tag "span" [("class", "fcorner_1")] [txt "5-3"]];
           tag "td" [] [txt "W"];
           tag "td" [] []];
        tag "tr" [("id", "tr1_13")] [tag "td" [] [txt "short"]]]].

Definition match_list_row : MatchRow :=
  {| mr_league := py "ENG PR"; mr_date := py "24-07-2025";
     mr_home_team := py "Home FC"; mr_score := py "2-1";
     mr_ht_score := py "1-0"; mr_away_team := py "Away FC";
     mr_corner := py "5-3"; mr_ht_corner := []; mr_result := py "W" |}.

(** A page with a match header: a league in loose spacing and two logos,
    one with a protocol-relative address. *)
Definition header_page : node :=
  tag "[document]" []
    [tag "div" [("id", "fbheader")]
       [tag "span" [("class", "sclassLink")] [txt "  English   Premier
 League "];
        tag "div" [("class", "home")]
          [tag "img" [("src", "//cdn.example/home.png")] []];
        tag "div" [("class", "guest")]
          [tag "img" [("src", "https://cdn.example/away.png")] []]]].

Definition header_info : MatchInfo :=
  {| mi_league := py "English Premier League";
     mi_match_time_utc := [];
     mi_home_team_name := [];
     mi_home_team_logo_url := py "https://cdn.example/home.png";
     mi_away_team_name := [];
     mi_away_team_logo_url := py "https://cdn.example/away.png";
     mi_stadium := []; mi_weather := [];
     mi_score_info :=
       {| status := []; home_score := []; away_score := [];
          ht_score := []; ht_home_score := []; ht_away_score := [] |} |}.

(** A request that comes through a proxy, with an [Authorization] header
    of one word and an API key. *)
Definition forwarded_request : Security.request :=
  {| Security.headers :=
       <[ py "X-Forwarded-For" := py " 10.0.0.7 , 192.168.1.1" ]>
         (<[ py "Authorization" := py "good" ]>
            (<[ py "X-API-Key" := py "good" ]> ∅));
     Security.remote_addr := Some (py "127.0.0.1") |}.

(** A request with a bearer token. *)
Definition bearer_request : Security.request :=
  {| Security.headers := <[ py "Authorization" := py "Bearer good" ]> ∅;
     Security.remote_addr := Some (py "127.0.0.1") |}.

(** A decoder for the checks: it accepts the token "good" alone, as the
    token of the user 7. *)
Definition decode_good (token key : list ascii) : Security.jwt_outcome :=
  if bool_decide (token = py "good")
  then Security.Decoded [(py "user_id", JInt 7)]
  else Security.InvalidTokenError.

(** The debug view of the match list of [match_list_page]. *)
Definition debug_info_v1 : DebugInfo :=
  match debug_table_structure match_list_page (py "table_v1") with
  | Data d => d
  | ErrorMarker _ =>
      {| dbg_table_id := []; dbg_total_rows := 0;
         dbg_sample_row_structure := [] |}
  end.

(** A page with a match header and a standings table of a single row, the
    row of the half-time header: [parse_standings] raises on it. *)
Definition broken_standings_page : node :=
  tag "[document]" []
    [tag "div" [("id", "fbheader")]
       [tag "span" [("class", "sclassLink")] [txt "Serie A"]];
     tag "div" [("id", "porletP4")]
       [tag "div" [("class", "home-div")]
          [tag "table" [("class", "team-table-home")]
             [tag "tr" [] [tag "th" [] [txt "HT"]]]]]].

(** A BeautifulSoup for the checks: whatever the text, the document is
    [broken_standings_page]. *)
Definition soup_of_sample (c : HttpClient.content) : result node :=
  Return broken_standings_page.

Definition no_markup (n : node) : list ascii := [].

Definition no_text (j : json) : list ascii := [].

(** The dict of the match 1 when every request is answered with [{}] as
    plain text. *)
Definition sample_match_data : App.match_data nat :=
  App.store_results nat no_markup no_text soup_of_sample 1
    (HttpClient.fetch_all_urls HttpClient.loads_empty_object
       HttpClient.net_all_ok (App.match_urls (py "0.5") 1)).

(** An index of one digit more than [int] takes. *)
Definition long_index : list ascii := replicate 4301 "0"%char.

(** A record of the A array that is well formed but for the length of its
    index, and a record of one digit of index. *)
Definition long_index_record : list ascii :=
  py "A[" ++ long_index
  ++ py "]=['123','4','10','20','Home FC','Away FC','2025,7,24,13,0,0'];".

Definition plain_record : list ascii :=
  py "A[1]=['124','4','11','21','Left','Right','2025,7,24,15,30,0'];".

Definition plain_match : MatchRecord :=
  {| match_id := Some 124; league_id := Some 4;
     home_team_id := Some 11; away_team_id := Some 21;
     home_team := py "Left"; away_team := py "Right";
     match_time := Some (Datetime 2025 7 24 15 30 0);
     match_datetime_raw := py "2025,7,24,15,30,0" |}.

End Samples.

(** * Facts about the string primitives *)

Section StringFacts.

Lemma dropwhile_idem {A} (p : A -> bool) (l : list A) :
  dropwhile p (dropwhile p l) = dropwhile p l.
Proof.
  induction l as [|x l IH]; simpl; [reflexivity|].
  destruct (p x) eqn:Hx; [exact IH|]. simpl. now rewrite Hx.
Qed.

Lemma dropwhile_snoc_keep {A} (p : A -> bool) (l : list A) (x : A) :
  p x = false -> dropwhile p (l ++ [x]) = dropwhile p l ++ [x].
Proof.
  intros Hx. induction l as [|y l IH]; simpl.
  - now rewrite Hx.
  - destruct (p y); [exact IH | reflexivity].
Qed.

Lemma dropwhile_length {A} (p : A -> bool) (l : list A) :
  (length (dropwhile p l) <= length l)%nat.
Proof.
  induction l as [|x l IH]; simpl; [lia|]. destruct (p x); simpl; lia.
Qed.

Lemma dropwhile_head {A} (p : A -> bool) (l : list A) (x : A) (r : list A) :
  dropwhile p l = x :: r -> p x = false.
Proof.
  induction l as [|y l IH]; simpl; [discriminate|].
  destruct (p y) eqn:Hy; [exact IH|]. intros [= -> _]. exact Hy.
Qed.

Lemma rstrip_idem s : rstrip (rstrip s) = rstrip s.
Proof. unfold rstrip. now rewrite rev_involutive, dropwhile_idem. Qed.

Lemma rstrip_cons_keep c s :
  isspace c = false ->
  rstrip (c :: s) = c :: rstrip s.
Proof.
  intros Hc. unfold rstrip. simpl.
  rewrite dropwhile_snoc_keep by exact Hc.
  now rewrite rev_app_distr.
Qed.

Lemma lstrip_strip s : lstrip (strip s) = strip s.
Proof.
  unfold strip. destruct (lstrip s) as [|c r] eqn:E; [reflexivity|].
  pose proof (dropwhile_head _ _ _ _ E) as Hc.
  rewrite rstrip_cons_keep by exact Hc.
  unfold lstrip. simpl. now rewrite Hc.
Qed.

Lemma strip_idem s : strip (strip s) = strip s.
Proof.
  unfold strip at 1. rewrite lstrip_strip.
  unfold strip. apply rstrip_idem.
Qed.

Lemma strip_length s : (length (strip s) <= length s)%nat.
Proof.
  unfold strip, rstrip, lstrip. rewrite length_rev.
  etransitivity; [apply dropwhile_length|]. rewrite length_rev.
  apply dropwhile_length.
Qed.

Lemma slice_inner_length {A} (l : list A) :
  l <> [] -> (length (slice (Some 1%Z) (Some (-1)%Z) l) < length l)%nat.
Proof.
  intros Hl. unfold slice, norm_index. rewrite length_take, length_drop.
  destruct l; [congruence|].
  change (-1 <? 0) with true. change (1 <? 0) with false. cbv iota.
  simpl length. lia.
Qed.

End StringFacts.

(** * Score cleanup *)

Section ScoreCleanup.

Lemma clean_score_data_stripped text :
  strip (clean_score_data text) = clean_score_data text.
Proof.
  unfold clean_score_data. destruct text; [reflexivity|]. apply strip_idem.
Qed.

Lemma clean_score_data_of_stripped c :
  strip c = c ->
  clean_score_data c =
    if parenthesized c then strip (slice (Some 1) (Some (-1)) c) else c.
Proof.
  intros Hc. unfold clean_score_data, parenthesized.
  destruct c as [|a c]; [reflexivity|].
  rewrite Hc. destruct (_ && _); [reflexivity | exact Hc].
Qed.

(** C5, as the code has it: [clean_score_data] maps "(2-1)" and "2-1" to
    "2-1", and applying it twice gives the result of applying it once
    exactly when that result is not itself wrapped in parentheses. *)
Theorem clean_score_data_idempotent_iff :
  clean_score_data (py "(2-1)") = py "2-1"
  /\ clean_score_data (py "2-1") = py "2-1"
  /\ forall s,
      clean_score_data (clean_score_data s) = clean_score_data s
      <-> parenthesized (clean_score_data s) = false.
Proof.
  split; [reflexivity|]. split; [reflexivity|].
  intros s. rewrite (clean_score_data_of_stripped _ (clean_score_data_stripped s)).
  destruct (parenthesized (clean_score_data s)) eqn:Hp.
  - split; [|discriminate]. intros Heq. exfalso.
    assert (Hne : clean_score_data s <> []).
    { intros E. rewrite E in Hp. discriminate. }
    pose proof (slice_inner_length _ Hne) as Hlt.
    pose proof (strip_length (slice (Some 1) (Some (-1)) (clean_score_data s))) as Hle.
    rewrite Heq in Hle. lia.
  - split; reflexivity.
Qed.

(** C5 fails as stated: on a score wrapped twice the second application
    removes the second pair of parentheses. *)
Lemma clean_score_data_not_idempotent :
  ~ (forall s, clean_score_data (clean_score_data s) = clean_score_data s).
Proof.
  intros H. specialize (H (py "((2-1))")). vm_compute in H. discriminate.
Qed.

End ScoreCleanup.

(** * The array parser *)

Section ArrayParser.

(** ** [int] on runs of digits *)

Lemma decimal_not_int_space c : isdecimal c = true -> int_space c = false.
Proof. destruct c as [[] [] [] [] [] [] [] []]; vm_compute; congruence. Qed.

Lemma digit_not_int_space c : isdigit_char c = true -> int_space c = false.
Proof. destruct c as [[] [] [] [] [] [] [] []]; vm_compute; congruence. Qed.

Lemma digit_not_sign c :
  isdigit_char c = true ->
  eqb_ascii c "-"%char = false /\ eqb_ascii c "+"%char = false
  /\ eqb_ascii c "_"%char = false.
Proof. destruct c as [[] [] [] [] [] [] [] []]; vm_compute; intuition congruence. Qed.

Lemma decimal_is_digit c : isdecimal c = true -> isdigit_char c = true.
Proof. unfold isdigit_char. now intros ->. Qed.

Lemma dropwhile_all_false {A} (p : A -> bool) (l : list A) :
  forallb (fun x => negb (p x)) l = true -> dropwhile p l = l.
Proof.
  destruct l as [|x l]; [reflexivity|]. simpl.
  destruct (p x); [discriminate | reflexivity].
Qed.

Lemma strip_chars_all_false (p : ascii -> bool) s :
  forallb (fun c => negb (p c)) s = true -> strip_chars p s = s.
Proof.
  intros H. unfold strip_chars.
  rewrite (dropwhile_all_false _ _ H).
  rewrite dropwhile_all_false; [apply rev_involutive|].
  rewrite forallb_forall in *. intros x Hx. apply H. now apply in_rev.
Qed.

(** [int] passes over nothing at the ends of a run of digit characters. *)
Lemma int_strip_digits p :
  forallb isdigit_char p = true -> strip_chars int_space p = p.
Proof.
  intros H. apply strip_chars_all_false.
  rewrite forallb_forall in *. intros c Hc.
  now rewrite (digit_not_int_space c (H c Hc)).
Qed.

(** On a run of digit characters, the digit groups are the run itself when
    they exist, and then every character is a decimal digit. *)
Lemma digit_groups_digits p seen ds :
  forallb isdigit_char p = true ->
  digit_groups p seen = Some ds ->
  ds = p /\ forallb isdecimal p = true.
Proof.
  revert seen ds. induction p as [|c p IH]; intros seen ds Hd Hg; simpl in *.
  - destruct seen; [|discriminate]. now injection Hg as <-.
  - apply andb_prop in Hd as [Hc Hp].
    destruct (isdecimal c) eqn:Hdec.
    + destruct (digit_groups p true) as [ds'|] eqn:E; [|discriminate].
      injection Hg as <-. destruct (IH _ _ Hp E) as [-> Hall].
      split; [reflexivity | exact Hall].
    + destruct (digit_not_sign c Hc) as (_ & _ & Hu). rewrite Hu in Hg.
      discriminate.
Qed.

Lemma digit_groups_decimal p seen :
  forallb isdecimal p = true -> p <> [] \/ seen = true ->
  digit_groups p seen = Some p.
Proof.
  revert seen. induction p as [|c p IH]; intros seen Hd Hne; simpl in *.
  - destruct Hne as [Hne | ->]; [congruence | reflexivity].
  - apply andb_prop in Hd as [Hc Hp]. rewrite Hc.
    rewrite (IH true Hp (or_intror eq_refl)). reflexivity.
Qed.

(** [int] on a run of digit characters: the sign tests fail on its first
    character, and what is left is the test of the digit groups and of
    their number. *)
Lemma int_digit_run c p :
  forallb isdigit_char (c :: p) = true ->
  int (c :: p) =
    match digit_groups (c :: p) false with
    | Some ds => if within_digit_limit ds then Some (digits_value ds) else None
    | None => None
    end.
Proof.
  intros Hd. unfold int. rewrite (int_strip_digits _ Hd). cbv zeta.
  pose proof Hd as Hc. cbn [forallb] in Hc. apply andb_prop in Hc as [Hc _].
  destruct (digit_not_sign c Hc) as (-> & -> & _). reflexivity.
Qed.

(** Where [p.isdigit()] holds and [int(p)] returns, the value is the number
    the decimal digits of [p] write, and they are no more than the limit. *)
Lemma int_of_isdigit p n :
  isdigit p = true -> int p = Some n ->
  n = digits_value p /\ forallb isdecimal p = true
  /\ within_digit_limit p = true.
Proof.
  unfold isdigit. destruct p as [|c p]; [discriminate|].
  intros Hd. rewrite (int_digit_run _ _ Hd).
  destruct (digit_groups (c :: p) false) as [ds|] eqn:E; [|discriminate].
  destruct (digit_groups_digits _ _ _ Hd E) as [-> Hall].
  destruct (within_digit_limit (c :: p)); [|discriminate].
  intros [= <-]. now repeat split.
Qed.

(** [int] reads a non-empty run of decimal digits when they are no more
    than the limit, and raises when they are more. *)
Lemma int_decimal_run p :
  p <> [] -> forallb isdecimal p = true ->
  int p = if within_digit_limit p then Some (digits_value p) else None.
Proof.
  intros Hne Hd.
  assert (Hdig : forallb isdigit_char p = true).
  { rewrite forallb_forall in *. intros c Hc. apply decimal_is_digit. auto. }
  destruct p as [|c p]; [congruence|].
  rewrite (int_digit_run _ _ Hdig).
  now rewrite (digit_groups_decimal _ false Hd (or_introl Hne)).
Qed.

Lemma int_decimal p :
  p <> [] -> forallb isdecimal p = true -> within_digit_limit p = true ->
  int p = Some (digits_value p).
Proof. intros Hne Hd Hl. now rewrite (int_decimal_run _ Hne Hd), Hl. Qed.

(** [int] and [str.strip] disagree on the separators 28 to 31, and [int]
    has its limit: the seconds of a datetime written after a unit
    separator are not read, nor is a number of 4301 digits. *)
Remark int_refuses :
  int (ascii_of_nat 31 :: py "0") = None
  /\ strip (ascii_of_nat 31 :: py "0") = py "0"
  /\ _parse_datetime (py "2025,7,24,13,0," ++ ascii_of_nat 31 :: py "0") = None
  /\ int (replicate 4300 "1"%char) <> None
  /\ int (replicate 4301 "1"%char) = None.
Proof.
  split; [|split; [|split; [|split]]]; vm_compute;
    [reflexivity | reflexivity | reflexivity | discriminate | reflexivity].
Qed.

(** ** The groups of the pattern *)

Lemma takewhile_forallb {A} (p : A -> bool) (l : list A) :
  forallb p (Regex.takewhile p l) = true.
Proof.
  induction l as [|x l IH]; [reflexivity|]. simpl.
  destruct (p x) eqn:E; [|reflexivity]. simpl. now rewrite E.
Qed.

(** The first group of a match of the pattern is a non-empty run of
    decimal digits. *)
Lemma match_at_group letter s ds body n :
  Regex.match_at letter s = Some (ds, body, n) ->
  ds <> [] /\ forallb isdecimal ds = true.
Proof.
  unfold Regex.match_at. destruct s as [|c0 [|c1 r]]; try discriminate.
  destruct (eqb_ascii c0 letter && eqb_ascii c1 "["%char); [|discriminate].
  destruct (Regex.takewhile isdecimal r) as [|d ds'] eqn:E; [discriminate|].
  destruct (prefixb _ _); [|discriminate].
  destruct (Regex.lazy_body _); [|discriminate].
  intros [= <- _ _]. split; [discriminate|].
  rewrite <- E. apply takewhile_forallb.
Qed.

Lemma finditer_groups letter s :
  Forall (fun m => fst m <> [] /\ forallb isdecimal (fst m) = true)
         (Regex.finditer letter s).
Proof.
  unfold Regex.finditer. generalize 0%nat.
  induction s as [|c s IH]; intros skip; cbn [Regex.finditer_from].
  - constructor.
  - destruct skip as [|k]; [|apply IH].
    destruct (Regex.match_at letter (c :: s)) as [[[ds body] n]|] eqn:E;
      [|apply IH].
    constructor; [|apply IH]. exact (match_at_group _ _ _ _ _ E).
Qed.

(** [int] on the index of a match of the pattern. *)
Lemma int_of_group letter s m :
  In m (Regex.finditer letter s) ->
  int (fst m) = if within_digit_limit (fst m)
                then Some (digits_value (fst m)) else None.
Proof.
  intros Hin.
  destruct (proj1 (List.Forall_forall _ _) (finditer_groups letter s) m Hin)
    as [Hne Hd].
  now apply int_decimal_run.
Qed.

(** ** The loop of [_parse_matches] *)

(** Once [index] is bound the loop raises no more, and returns the records
    it had with the accepted ones of the matches left. *)
Lemma parse_matches_loop_bound ms i acc :
  parse_matches_loop ms (Some i) acc = Return (acc ++ accepted ms).
Proof.
  revert i acc. induction ms as [|m ms IH]; intros i acc.
  - cbn. now rewrite app_nil_r.
  - cbn [parse_matches_loop]. unfold accepted. cbn [omap list_omap].
    fold (accepted ms).
    destruct (int (fst m)) as [j|]; [|apply IH].
    destruct (_parse_match_data (snd m)) as [r|]; rewrite IH;
      [now rewrite <- app_assoc | reflexivity].
Qed.

(** [_parse_matches] is decided by its first match: it raises when [int]
    refuses the index of that match, and else returns the accepted
    records. *)
Lemma parse_matches_first js :
  _parse_matches js =
    match Regex.finditer "A"%char js with
    | [] => Return []
    | m :: rest =>
        match int (fst m) with
        | Some _ => Return (accepted (m :: rest))
        | None => Raise unbound_index
        end
    end.
Proof.
  unfold _parse_matches.
  destruct (Regex.finditer "A"%char js) as [|m rest]; [reflexivity|].
  cbn [parse_matches_loop]. unfold accepted at 1. cbn [omap list_omap].
  fold (accepted rest).
  destruct (int (fst m)) as [i|]; [|reflexivity].
  destruct (_parse_match_data (snd m)) as [r|];
    now rewrite parse_matches_loop_bound.
Qed.

Lemma parse_matches_Return js l :
  _parse_matches js = Return l -> l = accepted (Regex.finditer "A"%char js).
Proof.
  rewrite parse_matches_first.
  destruct (Regex.finditer "A"%char js) as [|m rest]; [now intros [= <-]|].
  destruct (int (fst m)); [now intros [= <-] | discriminate].
Qed.

Lemma accepted_record ms r :
  r ∈ accepted ms ->
  exists m, m ∈ ms /\ is_Some (int (fst m)) /\ _parse_match_data (snd m) = Some r.
Proof.
  unfold accepted. rewrite list_elem_of_omap. intros (m & Hm & Hr).
  exists m. split; [exact Hm|].
  destruct (int (fst m)); [eauto | discriminate].
Qed.

Lemma int_if_digit_Return p v :
  int_if_digit p = Return v ->
  v = (if isdigit p then int p else None) /\ (isdigit p = true -> is_Some v).
Proof.
  unfold int_if_digit. destruct (isdigit p).
  - destruct (int p); [|discriminate]. intros [= <-]. split; eauto.
  - intros [= <-]. split; [reflexivity | discriminate].
Qed.

Lemma int_if_digit_converts p :
  (isdigit p = true -> is_Some (int p)) ->
  int_if_digit p = Return (if isdigit p then int p else None).
Proof.
  unfold int_if_digit. destruct (isdigit p); [|reflexivity].
  intros H. destruct (H eq_refl) as [n ->]. reflexivity.
Qed.

(** A body of fewer than 7 fields gives no record. *)
Lemma parse_match_data_short data_str :
  (length (tokenize data_str) < 7)%nat -> _parse_match_data data_str = None.
Proof.
  unfold _parse_match_data, parse_match_data_try. intros H.
  destruct (tokenize data_str) as [|p0 [|p1 [|p2 [|p3 [|p4 [|p5 [|p6 rest]]]]]]];
    try reflexivity.
  simpl in H. lia.
Qed.

Lemma parse_match_data_raises data_str e :
  parse_match_data_try data_str = Raise e -> _parse_match_data data_str = None.
Proof. unfold _parse_match_data. now intros ->. Qed.

(** The fields of a record that [_parse_match_data] returns. *)
Lemma parse_match_data_fields data_str r :
  _parse_match_data data_str = Some r ->
  exists p0 p1 p2 p3 p4 p5 p6 rest,
    tokenize data_str = p0 :: p1 :: p2 :: p3 :: p4 :: p5 :: p6 :: rest
    /\ int_if_digit p0 = Return (match_id r)
    /\ int_if_digit p1 = Return (league_id r)
    /\ int_if_digit p2 = Return (home_team_id r)
    /\ int_if_digit p3 = Return (away_team_id r)
    /\ home_team r = p4 /\ away_team r = p5
    /\ match_time r = _parse_datetime p6
    /\ match_datetime_raw r = p6.
Proof.
  unfold _parse_match_data, parse_match_data_try.
  destruct (tokenize data_str) as [|p0 [|p1 [|p2 [|p3 [|p4 [|p5 [|p6 rest]]]]]]];
    try discriminate.
  destruct (int_if_digit p0) as [mid|] eqn:E0; simpl; [|discriminate].
  destruct (int_if_digit p1) as [lid|] eqn:E1; simpl; [|discriminate].
  destruct (int_if_digit p2) as [hid|] eqn:E2; simpl; [|discriminate].
  destruct (int_if_digit p3) as [aid|] eqn:E3; simpl; [|discriminate].
  intros [= <-]. exists p0, p1, p2, p3, p4, p5, p6, rest. simpl.
  repeat split; assumption.
Qed.

(** The record of a body of at least 7 fields whose id fields convert. *)
Lemma parse_match_data_builds data_str p0 p1 p2 p3 p4 p5 p6 rest :
  tokenize data_str = p0 :: p1 :: p2 :: p3 :: p4 :: p5 :: p6 :: rest ->
  ids_convert [p0; p1; p2; p3] ->
  _parse_match_data data_str =
    Some {| match_id := if isdigit p0 then int p0 else None;
            league_id := if isdigit p1 then int p1 else None;
            home_team_id := if isdigit p2 then int p2 else None;
            away_team_id := if isdigit p3 then int p3 else None;
            home_team := p4; away_team := p5;
            match_time := _parse_datetime p6;
            match_datetime_raw := p6 |}.
Proof.
  intros Htok Hids. unfold _parse_match_data, parse_match_data_try.
  rewrite Htok.
  apply Forall_cons_1 in Hids as [H0 Hids].
  apply Forall_cons_1 in Hids as [H1 Hids].
  apply Forall_cons_1 in Hids as [H2 Hids].
  apply Forall_cons_1 in Hids as [H3 _].
  rewrite (int_if_digit_converts _ H0), (int_if_digit_converts _ H1),
    (int_if_digit_converts _ H2), (int_if_digit_converts _ H3).
  reflexivity.
Qed.

(** Where the loop returns, a record whose body has fewer than 7 fields, or
    whose parse raises, or whose index [int] refuses, is left out, and the
    records before and after it are parsed as they are without it. *)
Lemma parse_matches_skips js l pre bad post :
  _parse_matches js = Return l ->
  Regex.finditer "A"%char js = pre ++ bad :: post ->
  ((length (tokenize (snd bad)) < 7)%nat
   \/ (exists e, parse_match_data_try (snd bad) = Raise e)
   \/ int (fst bad) = None) ->
  l = accepted pre ++ accepted post.
Proof.
  intros Hl Hfind Hbad. rewrite (parse_matches_Return _ _ Hl), Hfind.
  unfold accepted. rewrite omap_app. cbn [omap list_omap].
  destruct (int (fst bad)) as [i|] eqn:Ei; [|reflexivity].
  destruct Hbad as [Hshort | [[e He] | Hint]]; [| |discriminate].
  - now rewrite (parse_match_data_short _ Hshort).
  - now rewrite (parse_match_data_raises _ _ He).
Qed.

(** C3 fails in the code: the handler of the loop of [_parse_matches]
    reads [index], which no turn has assigned when the first record of the
    blob is the one whose index [int] refuses.  A record with an index of
    4301 digits is passed over when it comes after another record, and
    makes [_parse_matches] raise when it comes first, so that the record
    after it is never parsed. *)
Theorem parse_matches_unbound_index :
  _parse_matches Samples.plain_record = Return [Samples.plain_match]
  /\ _parse_matches (Samples.plain_record ++ Samples.long_index_record
                     ++ Samples.plain_record)
     = Return [Samples.plain_match; Samples.plain_match]
  /\ _parse_matches (Samples.long_index_record ++ Samples.plain_record)
     = Raise unbound_index.
Proof. split; [|split]; vm_compute; reflexivity. Qed.



(** The datetime field decides nothing but [match_time]: a record is
    dropped for its id fields alone, as when field 0 is the superscript
    two, which [isdigit] takes and [int] rejects, or a run of 4301
    digits. *)
Remark superscript_id_drops_record :
  _parse_match_data
    ([ascii_of_nat 178] ++ py ",4,10,20,'Home FC','Away FC','2025,7,24,13,0,0'")
  = None
  /\ _parse_match_data
       (replicate 4301 "1"%char
        ++ py ",4,10,20,'Home FC','Away FC','2025,7,24,13,0,0'")
     = None.
Proof. split; vm_compute; reflexivity. Qed.

(** C9 fails as stated: a record whose field 0 is not a number is accepted
    with a null [match_id]. *)
Lemma accepted_record_without_match_id :
  ~ (forall js l r,
       _parse_matches js = Return l -> r ∈ l -> is_Some (match_id r)).
Proof.
  intros H.
  pose (js := py "A[0]=['x12','4','10','20','Home FC','Away FC','2025,7,24,13,0,0'];").
  pose (r := {| match_id := None; league_id := Some 4;
                home_team_id := Some 10; away_team_id := Some 20;
                home_team := py "Home FC"; away_team := py "Away FC";
                match_time := Some (Datetime 2025 7 24 13 0 0);
                match_datetime_raw := py "2025,7,24,13,0,0" |}).
  assert (Hjs : _parse_matches js = Return [r]) by (vm_compute; reflexivity).
  destruct (H js [r] r Hjs) as [n Hn]; [left|discriminate].
Qed.

(** C9, as the code has it: every record of the list that [_parse_matches]
    returns comes from a body of at least 7 fields, and its [match_id] is
    the number written by field 0 when field 0 is a non-empty run of digit
    characters, and null otherwise; the league and team ids follow the same
    rule on the fields 1 to 3. *)
Theorem accepted_record_ids js l r :
  _parse_matches js = Return l ->
  r ∈ l ->
  exists m p0 p1 p2 p3 rest,
    m ∈ Regex.finditer "A"%char js
    /\ tokenize (snd m) = p0 :: p1 :: p2 :: p3 :: rest
    /\ (7 <= length (tokenize (snd m)))%nat
    /\ match_id r = (if isdigit p0 then Some (digits_value p0) else None)
    /\ league_id r = (if isdigit p1 then Some (digits_value p1) else None)
    /\ home_team_id r = (if isdigit p2 then Some (digits_value p2) else None)
    /\ away_team_id r = (if isdigit p3 then Some (digits_value p3) else None).
Proof.
  intros Hl Hin. rewrite (parse_matches_Return _ _ Hl) in Hin.
  apply accepted_record in Hin as (m & Hm & _ & Hr).
  destruct (parse_match_data_fields _ _ Hr)
    as (p0 & p1 & p2 & p3 & p4 & p5 & p6 & rest & Htok & H0 & H1 & H2 & H3 & _).
  exists m, p0, p1, p2, p3, (p4 :: p5 :: p6 :: rest).
  split; [exact Hm|]. split; [exact Htok|].
  split; [rewrite Htok; simpl; lia|].
  assert (Hid : forall p v, int_if_digit p = Return v ->
                  v = if isdigit p then Some (digits_value p) else None).
  { intros p v Hv. destruct (int_if_digit_Return _ _ Hv) as [-> _].
    destruct (isdigit p) eqn:Hd; [|reflexivity].
    unfold int_if_digit in Hv. rewrite Hd in Hv.
    destruct (int p) as [n|] eqn:Hn; [|discriminate].
    now destruct (int_of_isdigit _ _ Hd Hn) as [-> _]. }
  repeat split; now apply Hid.
Qed.

Lemma accepted_record_ids_witness :
  exists m p0 p1 p2 p3 rest,
    m ∈ Regex.finditer "A"%char
          (py "A[7]=[123,x,'10','',Home,Away,'2025,7,24,13,0,0',extra];")
    /\ tokenize (snd m) = p0 :: p1 :: p2 :: p3 :: rest
    /\ (7 <= length (tokenize (snd m)))%nat
    /\ Some 123 = (if isdigit p0 then Some (digits_value p0) else None)
    /\ None = (if isdigit p1 then Some (digits_value p1) else None)
    /\ Some 10 = (if isdigit p2 then Some (digits_value p2) else None)
    /\ None = (if isdigit p3 then Some (digits_value p3) else None).
Proof.
  pose (r := {| match_id := Some 123; league_id := None;
                home_team_id := Some 10; away_team_id := None;
                home_team := py "Home"; away_team := py "Away";
                match_time := Some (Datetime 2025 7 24 13 0 0);
                match_datetime_raw := py "2025,7,24,13,0,0" |}).
  apply (accepted_record_ids
           (py "A[7]=[123,x,'10','',Home,Away,'2025,7,24,13,0,0',extra];")
           [r] r).
  - vm_compute. reflexivity.
  - left.
Defined.

End ArrayParser.

(** * The date listing *)

Section DateListing.

Import App.

Variable json_loads : list ascii -> option json.

Lemma collect_matches_omap parsed_data :
  collect_matches parsed_data =
    omap (fun m => match_out (pd_leagues parsed_data) m <$> match_time m)
         (pd_matches parsed_data).
Proof.
  unfold collect_matches.
  set (step := fun matches m =>
                 match match_time m with
                 | Some t => matches ++ [match_out (pd_leagues parsed_data) m t]
                 | None => matches
                 end).
  set (f := fun m => match_out (pd_leagues parsed_data) m <$> match_time m).
  enough (H : forall l acc, fold_left step l acc = acc ++ omap f l)
    by apply (H _ []).
  induction l as [|m l IH]; intros acc; simpl.
  - now rewrite app_nil_r.
  - rewrite IH. subst step f. simpl. destruct (match_time m); simpl.
    + now rewrite <- app_assoc.
    + reflexivity.
Qed.

Lemma length_omap_filter {A B C} (h : A -> option C) (g : A -> C -> B)
    (l : list A) :
  length (omap (fun x => g x <$> h x) l)
  = length (List.filter (fun x => bool_decide (is_Some (h x))) l).
Proof.
  induction l as [|x l IH]; simpl; [reflexivity|].
  destruct (h x) as [y|] eqn:E; simpl; [f_equal|]; exact IH.
Qed.

Lemma parse_date_response_matches response_text parsed_data :
  parse_date_response json_loads response_text = Some parsed_data ->
  exists js_code, _parse_matches js_code = Return (pd_matches parsed_data).
Proof.
  unfold parse_date_response.
  destruct (json_loads response_text) as [[| | | | |fields]|]; try discriminate.
  destruct (match obj_get (py "Data") fields with Some v => v | None => JStr [] end)
    as [| | |js_code| |]; try discriminate.
  destruct (_parse_matches js_code) as [l|e] eqn:El; [|discriminate].
  intros [= <-]. now exists js_code.
Qed.

(** The [match_time] of a parsed record is what [_parse_datetime] makes of
    its raw datetime field. *)
Lemma parsed_match_time js l r :
  _parse_matches js = Return l -> r ∈ l ->
  match_time r = _parse_datetime (match_datetime_raw r).
Proof.
  intros Hl Hin. rewrite (parse_matches_Return _ _ Hl) in Hin.
  apply accepted_record in Hin as (m & _ & _ & Hr).
  destruct (parse_match_data_fields _ _ Hr)
    as (p0 & p1 & p2 & p3 & p4 & p5 & p6 & rest & _ & _ & _ & _ & _ & _ & _ & Ht & Hraw).
  now rewrite Ht, Hraw.
Qed.

(** C10: the date query returns, for the records the parser kept, one
    entry for each record that has a [match_time], in their order, and
    counts those; a record whose datetime field was not read has a null
    [match_time] and so has no entry. *)
Theorem date_listing_keeps_timed_matches date_str response_text parsed_data :
  parse_date_response json_loads response_text = Some parsed_data ->
  exists res,
    get_matches_by_date json_loads date_str response_text = Return res
    /\ matches res =
         omap (fun m => match_out (pd_leagues parsed_data) m <$> match_time m)
              (pd_matches parsed_data)
    /\ match_count res = length (List.filter has_time (pd_matches parsed_data))
    /\ (forall o, o ∈ matches res <->
          exists m t, m ∈ pd_matches parsed_data /\ match_time m = Some t
                      /\ o = match_out (pd_leagues parsed_data) m t)
    /\ (forall m, m ∈ pd_matches parsed_data ->
          _parse_datetime (match_datetime_raw m) = None ->
          has_time m = false).
Proof.
  intros Hparse. unfold get_matches_by_date. rewrite Hparse.
  eexists. split; [reflexivity|]. simpl.
  rewrite collect_matches_omap.
  split; [reflexivity|].
  split; [apply (length_omap_filter match_time)|].
  split.
  - intros o. rewrite list_elem_of_omap. split.
    + intros (m & Hm & Ho). destruct (match_time m) as [t|] eqn:Et; [|discriminate].
      injection Ho as <-. eauto.
    + intros (m & t & Hm & Et & ->). exists m. split; [exact Hm|].
      now rewrite Et.
  - intros m Hm Hdt. destruct (parse_date_response_matches _ _ Hparse) as [js Hjs].
    unfold has_time.
    rewrite (parsed_match_time _ _ _ Hjs Hm), Hdt.
    apply bool_decide_false. intros [? ?]; discriminate.
Qed.

End DateListing.

(** A check on a blob of two records, the second with a datetime that is
    not read; the text is taken as the value of the [Data] field. *)
Lemma date_listing_keeps_timed_matches_witness :
  let loads := fun s => Some (JObj [(py "Data", JStr s)]) in
  let text := py "A[0]=['123','4','10','20','Home FC','Away FC','2025,7,24,13,0,0'];A[1]=['124','4','11','21','Left','Right','2025,13'];B[4]=['36','ENG PR','English Premier League','#ff0000'];" in
  exists res,
    App.get_matches_by_date loads (py "2025-07-24") text = Return res
    /\ App.match_count res = 1%nat
    /\ map App.mo_match_id (App.matches res) = [Some 123]
    /\ map App.mo_match_time (App.matches res) = [Some (py "2025-07-24T13:00:00")].
Proof.
  intros loads text.
  destruct (date_listing_keeps_timed_matches loads (py "2025-07-24") text
              {| pd_matches := accepted (Regex.finditer "A"%char text);
                 pd_leagues := _parse_leagues text;
                 pd_countries := _parse_countries text |} eq_refl)
    as (res & Hres & Hm & Hc & _).
  exists res. split; [exact Hres|].
  split; [rewrite Hc; reflexivity|].
  rewrite Hm. split; reflexivity.
Defined.

(** * The HTML extractors *)

Section MissingContainer.

(** C2 fails as stated: without their containers, [parse_standings]
    returns the empty dict and [parse_match_list_table] the empty list,
    neither of which is an error marker. *)
Lemma missing_container_not_always_marker :
  ~ (forall e soup,
       target_missing e soup ->
       exists o, run (fun _ => []) e soup = Return o /\ is_error_marker o = true).
Proof.
  intros H.
  destruct (H StandingsOf (Elem (py "[document]") [] []) eq_refl)
    as (o & Ho & Hm).
  vm_compute in Ho. injection Ho as <-. vm_compute in Hm. discriminate.
Qed.

(** C2, as the code has it: on a document without its container, each of
    [parse_match_info], [parse_fixture], [parse_injury_suspension] and
    [parse_last_match_lineups] returns its error marker, [parse_standings]
    returns the empty dict, [parse_match_list_table] returns the empty
    list, and none of them raises. *)
Theorem missing_container_output markup e soup :
  target_missing e soup ->
  run markup e soup = Return (missing_output e).
Proof.
  destruct e; unfold target_missing, target, fst, snd; intros Hmiss;
    unfold run, missing_output, parse_match_info, parse_fixture,
      parse_standings, parse_match_list_table, parse_injury_suspension,
      parse_last_match_lineups;
    now rewrite Hmiss.
Qed.

Lemma missing_container_output_witness :
  let soup :=
    Elem (py "[document]") []
      [Elem (py "div") [(py "id", py "fbheader")] [Text (py "header")]] in
  run (fun _ => []) (MatchListOf (py "table_v3")) soup = Return (MatchListOut [])
  /\ run (fun _ => []) LineupsOf soup =
       Return (LineupsOut
                 (ErrorMarker (py "Last Match Lineups section (porletP14) not found."))).
Proof.
  intros soup. split.
  - apply (missing_container_output (fun _ => []) (MatchListOf (py "table_v3")) soup).
    reflexivity.
  - apply (missing_container_output (fun _ => []) LineupsOf soup).
    reflexivity.
Defined.

End MissingContainer.

Section HalfTimeScore.

Lemma split_on_join sep s : join [sep] (split_on sep s) = s.
Proof.
  induction s as [|c s IH]; [reflexivity|]. simpl.
  destruct (eqb_ascii c sep) eqn:E.
  - apply Ascii.eqb_eq in E as ->.
    destruct (split_on sep s) as [|w ws] eqn:Es; simpl in *.
    + now subst.
    + now rewrite IH.
  - destruct (split_on sep s) as [|w ws] eqn:Es; simpl in *.
    + now subst.
    + destruct ws; simpl in *; now rewrite <- IH.
Qed.

Lemma split_on_no_sep sep s w : In w (split_on sep s) -> ~ In sep w.
Proof.
  revert w. induction s as [|c s IH]; intros w; simpl.
  - intros [<- | []]. intros [].
  - destruct (eqb_ascii c sep) eqn:E.
    + intros [<- | Hw]; [intros [] | now apply IH].
    + destruct (split_on sep s) as [|w' ws] eqn:Es.
      * intros [<- | []]. intros [-> | []].
        unfold eqb_ascii in E. now rewrite Ascii.eqb_refl in E.
      * intros [<- | Hw].
        -- intros [-> | Hin].
           ++ unfold eqb_ascii in E. now rewrite Ascii.eqb_refl in E.
           ++ apply (IH w'); [now left | exact Hin].
        -- apply IH. now right.
Qed.

Lemma contains_char s c : contains s [c] = true <-> In c s.
Proof.
  induction s as [|a s IH]; simpl.
  - split; [discriminate | intros []].
  - rewrite andb_true_r, orb_true_iff, IH. unfold eqb_ascii.
    rewrite Ascii.eqb_eq. intuition congruence.
Qed.

Lemma split_on_nonempty sep s : exists w ws, split_on sep s = w :: ws.
Proof.
  destruct s as [|c s]; simpl; [eauto|].
  destruct (eqb_ascii c sep); [eauto|].
  destruct (split_on sep s); eauto.
Qed.

(** A text with the separator in it splits into two pieces at least. *)
Lemma split_on_two sep s :
  In sep s -> exists p0 p1 rest, split_on sep s = p0 :: p1 :: rest.
Proof.
  induction s as [|c s IH]; [intros []|]. simpl. intros Hin.
  destruct (eqb_ascii c sep) eqn:E.
  - destruct (split_on_nonempty sep s) as (w & ws & ->). eauto.
  - destruct Hin as [-> | Hin].
    + unfold eqb_ascii in E. now rewrite Ascii.eqb_refl in E.
    + destruct (IH Hin) as (p0 & p1 & rest & ->). eauto.
Qed.

Lemma split_ht_score_fields t :
  ht_fields (fst (fst (split_ht_score t))) (snd (fst (split_ht_score t)))
            (snd (split_ht_score t)).
Proof.
  unfold split_ht_score.
  destruct (contains t (py "-")) eqn:Hc.
  - pose proof (proj1 (contains_char t "-"%char) Hc) as Hin.
    destruct (split_on_two _ _ Hin) as (p0 & p1 & rest & Hs).
    rewrite Hs. cbn [fst snd]. unfold ht_fields. rewrite Hc.
    exists p0, p1, rest. repeat split.
    + exact Hs.
    + rewrite <- Hs. symmetry. apply (split_on_join "-"%char).
    + apply (split_on_no_sep "-"%char t). rewrite Hs. now left.
    + apply (split_on_no_sep "-"%char t). rewrite Hs. right. now left.
  - cbn [fst snd]. unfold ht_fields. rewrite Hc. now split.
Qed.

Lemma parse_score_info_fields header :
  let si := parse_score_info header in
  ht_fields (ht_score si) (ht_home_score si) (ht_away_score si).
Proof.
  unfold parse_score_info.
  destruct (find (tag_id (py "div") (py "mScore")) header) as [c|];
    [|simpl; now split].
  destruct (find_all (tag_class (py "div") (py "score")) c) as [|s0 [|s1 [|]]];
    (destruct (find _ c) as [sp|];
     [ pose proof (split_ht_score_fields (strip (text sp))) as H;
       destruct (split_ht_score (strip (text sp))) as [[ht h] a]; exact H
     | simpl; now split ]).
Qed.

(** C8 fails as stated: the text "1-" has no second half, and the first
    sub-score is filled all the same. *)
Lemma ht_score_split_without_second_half :
  ~ (forall soup info,
       parse_match_info (fun _ => []) soup = Data info ->
       halves_present (ht_score (mi_score_info info)) = false ->
       ht_home_score (mi_score_info info) = []
       /\ ht_away_score (mi_score_info info) = []).
Proof.
  intros H.
  pose (soup :=
    Elem (py "[document]") []
      [Elem (py "div") [(py "id", py "fbheader")]
         [Elem (py "div") [(py "id", py "mScore")]
            [Elem (py "span") [(py "title", py "Score 1st Half")]
               [Text (py "1-")]]]]).
  destruct (parse_match_info (fun _ => []) soup) as [|info] eqn:E;
    [vm_compute in E; discriminate|].
  specialize (H soup info E).
  vm_compute in E. injection E as <-.
  destruct (H eq_refl) as [Hh _]. vm_compute in Hh. discriminate.
Qed.

(** C8, as the code has it: the first-half score is split whenever its
    text has a "-" in it; [ht_home_score] is then the text before the first
    "-" and [ht_away_score] the text from there to the next "-" or to the
    end, either of which may be empty; without a "-" the two sub-scores
    stay empty. *)
Theorem ht_score_split markup soup info :
  parse_match_info markup soup = Data info ->
  let si := mi_score_info info in
  if contains (ht_score si) (py "-")
  then exists p0 p1 rest,
         split_on "-"%char (ht_score si) = p0 :: p1 :: rest
         /\ ht_home_score si = p0 /\ ht_away_score si = p1
         /\ ht_score si = join (py "-") (p0 :: p1 :: rest)
         /\ ~ In "-"%char p0 /\ ~ In "-"%char p1
  else ht_home_score si = [] /\ ht_away_score si = [].
Proof.
  unfold parse_match_info.
  destruct (find (tag_id (py "div") (py "fbheader")) soup) as [header|];
    [|discriminate].
  intros [= <-]. cbn [mi_score_info].
  apply parse_score_info_fields.
Qed.

Lemma ht_score_split_witness :
  exists p0 p1 rest,
    split_on "-"%char (py "2-1") = p0 :: p1 :: rest
    /\ py "2" = p0 /\ py "1" = p1
    /\ py "2-1" = join (py "-") (p0 :: p1 :: rest)
    /\ ~ In "-"%char p0 /\ ~ In "-"%char p1.
Proof.
  exact (ht_score_split (fun _ => [])
           (Elem (py "[document]") []
              [Elem (py "div") [(py "id", py "fbheader")]
                 [Elem (py "div") [(py "id", py "mScore")]
                    [Elem (py "span") [(py "title", py "Score 1st Half")]
                       [Text (py " 2-1 ")]]]])
           {| mi_league := []; mi_match_time_utc := [];
              mi_home_team_name := []; mi_home_team_logo_url := [];
              mi_away_team_name := []; mi_away_team_logo_url := [];
              mi_stadium := []; mi_weather := [];
              mi_score_info :=
                {| status := []; home_score := []; away_score := [];
                   ht_score := py "2-1"; ht_home_score := py "2";
                   ht_away_score := py "1" |} |}
           eq_refl).
Defined.

End HalfTimeScore.

(** * The standings table *)

Section StandingsBlocks.

Lemma parse_block_rows_filter headers rows :
  parse_block_rows headers rows =
    map (fun r => row_dict headers (cells_of r))
        (List.filter (fun r => (length (cells_of r) =? length headers)%nat) rows).
Proof.
  induction rows as [|r rows IH]; simpl; [reflexivity|].
  unfold cells_of at 1 3. destruct (_ =? _)%nat; simpl; now rewrite IH.
Qed.

Lemma parse_block_block_of header_row data_rows :
  parse_block (header_row :: data_rows) = block_of header_row data_rows.
Proof.
  unfold parse_block, block_of. destruct data_rows as [|r rows]; [reflexivity|].
  apply parse_block_rows_filter.
Qed.

Lemma find_split_Some rows k i :
  find_split k rows = Some i ->
  k <= i
  /\ exists row,
      rows !! Z.to_nat (i - k) = Some row
      /\ is_split_row row = true
      /\ forall j r, (j < Z.to_nat (i - k))%nat -> rows !! j = Some r ->
                     is_split_row r = false.
Proof.
  revert k. induction rows as [|row rows IH]; intros k; simpl; [discriminate|].
  destruct (is_split_row row) eqn:E.
  - intros [= <-]. split; [lia|]. exists row. rewrite Z.sub_diag. simpl.
    repeat split; [exact E|]. intros j r Hj. lia.
  - intros H. destruct (IH _ H) as (Hle & row' & Hrow & Hsplit & Hbefore).
    split; [lia|]. exists row'.
    replace (Z.to_nat (i - k)) with (S (Z.to_nat (i - (k + 1)))) by lia.
    simpl. repeat split; [exact Hrow | exact Hsplit |].
    intros [|j] r Hj; simpl.
    + now intros [= <-].
    + apply Hbefore. lia.
Qed.

Lemma find_split_None rows k :
  find_split k rows = None -> Forall (fun r => is_split_row r = false) rows.
Proof.
  revert k. induction rows as [|row rows IH]; intros k; simpl; [constructor|].
  destruct (is_split_row row) eqn:E; [discriminate|].
  intros H. constructor; [exact E | now apply (IH (k + 1))].
Qed.

(** The fold of the dict comprehension leaves a key alone that none of the
    remaining columns has. *)
Lemma row_dict_fold_other (hs : list (list ascii)) (cs : list node)
    (d : gmap (list ascii) (list ascii)) (h : list ascii) :
  (forall j, (j < length cs)%nat -> hs !! j <> Some h) ->
  fold_left (fun (d : gmap (list ascii) (list ascii)) hc =>
               <[ fst hc := strip (text (snd hc)) ]> d) (combine hs cs) d !! h
  = d !! h.
Proof.
  revert cs d. induction hs as [|h0 hs IH]; intros cs d Hno; [reflexivity|].
  destruct cs as [|c0 cs]; [reflexivity|]. simpl.
  rewrite IH.
  - apply lookup_insert_ne. intros ->. apply (Hno 0%nat); [simpl; lia | reflexivity].
  - intros j Hj. apply (Hno (S j)). simpl. lia.
Qed.

Lemma row_dict_fold_last (hs : list (list ascii)) (cs : list node)
    (d : gmap (list ascii) (list ascii)) (j : nat) (h : list ascii) (c : node) :
  hs !! j = Some h -> cs !! j = Some c ->
  (forall j', (j < j')%nat -> (j' < length cs)%nat -> hs !! j' <> Some h) ->
  fold_left (fun (d : gmap (list ascii) (list ascii)) hc =>
               <[ fst hc := strip (text (snd hc)) ]> d) (combine hs cs) d !! h
  = Some (strip (text c)).
Proof.
  revert cs d j. induction hs as [|h0 hs IH]; intros cs d j Hh Hc Hlast;
    [discriminate|].
  destruct cs as [|c0 cs]; [discriminate|]. simpl.
  destruct j as [|j]; simpl in Hh, Hc.
  - injection Hh as ->. injection Hc as ->.
    rewrite row_dict_fold_other; [apply lookup_insert_eq|].
    intros j' Hj'. apply (Hlast (S j')); simpl; lia.
  - apply (IH cs _ j Hh Hc). intros j' Hlt Hlen.
    apply (Hlast (S j')); simpl; lia.
Qed.

(** The dict of a row gives, under a header, the text of the last cell of
    that header. *)
Lemma row_dict_lookup hs cs j h c :
  hs !! j = Some h -> cs !! j = Some c ->
  (forall j', (j < j')%nat -> (j' < length cs)%nat -> hs !! j' <> Some h) ->
  row_dict hs cs !! h = Some (strip (text c)).
Proof. apply row_dict_fold_last. Qed.

(** C7 fails as stated: the split row need not have a header cell that
    equals "HT". *)
Lemma split_row_without_ht_header :
  ~ (forall table i row,
       find_split 0 (find_all (is_tag (py "tr")) table) = Some i ->
       find_all (is_tag (py "tr")) table !! Z.to_nat i = Some row ->
       exists th, In th (find_all (is_tag (py "th")) row)
                  /\ strip (text th) = py "HT").
Proof.
  intros H.
  pose (th := fun t => Elem (py "th") [] [Text (py t)]).
  pose (td := fun t => Elem (py "td") [] [Text (py t)]).
  pose (table :=
    Elem (py "table") []
      [Elem (py "tr") [] [th "BRIGHTON"];
       Elem (py "tr") [] [th "FT"; th "Pts"];
       Elem (py "tr") [] [td "Total"; td "10"];
       Elem (py "tr") [] [th "HT"; th "Pts"];
       Elem (py "tr") [] [td "Total"; td "5"]]).
  destruct (H table 0 (Elem (py "tr") [] [th "BRIGHTON"]) eq_refl eq_refl)
    as (x & Hin & Hx).
  vm_compute in Hin. destruct Hin as [<- | []].
  vm_compute in Hx. discriminate.
Qed.

(** C7, as the code has it: the table is split at the first row that has a
    [th] and whose text has "HT" in it.  The full-time block has the row of
    index 1 as its header and the rows from index 2 up to the split row as
    its data; the half-time block has the split row as its header and the
    rows after it as its data.  A data row is in the output of its block
    exactly when it has as many [td] cells as the header row has [th]
    cells, and its dict gives, under each header text, the text of the
    cell of that column. *)
Theorem parse_standings_table_blocks table i :
  let all_rows := find_all (is_tag (py "tr")) table in
  find_split 0 all_rows = Some i ->
  (1 < length all_rows)%nat ->
  exists ft_header ht_header,
    all_rows !! 1%nat = Some ft_header
    /\ 0 <= i /\ all_rows !! Z.to_nat i = Some ht_header
    /\ is_split_row ht_header = true
    /\ (forall j r, (j < Z.to_nat i)%nat -> all_rows !! j = Some r ->
                    is_split_row r = false)
    /\ parse_standings_table table =
         Return {| full_time :=
                     block_of ft_header (slice (Some 2) (Some i) all_rows);
                   half_time :=
                     block_of ht_header (slice (Some (i + 1)) None all_rows) |}
    /\ (forall header r d,
          In d (block_of header [r]) <->
          length (cells_of r) = length (headers_of header)
          /\ d = row_dict (headers_of header) (cells_of r))
    /\ (forall header r j h c,
          headers_of header !! j = Some h -> cells_of r !! j = Some c ->
          (forall j', (j < j')%nat -> (j' < length (cells_of r))%nat ->
                      headers_of header !! j' <> Some h) ->
          row_dict (headers_of header) (cells_of r) !! h = Some (strip (text c))).
Proof.
  intros all_rows Hsplit Hlen.
  destruct (find_split_Some _ _ _ Hsplit) as (Hle & ht & Hht & Htest & Hbefore).
  rewrite Z.sub_0_r in Hht, Hbefore.
  destruct (lookup_lt_is_Some_2 all_rows 1%nat Hlen) as [ft Hft].
  exists ft, ht.
  split; [exact Hft|]. split; [exact Hle|]. split; [exact Hht|].
  split; [exact Htest|]. split; [exact Hbefore|].
  split; [|split].
  - unfold parse_standings_table. fold all_rows. rewrite Hsplit.
    unfold index. change (Z.to_nat 1) with 1%nat. rewrite Hft, Hht.
    cbn [bind app]. now rewrite !parse_block_block_of.
  - intros header r d. unfold block_of. simpl.
    destruct (_ =? _)%nat eqn:E.
    + apply Nat.eqb_eq in E. simpl. split.
      * intros [<- | []]. now split.
      * intros [_ ->]. now left.
    + apply Nat.eqb_neq in E. simpl. split; [intros [] | intros [Hl _]; lia].
  - intros header r j h c. apply row_dict_lookup.
Qed.

Lemma parse_standings_table_blocks_witness :
  let th := fun t => Elem (py "th") [] [Text (py t)] in
  let td := fun t => Elem (py "td") [] [Text (py t)] in
  let table :=
    Elem (py "table") []
      [Elem (py "tr") [] [th "Arsenal"];
       Elem (py "tr") [] [th "FT"; th "Pts"];
       Elem (py "tr") [] [td "Total"; td "10"];
       Elem (py "tr") [] [td "ragged"];
       Elem (py "tr") [] [th "HT"; th "Pts"];
       Elem (py "tr") [] [td "Total"; td "5"];
       Elem (py "tr") [] [td "a"; td "b"; td "c"]] in
  exists t,
    parse_standings_table table = Return t
    /\ full_time t = [ <[py "Pts" := py "10"]> (<[py "FT" := py "Total"]> ∅) ]
    /\ half_time t = [ <[py "Pts" := py "5"]> (<[py "HT" := py "Total"]> ∅) ].
Proof.
  intros th td table.
  destruct (parse_standings_table_blocks table 4 eq_refl)
    as (ft & ht & Hft & _ & Hht & _ & _ & Hparse & _).
  - vm_compute. lia.
  - injection Hft as <-. injection Hht as <-.
    eexists. split; [exact Hparse|]. split; reflexivity.
Defined.

(** Without a split row both blocks are empty. *)
Lemma parse_standings_table_no_split table :
  find_split 0 (find_all (is_tag (py "tr")) table) = None ->
  parse_standings_table table = Return {| full_time := []; half_time := [] |}.
Proof. unfold parse_standings_table. now intros ->. Qed.

(** A table whose only row is a split row has no row of index 1. *)
Lemma parse_standings_table_single_row table row :
  find_all (is_tag (py "tr")) table = [row] -> is_split_row row = true ->
  exists e, parse_standings_table table = Raise e /\ exn_cls e = IndexError.
Proof.
  intros Hrows Hrow. unfold parse_standings_table. rewrite Hrows. simpl.
  rewrite Hrow. simpl. eauto.
Qed.

End StandingsBlocks.

(** * The upstream client and the fan-out *)

Section FanOut.

Import HttpClient.

Context {Time : Type}.
Variable json_loads : list ascii -> option json.

Lemma slice_prefix {A} (n : nat) (l : list A) :
  slice None (Some (Z.of_nat n)) l = firstn n l.
Proof.
  unfold slice, norm_index.
  replace (Z.of_nat n <? 0) with false by (symmetry; apply Z.ltb_ge; lia).
  change (Z.to_nat 0) with 0%nat. change (skipn 0 l) with l.
  destruct (Nat.le_gt_cases n (length l)) as [Hle|Hgt].
  - f_equal. lia.
  - rewrite !firstn_all2 by lia. reflexivity.
Qed.


Lemma fetch_url_key url key (o : observation Time) :
  fetched_key (fetch_url json_loads url key o) = key.
Proof.
  unfold fetch_url, handle, fetched_key.
  repeat match goal with
         | |- context [match ?x with _ => _ end] => destruct x
         end; reflexivity.
Qed.

(** A request that fails in the exchange or on its status gives an error
    result under its own key. *)
Lemma fetch_url_failure url key (o : observation Time) :
  (exists e, obs_exchange o = GetRaises e)
  \/ (exists r msg, obs_exchange o = GetResponse r /\ status_error r = Some msg) ->
  fetched_shape (fetch_url json_loads url key o) = error
  /\ fetched_time (fetch_url json_loads url key o) = elapsed_at_handler o.
Proof.
  unfold fetch_url, handle.
  intros [[e ->] | (r & msg & -> & ->)].
  - destruct (exn_cls e); now split.
  - now split.
Qed.

Lemma fetch_all_urls_keys net urls :
  map fetched_key (fetch_all_urls json_loads (Time := Time) net urls)
  = map fst urls.
Proof.
  unfold fetch_all_urls. rewrite map_map. apply map_ext.
  intros item. apply fetch_url_key.
Qed.

Lemma entries_of_fetch_all net urls k :
  entries_of k (fetch_all_urls json_loads (Time := Time) net urls)
  = fetch_all_urls json_loads net
      (List.filter (fun item => bool_decide (fst item = k)) urls).
Proof.
  unfold entries_of, fetch_all_urls.
  induction urls as [|item urls IH]; simpl; [reflexivity|].
  rewrite fetch_url_key, IH. now destruct (bool_decide (fst item = k)).
Qed.

(** In a dict, the items of a key are the one item of that key. *)
Lemma filter_unique_key {A B} `{EqDecision A} (l : list (A * B)) k v :
  NoDup (map fst l) -> In (k, v) l ->
  List.filter (fun item => bool_decide (fst item = k)) l = [(k, v)].
Proof.
  induction l as [|[k' v'] l IH]; simpl; [intros _ []|].
  intros Hnd Hin. apply NoDup_cons in Hnd as [Hnotin Hnd].
  destruct (decide (k' = k)) as [->|Hne].
  - rewrite bool_decide_true by reflexivity.
    assert (Hnone : List.filter (fun item => bool_decide (fst item = k)) l = []).
    { clear -Hnotin. induction l as [|[k0 v0] l IH]; simpl; [reflexivity|].
      simpl in Hnotin. rewrite not_elem_of_cons in Hnotin.
      destruct Hnotin as [Hne Hnotin]. rewrite bool_decide_false by congruence.
      now apply IH. }
    rewrite Hnone. destruct Hin as [[= ->] | Hin]; [reflexivity|].
    exfalso. apply Hnotin. apply list_elem_of_In, in_map_iff.
    now exists (k, v).
  - rewrite bool_decide_false by exact Hne.
    destruct Hin as [[= -> _] | Hin]; [congruence|]. now apply IH.
Qed.

(** C1: the fan-out returns one result for each item of [urls], under the
    key of the item and in the order of the items, whatever fails; and the
    result of a key [k2], with its shape, content and measured time, is
    what fetching [k2] alone gives, whatever the session does for another
    key [k1]. *)
Theorem fetch_all_urls_isolation (net net' : list ascii -> list ascii -> observation Time)
    urls k1 k2 u2 :
  NoDup (map fst urls) ->
  In (k2, u2) urls ->
  k1 <> k2 ->
  (forall k u, k <> k1 -> net' k u = net k u) ->
  length (fetch_all_urls json_loads net' urls) = length urls
  /\ map fetched_key (fetch_all_urls json_loads net' urls) = map fst urls
  /\ (forall k, In k (map fst urls) ->
        length (entries_of k (fetch_all_urls json_loads net' urls)) = 1%nat)
  /\ entries_of k2 (fetch_all_urls json_loads net' urls)
     = [fetch_url json_loads u2 k2 (net k2 u2)]
  /\ entries_of k2 (fetch_all_urls json_loads net' urls)
     = fetch_all_urls json_loads net [(k2, u2)].
Proof.
  intros Hnd Hin Hne Hsame.
  split; [unfold fetch_all_urls; apply length_map|].
  split; [apply fetch_all_urls_keys|].
  split.
  - intros k Hk. apply in_map_iff in Hk as ([k' u] & <- & Hku).
    rewrite entries_of_fetch_all, (filter_unique_key urls k' u Hnd Hku).
    reflexivity.
  - rewrite entries_of_fetch_all, (filter_unique_key urls k2 u2 Hnd Hin).
    unfold fetch_all_urls. simpl. rewrite Hsame by congruence. now split.
Qed.

End FanOut.

Section FanOutChecks.

Import HttpClient.


Lemma fetch_all_urls_isolation_witness :
  length (fetch_all_urls loads_empty_object net_page_fails two_urls) = 2%nat
  /\ map fetched_shape (fetch_all_urls loads_empty_object net_page_fails two_urls)
     = [error; json_shape]
  /\ entries_of (py "ah_odds")
       (fetch_all_urls loads_empty_object net_page_fails two_urls)
     = [(py "ah_odds", JsonValue (JObj []), json_shape, 3%nat)].
Proof.
  destruct (fetch_all_urls_isolation loads_empty_object net_all_ok net_page_fails
              two_urls (py "h2h_details") (py "ah_odds")
              (py "http://upstream/ajax?t=2"))
    as (Hlen & _ & _ & Hentry & _).
  - simpl. apply NoDup_cons. split; [|apply NoDup_singleton].
    rewrite list_elem_of_singleton. vm_compute. discriminate.
  - right. left. reflexivity.
  - vm_compute. discriminate.
  - intros k u Hk. unfold net_page_fails. now rewrite bool_decide_false.
  - split; [exact Hlen|]. split; [reflexivity|]. exact Hentry.
Defined.

End FanOutChecks.

(** * Further properties of the array parser *)

Section Tokenizer.

Lemma scan_step_inside ps cur c :
  eqb_ascii c "'"%char = false ->
  scan_step (Scan ps cur true) c = Scan ps (cur ++ [c]) true.
Proof.
  intros Hc. unfold scan_step. simpl. rewrite Hc. simpl.
  now rewrite andb_false_r.
Qed.

Lemma scan_step_open ps cur :
  scan_step (Scan ps cur false) "'"%char = Scan ps cur true.
Proof. reflexivity. Qed.

Lemma scan_step_close ps cur :
  scan_step (Scan ps cur true) "'"%char = Scan (ps ++ [cur]) [] false.
Proof. reflexivity. Qed.

Lemma scan_step_comma_blank ps :
  scan_step (Scan ps [] false) ","%char = Scan ps [] false.
Proof. reflexivity. Qed.

Lemma scan_inside_quotes ps cur f :
  ~ In "'"%char f ->
  fold_left scan_step f (Scan ps cur true) = Scan ps (cur ++ f) true.
Proof.
  revert cur. induction f as [|c f IH]; intros cur Hq.
  - simpl. now rewrite app_nil_r.
  - assert (Hc : eqb_ascii c "'"%char = false).
    { apply Ascii.eqb_neq. intros ->. apply Hq. now left. }
    cbn [fold_left]. rewrite (scan_step_inside _ _ _ Hc).
    rewrite IH by (intros H; apply Hq; now right).
    now rewrite <- app_assoc.
Qed.

Lemma scan_quoted_field ps f rest :
  ~ In "'"%char f ->
  fold_left scan_step ("'"%char :: f ++ "'"%char :: rest) (Scan ps [] false)
  = fold_left scan_step rest (Scan (ps ++ [f]) [] false).
Proof.
  intros Hq. cbn [fold_left]. rewrite scan_step_open.
  rewrite fold_left_app, scan_inside_quotes by exact Hq.
  cbn [fold_left app]. now rewrite scan_step_close.
Qed.

Lemma scan_quoted_fields fields ps :
  Forall (fun f => ~ In "'"%char f) fields ->
  fold_left scan_step (quote_fields fields) (Scan ps [] false)
  = Scan (ps ++ fields) [] false.
Proof.
  unfold quote_fields. revert ps.
  induction fields as [|f fields IH]; intros ps Hq.
  - simpl. now rewrite app_nil_r.
  - apply Forall_cons_1 in Hq as [Hf Hq].
    destruct fields as [|f2 fields].
    + change (join (py ",") (map (fun f0 => py "'" ++ f0 ++ py "'") [f]))
        with ("'"%char :: f ++ "'"%char :: []).
      now rewrite scan_quoted_field.
    + change (join (py ",") (map (fun f0 => py "'" ++ f0 ++ py "'") (f :: f2 :: fields)))
        with (("'"%char :: f ++ py "'")
              ++ ","%char :: join (py ",") (map (fun f0 => py "'" ++ f0 ++ py "'") (f2 :: fields))).
      set (tail := join (py ",") (map _ (f2 :: fields))) in *.
      cbn [app]. rewrite <- app_assoc. cbn [app py list_ascii_of_string].
      rewrite scan_quoted_field by exact Hf.
      cbn [fold_left]. rewrite scan_step_comma_blank.
      subst tail. rewrite (IH (ps ++ [f]) Hq). now rewrite <- app_assoc.
Qed.

Lemma tokenize_of_quoted fields :
  Forall (fun f => ~ In "'"%char f) fields ->
  tokenize (quote_fields fields) = fields.
Proof.
  intros Hq. unfold tokenize. now rewrite (scan_quoted_fields fields [] Hq).
Qed.

(** X1: the tokenizer reads back a body whose fields are all written in
    single quotes: it returns the fields as they were, commas and spaces
    inside them included, as long as no field has a single quote in it. *)
Theorem tokenize_quote_fields fields :
  Forall (fun f => ~ In "'"%char f) fields ->
  tokenize (quote_fields fields) = fields.
Proof. apply tokenize_of_quoted. Qed.

Lemma tokenize_quote_fields_witness :
  tokenize (py "'12','FC Here, There',' padded ',''")
  = [py "12"; py "FC Here, There"; py " padded "; []].
Proof.
  apply (tokenize_quote_fields [py "12"; py "FC Here, There"; py " padded "; []]).
  repeat constructor; vm_compute; intuition discriminate.
Defined.

Lemma decimal_field p :
  p <> [] -> forallb isdecimal p = true -> within_digit_limit p = true ->
  isdigit p = true /\ int p = Some (digits_value p) /\ ~ In "'"%char p.
Proof.
  intros Hne Hd Hl. split; [|split].
  - unfold isdigit. destruct p as [|c p]; [congruence|].
    rewrite forallb_forall in *. intros x Hx. apply decimal_is_digit. auto.
  - now apply int_decimal.
  - intros Hin. rewrite forallb_forall in Hd. specialize (Hd _ Hin).
    vm_compute in Hd. discriminate.
Qed.

(** X2: a record written as seven quoted fields, with the four id fields
    in decimal digits, no more of them than [int] takes, is parsed to those
    very fields: the ids to their numbers, the team names and the raw
    datetime character for character, and [match_time] to what
    [_parse_datetime] makes of the datetime. *)
Theorem parse_match_data_quoted id lg h a home away dt :
  Forall (fun p => p <> [] /\ forallb isdecimal p = true
                   /\ within_digit_limit p = true) [id; lg; h; a] ->
  Forall (fun f => ~ In "'"%char f) [home; away; dt] ->
  _parse_match_data (quote_fields [id; lg; h; a; home; away; dt]) =
    Some {| match_id := Some (digits_value id);
            league_id := Some (digits_value lg);
            home_team_id := Some (digits_value h);
            away_team_id := Some (digits_value a);
            home_team := home; away_team := away;
            match_time := _parse_datetime dt;
            match_datetime_raw := dt |}.
Proof.
  intros Hids Hq.
  apply Forall_cons_1 in Hids as [(N0 & D0 & L0) Hids].
  apply Forall_cons_1 in Hids as [(N1 & D1 & L1) Hids].
  apply Forall_cons_1 in Hids as [(N2 & D2 & L2) Hids].
  apply Forall_cons_1 in Hids as [(N3 & D3 & L3) _].
  destruct (decimal_field _ N0 D0 L0) as (I0 & V0 & Q0).
  destruct (decimal_field _ N1 D1 L1) as (I1 & V1 & Q1).
  destruct (decimal_field _ N2 D2 L2) as (I2 & V2 & Q2).
  destruct (decimal_field _ N3 D3 L3) as (I3 & V3 & Q3).
  rewrite (parse_match_data_builds _ id lg h a home away dt []).
  - now rewrite I0, I1, I2, I3, V0, V1, V2, V3.
  - apply tokenize_of_quoted. repeat (apply Forall_cons; split; [assumption|]).
    exact Hq.
  - unfold ids_convert. repeat (apply Forall_cons; split; [eauto|]).
    apply Forall_nil. exact I.
Qed.

Lemma parse_match_data_quoted_witness :
  _parse_match_data
    (py "'123','4','10','20','Home, FC','Away FC','2025,7,24,13,0,0'") =
    Some {| match_id := Some 123; league_id := Some 4;
            home_team_id := Some 10; away_team_id := Some 20;
            home_team := py "Home, FC"; away_team := py "Away FC";
            match_time := Some (Datetime 2025 7 24 13 0 0);
            match_datetime_raw := py "2025,7,24,13,0,0" |}.
Proof.
  apply (parse_match_data_quoted (py "123") (py "4") (py "10") (py "20")
           (py "Home, FC") (py "Away FC") (py "2025,7,24,13,0,0")).
  - repeat constructor; discriminate.
  - repeat constructor; vm_compute; intuition discriminate.
Defined.

End Tokenizer.

Section LookupTables.

(** The table a loop of inserts builds gives, at an index, the value of the
    last entry of that index. *)
Lemma fold_insert_last {A V} (entry : A -> option (Z * V))
    (step : gmap Z V -> A -> gmap Z V) (l : list A) (i : Z) :
  (forall t x, In x l ->
     step t x = match entry x with
                | Some (k, v) => <[ k := v ]> t
                | None => t
                end) ->
  fold_left step l ∅ !! i = last (omap (fun x => entry_at i (entry x)) l).
Proof.
  induction l as [|x l IH] using rev_ind; intros Hstep; [reflexivity|].
  rewrite fold_left_app, omap_app. cbn [fold_left].
  rewrite Hstep by (apply in_or_app; right; now left).
  unfold entry_at at 2. simpl.
  assert (IH' := IH (fun t y Hy => Hstep t y (in_or_app _ _ _ (or_introl Hy)))).
  destruct (entry x) as [[k v]|].
  - destruct (decide (k = i)) as [->|Hne].
    + rewrite lookup_insert_eq, bool_decide_true by reflexivity.
      now rewrite last_snoc.
    + rewrite lookup_insert_ne by exact Hne.
      rewrite bool_decide_false by exact Hne. now rewrite app_nil_r.
  - now rewrite app_nil_r.
Qed.

(** X3: the table of the leagues gives, at an index, the dict of the last
    B record that writes that index, has no more digits in its index than
    [int] takes and has 3 fields at least; a record of fewer fields or of a
    longer index leaves the table as it is, and an index with no such
    record is absent. *)
Theorem parse_leagues_lookup js_code i :
  _parse_leagues js_code !! i
  = last (omap (fun m => entry_at i (league_entry m))
               (Regex.finditer "B"%char js_code)).
Proof.
  unfold _parse_leagues. apply fold_insert_last.
  intros t m Hin. unfold league_entry.
  rewrite (int_of_group _ _ _ Hin).
  destruct (within_digit_limit (fst m)); [|reflexivity].
  now destruct (simple_parts (snd m)) as [|p0 [|p1 [|p2 rest]]].
Qed.

(** X4: the table of the countries gives, at an index, the dict of the
    last C record that writes that index, has no more digits in its index
    than [int] takes and has 2 fields at least. *)
Theorem parse_countries_lookup js_code i :
  _parse_countries js_code !! i
  = last (omap (fun m => entry_at i (country_entry m))
               (Regex.finditer "C"%char js_code)).
Proof.
  unfold _parse_countries. apply fold_insert_last.
  intros t m Hin. unfold country_entry.
  rewrite (int_of_group _ _ _ Hin).
  destruct (within_digit_limit (fst m)); [|reflexivity].
  now destruct (simple_parts (snd m)) as [|p0 [|p1 rest]].
Qed.

(** The two tables on a blob whose second record of the index 5 has an
    index of 4301 digits: the first record stays. *)
Remark long_index_entry_skipped :
  let js := py "B[5]=['36','ENG PR','English Premier League'];B["
            ++ replicate 4300 "0"%char
            ++ py "5]=['37','ESP','La Liga'];C[5]=['1','England'];C["
            ++ replicate 4300 "0"%char ++ py "5]=['2','Spain'];" in
  lg_league_name <$> (_parse_leagues js !! 5) = Some (py "English Premier League")
  /\ ct_country_name <$> (_parse_countries js !! 5) = Some (py "England").
Proof.
  intros js. rewrite parse_leagues_lookup, parse_countries_lookup.
  split; vm_compute; reflexivity.
Qed.

End LookupTables.

Section DateResponseEdges.

Variable json_loads : list ascii -> option json.


End DateResponseEdges.


(** * Further properties of the HTML extractors *)

Section MatchListRows.

Lemma text_or_stripped x : strip (text_or [] x) = text_or [] x.
Proof. destruct x; simpl; [apply strip_idem | reflexivity]. Qed.

Lemma score_of_stripped x : strip (score_of x) = score_of x.
Proof. destruct x; simpl; [apply clean_score_data_stripped | reflexivity]. Qed.

Lemma guarded_text_stripped (b : bool) n :
  strip (if b then strip (text n) else []) = if b then strip (text n) else [].
Proof. destruct b; [apply strip_idem | reflexivity]. Qed.

Lemma first_result_cons cells i idxs :
  first_result cells (i :: idxs) =
    if (i <? length cells)%nat
    then if is_placeholder (strip (text (cell cells i)))
         then first_result cells idxs
         else strip (text (cell cells i))
    else first_result cells idxs.
Proof.
  cbn [first_result]. destruct (i <? length cells)%nat; [|reflexivity].
  unfold is_placeholder.
  set (p := strip (text (cell cells i))).
  destruct (bool_decide (p ∈ [[]; py "-"; py "?"])) eqn:Hp.
  - now rewrite andb_false_r.
  - apply bool_decide_eq_false in Hp.
    rewrite bool_decide_false; [reflexivity|].
    intros E. apply Hp. rewrite E. apply list_elem_of_here.
Qed.

(** What the loop over the candidate cells returns: nothing, when every
    candidate in range is a placeholder, or the text of the first
    candidate in range that is not one. *)
Lemma first_result_spec cells idxs :
  (first_result cells idxs = []
   /\ Forall (fun i => (i < length cells)%nat ->
                       is_placeholder (strip (text (cell cells i))) = true) idxs)
  \/ (exists before i after,
        idxs = before ++ i :: after
        /\ (i < length cells)%nat
        /\ first_result cells idxs = strip (text (cell cells i))
        /\ is_placeholder (strip (text (cell cells i))) = false
        /\ Forall (fun j => (j < length cells)%nat ->
                            is_placeholder (strip (text (cell cells j))) = true)
                  before).
Proof.
  induction idxs as [|i idxs IH]; [left; split; [reflexivity | constructor]|].
  rewrite first_result_cons.
  destruct (i <? length cells)%nat eqn:Hi.
  - apply Nat.ltb_lt in Hi.
    destruct (is_placeholder (strip (text (cell cells i)))) eqn:Hp.
    + destruct IH as [[Hr Hall] | (before & j & after & -> & Hj & Hr & Hnp & Hall)].
      * left. split; [exact Hr | constructor; auto].
      * right. exists (i :: before), j, after. repeat split; auto.
    + right. exists [], i, idxs. repeat split; auto.
  - apply Nat.ltb_ge in Hi.
    destruct IH as [[Hr Hall] | (before & j & after & -> & Hj & Hr & Hnp & Hall)].
    + left. split; [exact Hr | constructor; [lia | exact Hall]].
    + right. exists (i :: before), j, after. repeat split; auto.
      constructor; [lia | exact Hall].
Qed.

Lemma first_result_stripped cells idxs :
  strip (first_result cells idxs) = first_result cells idxs.
Proof.
  destruct (first_result_spec cells idxs)
    as [[-> _] | (before & i & after & _ & _ & -> & _)];
    [reflexivity | apply strip_idem].
Qed.

Lemma primary_result_stripped cells :
  strip (primary_result cells) = primary_result cells.
Proof.
  unfold primary_result.
  destruct (11 <? length cells)%nat; [apply strip_idem|].
  destruct (7 <? length cells)%nat; [apply strip_idem | reflexivity].
Qed.

Lemma match_row_result cells :
  mr_result (match_row cells) =
    match primary_result cells with
    | [] => first_result cells [6; 7; 8; 9; 10; 11]%nat
    | t => t
    end.
Proof.
  unfold match_row, primary_result. cbn [mr_result].
  now destruct (if (11 <? length cells)%nat then _ else _).
Qed.

Lemma match_row_in soup table_id r :
  In r (parse_match_list_table soup table_id) ->
  exists cells, (8 <= length cells)%nat /\ r = match_row cells.
Proof.
  unfold parse_match_list_table.
  destruct (find (tag_id (py "table") table_id) soup) as [table|]; [|intros []].
  rewrite in_flat_map. intros (row & _ & Hr).
  destruct (length (find_all (is_tag (py "td")) row) <? 8)%nat eqn:E;
    [destruct Hr|].
  apply Nat.ltb_ge in E. destruct Hr as [<- | []]. eauto.
Qed.

(** X6: every row of a match list comes from a table row of 8 cells at
    least, and each of its nine texts is trimmed: stripping it again changes
    nothing. *)
Theorem match_list_rows_trimmed soup table_id r :
  In r (parse_match_list_table soup table_id) ->
  Forall (fun t => strip t = t)
    [mr_league r; mr_date r; mr_home_team r; mr_score r; mr_ht_score r;
     mr_away_team r; mr_corner r; mr_ht_corner r; mr_result r].
Proof.
  intros Hr. destruct (match_row_in _ _ _ Hr) as (cells & _ & ->).
  repeat (apply Forall_cons; split); try apply Forall_nil; try exact I;
    try apply guarded_text_stripped; try apply score_of_stripped.
  - unfold match_row, mr_date.
    destruct (1 <? length cells)%nat; [|reflexivity].
    destruct (strip (text (cell cells 1))) as [|c t] eqn:E;
      [apply text_or_stripped|].
    rewrite <- E. apply strip_idem.
  - rewrite match_row_result.
    pose proof (primary_result_stripped cells) as Hp.
    destruct (primary_result cells); [apply first_result_stripped | exact Hp].
Qed.

Lemma match_list_rows_trimmed_witness :
  Forall (fun t => strip t = t)
    [py "ENG PR"; py "24-07-2025"; py "Home FC"; py "2-1"; py "1-0";
     py "Away FC"; py "5-3"; []; py "W"].
Proof.
  apply (match_list_rows_trimmed Samples.match_list_page (py "table_v1")
           Samples.match_list_row).
  vm_compute. left. reflexivity.
Defined.

(** X7: the result of a row is the text of the cell looked at first (cell
    11 when the row has more than 11 cells, cell 7 otherwise) whenever that
    text is not empty; when it is empty, the result is the text of the
    first of the cells 6 to 11 in range whose text is none of the empty
    text, "-" and "?", and it is empty when there is no such cell. *)
Theorem match_list_result_fallback soup table_id r :
  In r (parse_match_list_table soup table_id) ->
  exists cells,
    (8 <= length cells)%nat /\ r = match_row cells
    /\ (primary_result cells <> [] -> mr_result r = primary_result cells)
    /\ (primary_result cells = [] ->
        (mr_result r = []
         /\ Forall (fun i => (i < length cells)%nat ->
                             is_placeholder (strip (text (cell cells i))) = true)
                   [6; 7; 8; 9; 10; 11]%nat)
        \/ (exists before i after,
              [6; 7; 8; 9; 10; 11]%nat = before ++ i :: after
              /\ (i < length cells)%nat
              /\ mr_result r = strip (text (cell cells i))
              /\ is_placeholder (mr_result r) = false
              /\ Forall (fun j => (j < length cells)%nat ->
                                  is_placeholder (strip (text (cell cells j))) = true)
                        before)).
Proof.
  intros Hr. destruct (match_row_in _ _ _ Hr) as (cells & Hlen & ->).
  exists cells. split; [exact Hlen|]. split; [reflexivity|].
  rewrite match_row_result. split.
  - now destruct (primary_result cells).
  - intros ->.
    destruct (first_result_spec cells [6; 7; 8; 9; 10; 11]%nat)
      as [[Hres Hall] | (before & i & after & Hsplit & Hi & Hres & Hnp & Hall)].
    + left. now split.
    + right. exists before, i, after. rewrite Hres. now repeat split.
Qed.

Lemma match_list_result_fallback_witness :
  exists cells,
    (8 <= length cells)%nat /\ Samples.match_list_row = match_row cells
    /\ (primary_result cells <> [] -> py "W" = primary_result cells)
    /\ (primary_result cells = [] ->
        (py "W" = []
         /\ Forall (fun i => (i < length cells)%nat ->
                             is_placeholder (strip (text (cell cells i))) = true)
                   [6; 7; 8; 9; 10; 11]%nat)
        \/ (exists before i after,
              [6; 7; 8; 9; 10; 11]%nat = before ++ i :: after
              /\ (i < length cells)%nat
              /\ py "W" = strip (text (cell cells i))
              /\ is_placeholder (py "W") = false
              /\ Forall (fun j => (j < length cells)%nat ->
                                  is_placeholder (strip (text (cell cells j))) = true)
                        before)).
Proof.
  apply (match_list_result_fallback Samples.match_list_page (py "table_v1")
           Samples.match_list_row).
  vm_compute. left. reflexivity.
Defined.

End MatchListRows.

Section MatchHeader.

Variable markup : node -> list ascii.

Lemma get_logo_url_not_relative img :
  startswith (get_logo_url img) (py "//") = false.
Proof.
  unfold get_logo_url. destruct img as [img|]; [|reflexivity].
  destruct (startswith (get_default (py "src") [] img) (py "//")) eqn:E;
    [reflexivity | exact E].
Qed.

Lemma team_logo_not_relative (div : option node) :
  startswith (match div with
              | Some d => get_logo_url (find (is_tag (py "img")) d)
              | None => []
              end) (py "//") = false.
Proof. destruct div; [apply get_logo_url_not_relative | reflexivity]. Qed.

(** X8: the two logo addresses of a match header never start with "//",
    whatever the page gives as the address of an image. *)
Theorem match_info_logo_urls soup info :
  parse_match_info markup soup = Data info ->
  startswith (mi_home_team_logo_url info) (py "//") = false
  /\ startswith (mi_away_team_logo_url info) (py "//") = false.
Proof.
  unfold parse_match_info.
  destruct (find (tag_id (py "div") (py "fbheader")) soup) as [header|];
    [|discriminate].
  intros [= <-]. cbn [mi_home_team_logo_url mi_away_team_logo_url].
  split; apply team_logo_not_relative.
Qed.

(** A word of [str.split()]: not empty and free of whitespace. *)
Lemma words_from_words s cur :
  forallb (fun c => negb (isspace c)) cur = true ->
  Forall (fun w => w <> [] /\ forallb (fun c => negb (isspace c)) w = true)
         (words_from cur s).
Proof.
  revert cur. induction s as [|c s IH]; intros cur Hcur; simpl.
  - destruct cur as [|a cur]; [constructor|].
    constructor; [|constructor]. split.
    + intros E. apply (f_equal (@length _)) in E.
      rewrite length_rev in E. discriminate.
    + rewrite forallb_forall in *. intros x Hx. apply Hcur. now apply in_rev.
  - destruct (isspace c) eqn:Hc.
    + destruct cur as [|a cur]; [now apply IH|].
      constructor; [|now apply IH]. split.
      * intros E. apply (f_equal (@length _)) in E.
        rewrite length_rev in E. discriminate.
      * rewrite forallb_forall in *. intros x Hx. apply Hcur. now apply in_rev.
    + apply IH. simpl. now rewrite Hc.
Qed.

Lemma words_from_word w cur rest :
  forallb (fun c => negb (isspace c)) w = true ->
  words_from cur (w ++ rest) = words_from (rev w ++ cur) rest.
Proof.
  revert cur. induction w as [|c w IH]; intros cur Hw; [reflexivity|].
  simpl in Hw. apply andb_prop in Hw as [Hc Hw].
  simpl. destruct (isspace c); [discriminate|].
  rewrite IH by exact Hw. now rewrite <- app_assoc.
Qed.

Lemma split_ws_join ws :
  Forall (fun w => w <> [] /\ forallb (fun c => negb (isspace c)) w = true) ws ->
  split_ws (join (py " ") ws) = ws.
Proof.
  unfold split_ws. induction ws as [|w ws IH]; intros Hws; [reflexivity|].
  apply Forall_cons_1 in Hws as [[Hne Hw] Hws].
  assert (Hrev : rev w <> []).
  { intros E. apply Hne. apply (f_equal (@rev _)) in E.
    now rewrite rev_involutive in E. }
  destruct ws as [|w2 ws].
  - cbn [join]. rewrite <- (app_nil_r w) at 1.
    rewrite words_from_word by exact Hw. rewrite app_nil_r. simpl.
    destruct (rev w) eqn:E; [congruence|]. rewrite <- E.
    now rewrite rev_involutive.
  - change (join (py " ") (w :: w2 :: ws))
      with (w ++ " "%char :: join (py " ") (w2 :: ws)).
    rewrite words_from_word by exact Hw. rewrite app_nil_r.
    cbn [words_from]. change (isspace " "%char) with true. cbv iota.
    destruct (rev w) eqn:E; [congruence|]. rewrite <- E.
    rewrite rev_involutive. f_equal. now apply IH.
Qed.

Lemma normalized_fixed t :
  join (py " ") (split_ws (join (py " ") (split_ws t)))
  = join (py " ") (split_ws t).
Proof.
  rewrite split_ws_join; [reflexivity|].
  unfold split_ws. now apply words_from_words.
Qed.

Lemma league_text_fixed (league_span : option node) :
  let league_text :=
    match league_span with
    | Some sp => join (py " ") (split_ws (text sp))
    | None => []
    end in
  join (py " ") (split_ws league_text) = league_text.
Proof. destruct league_span; [apply normalized_fixed | reflexivity]. Qed.

(** X9: the league text of a match header is normalised: cutting it at
    whitespace and joining the words with single spaces gives it back, so
    it has no run of spaces, tab or line break in it and none at its
    ends. *)
Theorem match_info_league_normalized soup info :
  parse_match_info markup soup = Data info ->
  join (py " ") (split_ws (mi_league info)) = mi_league info.
Proof.
  unfold parse_match_info.
  destruct (find (tag_id (py "div") (py "fbheader")) soup) as [header|];
    [|discriminate].
  intros [= <-]. cbn [mi_league]. apply league_text_fixed.
Qed.

End MatchHeader.

Lemma match_info_logo_urls_witness :
  startswith (py "https://cdn.example/home.png") (py "//") = false
  /\ startswith (py "https://cdn.example/away.png") (py "//") = false.
Proof.
  exact (match_info_logo_urls (fun _ => []) Samples.header_page
           Samples.header_info eq_refl).
Defined.

Lemma match_info_league_normalized_witness :
  join (py " ") (split_ws (py "English Premier League"))
  = py "English Premier League".
Proof.
  exact (match_info_league_normalized (fun _ => []) Samples.header_page
           Samples.header_info eq_refl).
Defined.

(** * Further properties of the upstream client *)

Section FetchShapes.

Import HttpClient.

Context {Time : Type}.
Variable json_loads : list ascii -> option json.

Lemma handle_shape url key (o : observation Time) e :
  fetched_shape (handle url key o e) = error
  /\ exists fields msg,
       fetched_content (handle url key o e) = JsonValue (JObj fields)
       /\ obj_get (py "error") fields = Some (JStr msg).
Proof.
  unfold handle.
  destruct (exn_cls e); (split; [reflexivity|]); do 2 eexists;
    (split; [reflexivity|]); reflexivity.
Qed.

(** X10: the tag of a result tells what its content is.  A result tagged
    [html] is the text of the page and has the key of the page; a result
    tagged [json] is a decoded value and has another key; a result tagged
    [error] is a dict with a message under [error]. *)
Theorem fetch_url_shape url key (o : observation Time) :
  let r := fetch_url json_loads url key o in
  match fetched_shape r with
  | html =>
      key = py "h2h_details" /\ exists page, fetched_content r = PageText page
  | json_shape =>
      key <> py "h2h_details" /\ exists j, fetched_content r = JsonValue j
  | error =>
      exists fields msg,
        fetched_content r = JsonValue (JObj fields)
        /\ obj_get (py "error") fields = Some (JStr msg)
  end.
Proof.
  assert (Hh : forall e,
             match fetched_shape (handle url key o e) with
             | html =>
                 key = py "h2h_details"
                 /\ exists page, fetched_content (handle url key o e) = PageText page
             | json_shape =>
                 key <> py "h2h_details"
                 /\ exists j, fetched_content (handle url key o e) = JsonValue j
             | error =>
                 exists fields msg,
                   fetched_content (handle url key o e) = JsonValue (JObj fields)
                   /\ obj_get (py "error") fields = Some (JStr msg)
             end).
  { intros e. destruct (handle_shape url key o e) as [-> H]. exact H. }
  unfold fetch_url. cbv zeta.
  destruct (obs_exchange o) as [e|r]; [apply Hh|].
  destruct (status_error r); [apply Hh|].
  destruct (bool_decide (key = py "h2h_details")) eqn:Hk.
  - apply bool_decide_eq_true in Hk.
    destruct (body_text r); [|apply Hh]. simpl. eauto.
  - apply bool_decide_eq_false in Hk.
    destruct (content_type_is_json r).
    + destruct (body_json r); [|apply Hh]. simpl. eauto.
    + destruct (body_text r) as [page|]; [|apply Hh].
      destruct (json_loads page); simpl; [eauto|].
      do 2 eexists. split; reflexivity.
Qed.

End FetchShapes.

Section DateRequest.

Import HttpClient.

(** X11: a date request fails towards its caller always in the same way:
    with an [APIError] of status 500.  When the upstream answers with a
    status other than 200, the message is "Failed to fetch data: " and
    nothing more, whatever the status was; when [requests.get] raises, the
    text of its exception follows. The text of the response is returned
    for the status 200 only. *)
Theorem fetch_date_data_simple_failures o :
  (forall text, fetch_date_data_simple o = Done text <-> o = RequestReturns 200 text)
  /\ (forall status_code text,
        o = RequestReturns status_code text -> status_code <> 200 ->
        fetch_date_data_simple o =
          Raised (ApiExn (api_error_with (py "Failed to fetch data: ") 500)))
  /\ (forall e,
        o = RequestRaises e ->
        fetch_date_data_simple o =
          Raised (ApiExn (api_error_with
                            (py "Failed to fetch data: " ++ exn_msg e) 500))).
Proof.
  unfold fetch_date_data_simple, fetch_date_data_try.
  split; [|split].
  - intros text. destruct o as [e|code body]; [split; discriminate|].
    destruct (code =? 200) eqn:E; simpl.
    + apply Z.eqb_eq in E as ->. split; congruence.
    + apply Z.eqb_neq in E. split; [discriminate | congruence].
  - intros code body -> Hne.
    destruct (code =? 200) eqn:E; [apply Z.eqb_eq in E; congruence|].
    reflexivity.
  - now intros e ->.
Qed.

(** What the outcome of [fetch_date_data_simple] says of the request. *)
Lemma fetch_date_data_simple_cases o :
  (forall text, fetch_date_data_simple o = Done text -> o = RequestReturns 200 text)
  /\ (forall e, fetch_date_data_simple o = Raised e ->
        (forall text, o <> RequestReturns 200 text) /\ str_exn e = []).
Proof.
  unfold fetch_date_data_simple, fetch_date_data_try. split.
  - intros text. destruct o as [e|code body]; [discriminate|].
    destruct (code =? 200) eqn:E; simpl; [|discriminate].
    apply Z.eqb_eq in E as ->. congruence.
  - intros e. destruct o as [x|code body].
    + intros [= <-]. split; [discriminate | reflexivity].
    + destruct (code =? 200) eqn:E; simpl; [discriminate|].
      apply Z.eqb_neq in E. intros [= <-]. split; [congruence | reflexivity].
Qed.

End DateRequest.

Section DateEndpointFacts.

Import App.

Variable json_loads : list ascii -> option json.
Variable strptime : list ascii -> option datetime.
Variable flesh : list ascii.

(** X12: the endpoint of the date query answers 400, 200 or 500, and each
    answer has its cause.  It answers 400, with the message of the date
    format, exactly when the date is not read, whatever the cache holds.
    It answers 500 exactly on a cache miss on which the upstream request
    does not return the status 200 or [parse_date_response] returns [None]
    on the text it returned, and the error text of that answer is empty in
    every such case.  It answers 200 with what the cache holds, or on a
    miss with the listing of the parsed text, and only then writes the
    cache, with the result it answers. *)
Theorem matches_by_date_endpoint_statuses cached_data upstream date_str :
  let resp := matches_by_date_endpoint json_loads strptime flesh
                cached_data upstream date_str in
  (status resp = 400
   /\ strptime date_str = None
   /\ body resp = ErrorBody (py "Invalid date format. Use YYYY-MM-DD")
   /\ cache_set resp = None)
  \/ (status resp = 500
      /\ body resp = ErrorBody []
      /\ cache_set resp = None
      /\ cached_data = None
      /\ exists date_obj,
           strptime date_str = Some date_obj
           /\ ((forall text,
                  upstream (date_api_url flesh date_obj)
                  <> HttpClient.RequestReturns 200 text)
               \/ exists text,
                    upstream (date_api_url flesh date_obj)
                    = HttpClient.RequestReturns 200 text
                    /\ parse_date_response json_loads text = None))
  \/ (status resp = 200
      /\ strptime date_str <> None
      /\ exists r,
           body resp = DateBody r
           /\ (cached_data = Some r /\ cache_set resp = None
               \/ cached_data = None /\ cache_set resp = Some r
                  /\ exists date_obj text parsed_data,
                       strptime date_str = Some date_obj
                       /\ upstream (date_api_url flesh date_obj)
                          = HttpClient.RequestReturns 200 text
                       /\ parse_date_response json_loads text = Some parsed_data
                       /\ r = {| date := date_str;
                                 match_count := length (collect_matches parsed_data);
                                 matches := collect_matches parsed_data |})).
Proof.
  unfold matches_by_date_endpoint.
  destruct (strptime date_str) as [date_obj|]; [|left; now repeat split].
  right. destruct cached_data as [cached|].
  - right. repeat split; [discriminate|]. exists cached. split; [reflexivity|].
    left. now split.
  - pose proof (fetch_date_data_simple_cases (upstream (date_api_url flesh date_obj)))
      as Hfetch.
    destruct (HttpClient.fetch_date_data_simple (upstream (date_api_url flesh date_obj)))
      as [text|e].
    + destruct Hfetch as [Hup _]. specialize (Hup text eq_refl).
      unfold get_matches_by_date.
      destruct (parse_date_response json_loads text) as [parsed_data|] eqn:Ep.
      * right. repeat split; [discriminate|]. eexists. split; [reflexivity|].
        right. split; [reflexivity|]. split; [reflexivity|].
        exists date_obj, text, parsed_data. now repeat split.
      * left. repeat split. exists date_obj. split; [reflexivity|].
        right. exists text. now split.
    + destruct Hfetch as [_ Hfail]. destruct (Hfail e eq_refl) as [Hup He].
      left. rewrite He. repeat split. exists date_obj. split; [reflexivity|].
      left. exact Hup.
Qed.

End DateEndpointFacts.

(** * models.py *)

Section ModelsFacts.

(** X13: [validate_api_key] accepts a key only when it is a string; what
    it returns is the key without the whitespace at its ends, which is not
    empty and which it accepts again unchanged. *)
Theorem validate_api_key_trimmed api_key k :
  validate_api_key api_key = Done k ->
  (exists s, api_key = JStr s /\ k = strip s)
  /\ k <> []
  /\ validate_api_key (JStr k) = Done k.
Proof.
  unfold validate_api_key.
  destruct api_key as [| | |s| |]; try discriminate.
  destruct (bool_decide (s = [])) eqn:E1; [discriminate|].
  destruct (length (strip s) =? 0)%nat eqn:E2; [discriminate|].
  simpl. intros [= <-].
  assert (Hne : strip s <> []).
  { intros E. rewrite E in E2. discriminate. }
  split; [eauto|]. split; [exact Hne|].
  rewrite strip_idem, E2, bool_decide_false by exact Hne. reflexivity.
Qed.

Lemma validate_api_key_trimmed_witness :
  (exists s, JStr (py "  key-123 ") = JStr s /\ py "key-123" = strip s)
  /\ py "key-123" <> []
  /\ validate_api_key (JStr (py "key-123")) = Done (py "key-123").
Proof.
  exact (validate_api_key_trimmed (JStr (py "  key-123 ")) (py "key-123") eq_refl).
Defined.

(** X14: a success response gives, under each key, the value of
    [extra_fields] when it has the key, and else its own: the data, the
    timestamp, [True] under [success], and [True] under [cached] when the
    response is a cached one.  So the three standard keys are always there,
    and [extra_fields] can replace their values. *)
Theorem build_success_response_lookup timestamp data cached extra_fields k :
  build_success_response timestamp data cached extra_fields !! k =
    match (match extra_fields with Some extra => extra !! k | None => None end) with
    | Some v => Some v
    | None =>
        if bool_decide (k = py "data") then Some data
        else if bool_decide (k = py "timestamp") then Some (JStr timestamp)
        else if bool_decide (k = py "success") then Some (JBool true)
        else if bool_decide (k = py "cached")
             then (if cached then Some (JBool true) else None)
        else None
    end.
Proof.
  assert (Hbase : forall c : bool,
    (if c then <[ py "cached" := JBool true ]>
               (<[ py "success" := JBool true ]>
                  (<[ py "timestamp" := JStr timestamp ]>
                     (<[ py "data" := data ]> (∅ : gmap (list ascii) json))))
     else <[ py "success" := JBool true ]>
            (<[ py "timestamp" := JStr timestamp ]>
               (<[ py "data" := data ]> ∅))) !! k
    = if bool_decide (k = py "data") then Some data
      else if bool_decide (k = py "timestamp") then Some (JStr timestamp)
      else if bool_decide (k = py "success") then Some (JBool true)
      else if bool_decide (k = py "cached")
           then (if c then Some (JBool true) else None)
      else None).
  { intros c.
    destruct (decide (k = py "data")) as [->|Hd].
    { destruct c; reflexivity. }
    rewrite (bool_decide_false _ Hd).
    destruct (decide (k = py "timestamp")) as [->|Ht].
    { destruct c; reflexivity. }
    rewrite (bool_decide_false _ Ht).
    destruct (decide (k = py "success")) as [->|Hs].
    { destruct c; reflexivity. }
    rewrite (bool_decide_false _ Hs).
    destruct (decide (k = py "cached")) as [->|Hc].
    { destruct c; reflexivity. }
    rewrite (bool_decide_false _ Hc).
    destruct c; repeat (rewrite lookup_insert_ne by congruence);
      apply lookup_empty. }
  unfold build_success_response. cbv zeta.
  destruct extra_fields as [extra|]; [|apply Hbase].
  destruct (bool_decide (extra = ∅)) eqn:E.
  - apply bool_decide_eq_true in E. subst extra. rewrite lookup_empty.
    apply Hbase.
  - rewrite lookup_union. rewrite Hbase.
    destruct (extra !! k) as [v|];
      now destruct (if bool_decide (k = py "data") then _ else _).
Qed.

End ModelsFacts.

(** * security.py *)

Section RateLimitFacts.

Import Security.

Context {K : Type} `{Countable K}.
Variable Time : Type.
Variable diff : Time -> Time -> Time.
Variable lt : Time -> Time -> bool.
Variable hour : Time.

Local Abbreviation allowed := (is_allowed (K := K) diff lt hour).

Lemma deque_of_lookup (st : limiter Time) (ip : K) dq :
  requests st !! ip = Some dq -> deque_of st ip = dq.
Proof. unfold deque_of. now intros ->. Qed.

(** What a call does to the limiter, in the three ways it can end. *)
Lemma is_allowed_cases (st : limiter Time) ip limit window now :
  let dq := prune diff lt window now (deque_of st ip) in
  (* still blocked *)
  (exists t, blocked_ips st !! ip = Some t /\ lt (diff now t) hour = true
             /\ allowed st ip limit window now = (false, st))
  \/ (* at the limit *)
     (limit <= Z.of_nat (length dq)
      /\ exists st',
          allowed st ip limit window now = (false, st')
          /\ requests st' = <[ ip := dq ]> (requests st)
          /\ blocked_ips st' = <[ ip := now ]> (delete ip (blocked_ips st)))
  \/ (* let through *)
     (Z.of_nat (length dq) < limit
      /\ exists st',
          allowed st ip limit window now = (true, st')
          /\ requests st' = <[ ip := dq ++ [now] ]> (requests st)
          /\ blocked_ips st' = delete ip (blocked_ips st)).
Proof.
  intros dq. unfold is_allowed.
  assert (Hadmit : forall blocked,
    blocked = delete ip (blocked_ips st) ->
    (limit <= Z.of_nat (length dq)
     /\ exists st',
         Security.count_request Time diff lt st blocked ip limit window now = (false, st')
         /\ requests st' = <[ ip := dq ]> (requests st)
         /\ blocked_ips st' = <[ ip := now ]> (delete ip (blocked_ips st)))
    \/ (Z.of_nat (length dq) < limit
        /\ exists st',
            Security.count_request Time diff lt st blocked ip limit window now = (true, st')
            /\ requests st' = <[ ip := dq ++ [now] ]> (requests st)
            /\ blocked_ips st' = delete ip (blocked_ips st))).
  { intros blocked ->. unfold Security.count_request. fold dq.
    destruct (limit <=? Z.of_nat (length dq)) eqn:E.
    - left. apply Z.leb_le in E. split; [exact E|]. eexists. split; [reflexivity|].
      now split.
    - right. apply Z.leb_gt in E. split; [exact E|]. eexists. split; [reflexivity|].
      split; [apply insert_insert_eq | reflexivity]. }
  destruct (blocked_ips st !! ip) as [t|] eqn:Hb.
  - destruct (lt (diff now t) hour) eqn:Hlt.
    + left. exists t. now repeat split.
    + right. now apply Hadmit.
  - right. apply Hadmit. symmetry. now apply delete_id.
Qed.

(** X15: a call for one address changes nothing for another: neither its
    deque of readings nor its entry in the block list. *)
Theorem is_allowed_other_address (st : limiter Time) ip ip' limit window now :
  ip' <> ip ->
  let st' := snd (allowed st ip limit window now) in
  requests st' !! ip' = requests st !! ip'
  /\ blocked_ips st' !! ip' = blocked_ips st !! ip'.
Proof.
  intros Hne.
  destruct (is_allowed_cases st ip limit window now)
    as [(t & _ & _ & ->) | [(_ & st' & -> & Hr & Hb) | (_ & st' & -> & Hr & Hb)]];
    cbn [snd]; [now split | |];
    rewrite Hr, Hb;
    rewrite ?lookup_insert_ne, ?lookup_delete_ne by congruence; now split.
Qed.

(** X16: after a call that lets the request through, the address is not in
    the block list, its deque is the pruned deque with the reading of the
    call at its end, and the deque holds no more than [limit] readings. *)
Theorem is_allowed_true (st st' : limiter Time) ip limit window now :
  allowed st ip limit window now = (true, st') ->
  blocked_ips st' !! ip = None
  /\ requests st' !! ip
     = Some (prune diff lt window now (deque_of st ip) ++ [now])
  /\ Z.of_nat (length (deque_of st' ip)) <= limit.
Proof.
  intros Hcall.
  destruct (is_allowed_cases st ip limit window now)
    as [(t & _ & _ & E) | [(_ & st2 & E & _) | (Hlen & st2 & E & Hr & Hb)]];
    rewrite E in Hcall; try discriminate.
  injection Hcall as <-.
  assert (Hreq : requests st2 !! ip
                 = Some (prune diff lt window now (deque_of st ip) ++ [now])).
  { rewrite Hr. apply lookup_insert_eq. }
  split; [rewrite Hb; apply lookup_delete_eq|]. split; [exact Hreq|].
  rewrite (deque_of_lookup _ _ _ Hreq), length_app. simpl. lia.
Qed.

(** X17: a call that refuses the request never records it.  Either the
    address is still blocked and the limiter is left as it was, or the
    pruned deque has reached the limit: then the deque is only pruned and
    the address is put in the block list at the reading of the call. *)
Theorem is_allowed_false (st st' : limiter Time) ip limit window now :
  allowed st ip limit window now = (false, st') ->
  (st' = st
   /\ exists t, blocked_ips st !! ip = Some t /\ lt (diff now t) hour = true)
  \/ (limit <= Z.of_nat (length (prune diff lt window now (deque_of st ip)))
      /\ requests st' !! ip = Some (prune diff lt window now (deque_of st ip))
      /\ blocked_ips st' !! ip = Some now).
Proof.
  intros Hcall.
  destruct (is_allowed_cases st ip limit window now)
    as [(t & Hb & Hlt & E) | [(Hlen & st2 & E & Hr & Hb) | (_ & st2 & E & _)]];
    rewrite E in Hcall; try discriminate; injection Hcall as <-.
  - left. split; [reflexivity | eauto].
  - right. split; [exact Hlen|]. rewrite Hr, Hb.
    split; apply lookup_insert_eq.
Qed.

Lemma within_window_drop window dq now rest :
  within_window diff lt window (dq ++ now :: rest) ->
  within_window diff lt window (dq ++ rest).
Proof.
  induction dq as [|t dq IH]; simpl.
  - now intros [_ Hw].
  - intros [Hall Hw]. split; [|now apply IH].
    apply Forall_app in Hall as [H1 H2]. apply Forall_cons_1 in H2 as [_ H2].
    apply Forall_app. now split.
Qed.

Lemma prune_within window dq now rest :
  within_window diff lt window (dq ++ now :: rest) ->
  prune diff lt window now dq = dq.
Proof.
  destruct dq as [|t dq]; [reflexivity|]. simpl. intros [Hall _].
  apply Forall_app in Hall as [_ Hall]. apply Forall_cons_1 in Hall as [Hnow _].
  unfold prune. simpl. now rewrite Hnow.
Qed.

(** Once the address is blocked with a full deque, every call within the
    window is refused. *)
Lemma calls_blocked (ip : K) limit window times :
  forall (st : limiter Time) tb dq,
    blocked_ips st !! ip = Some tb ->
    requests st !! ip = Some dq ->
    limit <= Z.of_nat (length dq) ->
    within_window diff lt window (dq ++ times) ->
    fst (calls diff lt hour st ip limit window times)
    = replicate (length times) false.
Proof.
  induction times as [|now times IH]; intros st tb dq Hb Hr Hlen Hw;
    [reflexivity|].
  cbn [calls fst snd length replicate].
  pose proof (prune_within _ _ _ _ Hw) as Hprune.
  pose proof (within_window_drop _ _ _ _ Hw) as Hw'.
  destruct (is_allowed_cases st ip limit window now)
    as [(t & _ & _ & E) | [(_ & st2 & E & Hr2 & Hb2) | (Hlt & _)]].
  - rewrite E. cbn [fst snd]. f_equal. now apply (IH st tb dq).
  - rewrite E. cbn [fst snd]. f_equal.
    rewrite (deque_of_lookup _ _ _ Hr), Hprune in Hr2.
    apply (IH st2 now dq); try assumption.
    + rewrite Hb2. apply lookup_insert_eq.
    + rewrite Hr2. apply lookup_insert_eq.
  - rewrite (deque_of_lookup _ _ _ Hr), Hprune in Hlt. lia.
Qed.

Lemma calls_quota (ip : K) limit window times :
  forall (st : limiter Time),
    blocked_ips st !! ip = None ->
    Z.of_nat (length (deque_of st ip)) <= limit ->
    within_window diff lt window (deque_of st ip ++ times) ->
    fst (calls diff lt hour st ip limit window times)
    = replicate (Nat.min (length times)
                         (Z.to_nat limit - length (deque_of st ip))) true
      ++ replicate (length times - (Z.to_nat limit - length (deque_of st ip)))
                   false.
Proof.
  induction times as [|now times IH]; intros st Hb Hlen Hw; [reflexivity|].
  cbn [calls fst snd length].
  pose proof (prune_within _ _ _ _ Hw) as Hprune.
  destruct (is_allowed_cases st ip limit window now)
    as [(t & Hbt & _) | [(Hfull & st2 & E & Hr2 & Hb2) | (Hlt & st2 & E & Hr2 & Hb2)]].
  - congruence.
  - rewrite E. cbn [fst snd]. rewrite Hprune in Hfull, Hr2.
    replace (Z.to_nat limit - length (deque_of st ip))%nat with 0%nat by lia.
    rewrite Nat.min_0_r, Nat.sub_0_r. cbn [replicate app]. f_equal.
    apply (calls_blocked ip limit window times st2 now (deque_of st ip)).
    + rewrite Hb2. apply lookup_insert_eq.
    + rewrite Hr2. apply lookup_insert_eq.
    + exact Hfull.
    + now apply within_window_drop with now.
  - rewrite E. cbn [fst snd]. rewrite Hprune in Hlt, Hr2.
    assert (Hdq : deque_of st2 ip = deque_of st ip ++ [now]).
    { apply deque_of_lookup. rewrite Hr2. apply lookup_insert_eq. }
    rewrite (IH st2).
    + rewrite Hdq, length_app. cbn [length].
      replace (Z.to_nat limit - length (deque_of st ip))%nat
        with (S (Z.to_nat limit - (length (deque_of st ip) + 1)))%nat by lia.
      rewrite <- Nat.succ_min_distr. cbn [replicate app Nat.sub]. reflexivity.
    + rewrite Hb2. apply lookup_delete_eq.
    + rewrite Hdq, length_app. cbn [length]. lia.
    + rewrite Hdq, <- app_assoc. exact Hw.
Qed.

(** X18: the limiter lets through exactly what is left of the limit.  For
    an address that is not blocked and whose deque holds no more than
    [limit] readings, a run of calls in which no reading gets older than
    the window is answered with [True] for the first calls, as many as the
    limit leaves room for, and with [False] for every call after them. *)
Theorem is_allowed_quota (st : limiter Time) (ip : K) limit window times :
  blocked_ips st !! ip = None ->
  Z.of_nat (length (deque_of st ip)) <= limit ->
  within_window diff lt window (deque_of st ip ++ times) ->
  fst (calls diff lt hour st ip limit window times)
  = replicate (Nat.min (length times)
                       (Z.to_nat limit - length (deque_of st ip))) true
    ++ replicate (length times - (Z.to_nat limit - length (deque_of st ip)))
                 false.
Proof. apply calls_quota. Qed.

End RateLimitFacts.

Section RateLimitChecks.

Import Security.

Lemma is_allowed_other_address_witness :
  let st := snd (is_allowed Z.sub Z.ltb 3600 (new_limiter (K := nat) (Time := Z))
                   2%nat 60 3600 10) in
  requests (snd (is_allowed Z.sub Z.ltb 3600 st 1%nat 60 3600 20)) !! 2%nat
    = requests st !! 2%nat
  /\ blocked_ips (snd (is_allowed Z.sub Z.ltb 3600 st 1%nat 60 3600 20)) !! 2%nat
    = blocked_ips st !! 2%nat.
Proof.
  intros st.
  apply (is_allowed_other_address (K := nat) Z Z.sub Z.ltb 3600 st 1%nat 2%nat
           60 3600 20).
  discriminate.
Defined.

Lemma is_allowed_true_witness :
  let st := new_limiter (K := nat) (Time := Z) in
  let st' := snd (is_allowed Z.sub Z.ltb 3600 st 1%nat 60 3600 10) in
  blocked_ips st' !! 1%nat = None
  /\ requests st' !! 1%nat
     = Some (prune Z.sub Z.ltb 3600 10 (deque_of st 1%nat) ++ [10])
  /\ Z.of_nat (length (deque_of st' 1%nat)) <= 60.
Proof.
  intros st st'.
  apply (is_allowed_true (K := nat) Z Z.sub Z.ltb 3600 st st' 1%nat 60 3600 10).
  reflexivity.
Defined.

Lemma is_allowed_false_witness :
  let st := snd (is_allowed Z.sub Z.ltb 3600 (new_limiter (K := nat) (Time := Z))
                   1%nat 1 3600 10) in
  let st' := snd (is_allowed Z.sub Z.ltb 3600 st 1%nat 1 3600 20) in
  (st' = st
   /\ exists t, blocked_ips st !! 1%nat = Some t /\ (20 - t <? 3600) = true)
  \/ (1 <= Z.of_nat (length (prune Z.sub Z.ltb 3600 20 (deque_of st 1%nat)))
      /\ requests st' !! 1%nat = Some (prune Z.sub Z.ltb 3600 20 (deque_of st 1%nat))
      /\ blocked_ips st' !! 1%nat = Some 20).
Proof.
  intros st st'.
  apply (is_allowed_false (K := nat) Z Z.sub Z.ltb 3600 st st' 1%nat 1 3600 20).
  reflexivity.
Defined.

Lemma is_allowed_quota_witness :
  fst (calls Z.sub Z.ltb 3600 (new_limiter (K := nat) (Time := Z)) 1%nat 2 3600
         [0; 1; 2; 3])
  = [true; true; false; false].
Proof.
  apply (is_allowed_quota (K := nat) Z Z.sub Z.ltb 3600 new_limiter 1%nat 2 3600
           [0; 1; 2; 3]).
  - reflexivity.
  - vm_compute. discriminate.
  - vm_compute. repeat constructor.
Defined.

End RateLimitChecks.

Section Guards.

Import Security.

(** X19: an endpoint behind [require_api_key] is called exactly when the
    request has an [X-API-Key] header that is not empty and equals the
    configured key; a missing or empty header is refused with 401, any
    other key with 403. *)
Theorem require_api_key_called {R} api_secret_key (f : R) req :
  (forall r,
     require_api_key api_secret_key f req = Called r <->
     header req "X-API-Key" = Some api_secret_key
     /\ api_secret_key <> [] /\ r = f)
  /\ (forall error status,
        require_api_key api_secret_key f req = Refused error status ->
        (status = 401
         /\ (header req "X-API-Key" = None \/ header req "X-API-Key" = Some []))
        \/ (status = 403
            /\ exists k, header req "X-API-Key" = Some k
                         /\ k <> [] /\ k <> api_secret_key)).
Proof.
  unfold require_api_key.
  destruct (header req "X-API-Key") as [[|c k]|] eqn:Hh.
  - split.
    + intros r. split; [discriminate|]. intros ([= <-] & Hne & _). congruence.
    + intros error status [= <- <-]. left. split; [reflexivity | now right].
  - destruct (bool_decide (c :: k = api_secret_key)) eqn:E; simpl.
    + apply bool_decide_eq_true in E. split.
      * intros r. split.
        -- intros [= <-]. rewrite <- E. repeat split. discriminate.
        -- intros (_ & _ & ->). reflexivity.
      * discriminate.
    + apply bool_decide_eq_false in E. split.
      * intros r. split; [discriminate|]. intros ([= Hk] & _). congruence.
      * intros error status [= <- <-]. right. split; [reflexivity|].
        exists (c :: k). repeat split; [discriminate | exact E].
  - split.
    + intros r. split; [discriminate|]. intros (Hk & _). discriminate.
    + intros error status [= <- <-]. left. split; [reflexivity | now left].
Qed.

Lemma split_on_absent sep s : ~ In sep s -> split_on sep s = [s].
Proof.
  induction s as [|c s IH]; [reflexivity|]. intros Hno. simpl.
  destruct (eqb_ascii c sep) eqn:E.
  - apply Ascii.eqb_eq in E. subst c. exfalso. apply Hno. now left.
  - rewrite IH; [reflexivity|]. intros Hin. apply Hno. now right.
Qed.

Section Jwt.

Variable jwt_decode : list ascii -> list ascii -> jwt_outcome.

(** X20: an endpoint behind [require_auth] is called only with a token
    that [jwt.decode] accepts under the configured key, and it gets the
    [user_id] of the payload of that token.  The token is not empty; it is
    the second of the pieces of the [Authorization] header cut at every
    space, whatever the first piece says, or the [X-API-Key] header when
    there is no [Authorization] header or that second piece is empty. *)
Theorem require_auth_called {R} jwt_secret_key (f : option json -> R) req r :
  require_auth jwt_decode jwt_secret_key f req = Called r ->
  exists token payload,
    token <> []
    /\ jwt_decode token jwt_secret_key = Decoded payload
    /\ r = f (obj_get (py "user_id") payload)
    /\ ((exists auth_header scheme rest,
           header req "Authorization" = Some auth_header
           /\ split_on " "%char auth_header = scheme :: token :: rest)
        \/ ((header req "Authorization" = None
             \/ exists auth_header scheme rest,
                  header req "Authorization" = Some auth_header
                  /\ split_on " "%char auth_header = scheme :: [] :: rest)
            /\ header req "X-API-Key" = Some token)).
Proof.
  unfold require_auth, auth_token.
  destruct (header req "Authorization") as [auth|] eqn:Ha.
  - unfold index. change (Z.to_nat 1) with 1%nat.
    destruct (split_on " "%char auth) as [|scheme [|t rest]] eqn:Es;
      cbn [lookup list_lookup bind]; try discriminate.
    destruct t as [|c t].
    + destruct (header req "X-API-Key") as [[|c k]|] eqn:Hk; try discriminate.
      destruct (jwt_decode (c :: k) jwt_secret_key) as [payload| |] eqn:Ed;
        try discriminate.
      intros [= <-]. exists (c :: k), payload.
      repeat split; [discriminate | exact Ed |].
      right. split; [|reflexivity]. right. eauto.
    + destruct (jwt_decode (c :: t) jwt_secret_key) as [payload| |] eqn:Ed;
        try discriminate.
      intros [= <-]. exists (c :: t), payload.
      repeat split; [discriminate | exact Ed |].
      left. eauto.
  - cbn [bind].
    destruct (header req "X-API-Key") as [[|c k]|] eqn:Hk; try discriminate.
    destruct (jwt_decode (c :: k) jwt_secret_key) as [payload| |] eqn:Ed;
      try discriminate.
    intros [= <-]. exists (c :: k), payload.
    repeat split; [discriminate | exact Ed |].
    right. split; [now left | reflexivity].
Qed.

(** X21: an [Authorization] header with no space in it is refused with
    401 and "Invalid token format", whatever the [X-API-Key] header holds
    and whatever [jwt.decode] would say. *)
Theorem require_auth_malformed_header {R} jwt_secret_key (f : option json -> R)
    req auth_header :
  header req "Authorization" = Some auth_header ->
  ~ In " "%char auth_header ->
  require_auth jwt_decode jwt_secret_key f req
  = Refused (py "Invalid token format") 401.
Proof.
  intros Ha Hno. unfold require_auth, auth_token. rewrite Ha.
  now rewrite (split_on_absent _ _ Hno).
Qed.

End Jwt.

Lemma dropwhile_In {A} (p : A -> bool) (l : list A) x :
  In x (dropwhile p l) -> In x l.
Proof.
  induction l as [|y l IH]; simpl; [tauto|].
  destruct (p y); [intros Hx; right; now apply IH | tauto].
Qed.

Lemma strip_In s c : In c (strip s) -> In c s.
Proof.
  unfold strip, rstrip, lstrip. intros Hin.
  apply in_rev, dropwhile_In, in_rev in Hin. now apply dropwhile_In in Hin.
Qed.

(** X22: when the request has an [X-Forwarded-For] header that is not
    empty, the address is the first of its pieces cut at the commas,
    trimmed: it has no comma in it and no whitespace at its ends, and the
    other headers and the address of the peer play no part in it. *)
Theorem get_real_ip_forwarded req v :
  header req "X-Forwarded-For" = Some v -> v <> [] ->
  exists first rest,
    split_on ","%char v = first :: rest
    /\ get_real_ip req = Some (strip first)
    /\ ~ In ","%char (strip first)
    /\ strip (strip first) = strip first.
Proof.
  intros Hh Hne. unfold get_real_ip. rewrite Hh.
  destruct v as [|c v]; [congruence|].
  destruct (split_on_nonempty ","%char (c :: v)) as (first & rest & Es).
  exists first, rest. rewrite Es. cbn [nth].
  repeat split.
  - intros Hin. apply strip_In in Hin.
    apply (split_on_no_sep ","%char (c :: v) first); [|exact Hin].
    rewrite Es. now left.
  - apply strip_idem.
Qed.

End Guards.

Section GuardChecks.

Import Security.

Lemma require_auth_called_witness :
  exists token payload,
    token <> []
    /\ Samples.decode_good token (py "key") = Decoded payload
    /\ 7 = match obj_get (py "user_id") payload with Some (JInt n) => n | _ => 0 end
    /\ ((exists auth_header scheme rest,
           header Samples.bearer_request "Authorization" = Some auth_header
           /\ split_on " "%char auth_header = scheme :: token :: rest)
        \/ ((header Samples.bearer_request "Authorization" = None
             \/ exists auth_header scheme rest,
                  header Samples.bearer_request "Authorization" = Some auth_header
                  /\ split_on " "%char auth_header = scheme :: [] :: rest)
            /\ header Samples.bearer_request "X-API-Key" = Some token)).
Proof.
  exact (require_auth_called Samples.decode_good (py "key")
           (fun u => match u with Some (JInt n) => n | _ => 0 end)
           Samples.bearer_request 7 eq_refl).
Defined.

Lemma require_auth_malformed_header_witness :
  require_auth Samples.decode_good (py "key") (fun _ => 0)
    Samples.forwarded_request
  = Refused (py "Invalid token format") 401.
Proof.
  apply (require_auth_malformed_header Samples.decode_good (py "key")
           (fun _ => 0) Samples.forwarded_request (py "good")).
  - reflexivity.
  - vm_compute. intuition discriminate.
Defined.

Lemma get_real_ip_forwarded_witness :
  exists first rest,
    split_on ","%char (py " 10.0.0.7 , 192.168.1.1") = first :: rest
    /\ get_real_ip Samples.forwarded_request = Some (strip first)
    /\ ~ In ","%char (strip first)
    /\ strip (strip first) = strip first.
Proof.
  apply (get_real_ip_forwarded Samples.forwarded_request
           (py " 10.0.0.7 , 192.168.1.1")).
  - reflexivity.
  - discriminate.
Defined.

End GuardChecks.

(** * The odds of the first half and the debug view *)

Section OddsFacts.

Variable py_str : json -> list ascii.

Lemma market_of_dict fields name :
  market_of (JObj fields) name =
    match obj_get_default name (JObj []) fields with
    | JObj m =>
        Return {| mk_first := obj_get_default "f" (JObj []) m;
                  mk_last := obj_get_default "l" (JObj []) m;
                  mk_current := obj_get_default "r" (JObj []) m;
                  mk_has_changed := obj_get_default "hr" (JBool false) m |}
    | v => Raise (no_get v)
    end.
Proof.
  unfold market_of. cbn [get_of bind].
  now destruct (obj_get_default name (JObj []) fields).
Qed.

(** The [try] block of an entry returns exactly for the entries that are
    well formed. *)
Lemma company_of_well_formed odds_entry :
  well_formed_entry odds_entry = true <-> exists c, company_of odds_entry = Return c.
Proof.
  unfold company_of, well_formed_entry.
  destruct odds_entry as [| | | | |fields];
    try (split; [discriminate | intros [c Hc]; discriminate]).
  cbn [bind get_of]. rewrite !market_of_dict.
  destruct (obj_get_default "euro" (JObj []) fields);
    try (split; [discriminate | intros [c Hc]; discriminate]).
  destruct (obj_get_default "ou" (JObj []) fields);
    try (split; [discriminate | intros [c Hc]; discriminate]).
  destruct (obj_get_default "ah" (JObj []) fields);
    try (split; [discriminate | intros [c Hc]; discriminate]).
  split; [eauto | reflexivity].
Qed.

Lemma parsed_companies_omap entries :
  parsed_companies entries =
    omap (fun e => match company_of e with
                   | Return c => Some c
                   | Raise _ => None
                   end) entries.
Proof.
  unfold parsed_companies.
  enough (Hgen : forall acc,
    fold_left (fun parsed_odds odds_entry =>
                 match company_of odds_entry with
                 | Return company_data => parsed_odds ++ [company_data]
                 | Raise _ => parsed_odds
                 end) entries acc
    = acc ++ omap (fun e => match company_of e with
                            | Return c => Some c
                            | Raise _ => None
                            end) entries) by apply (Hgen []).
  induction entries as [|e entries IH]; intros acc; simpl.
  - now rewrite app_nil_r.
  - rewrite IH. destruct (company_of e); [|reflexivity].
    now rewrite <- app_assoc.
Qed.

Lemma parsed_companies_length entries :
  length (parsed_companies entries)
  = length (List.filter well_formed_entry entries).
Proof.
  rewrite parsed_companies_omap.
  induction entries as [|e entries IH]; [reflexivity|]. simpl.
  destruct (well_formed_entry e) eqn:Hw.
  - apply company_of_well_formed in Hw as [c ->]. simpl. now f_equal.
  - destruct (company_of e) as [c|x] eqn:Hc; [|exact IH].
    assert (well_formed_entry e = true) by (apply company_of_well_formed; eauto).
    congruence.
Qed.

(** X23: whenever the odds of the first half are parsed, the count of the
    companies is the number of dicts in the list of the odds and is not
    above the total of the entries; and for a payload with the error code
    0 whose [mixodds] is a list, the parse succeeds, the total is the
    length of that list, and the companies kept are those of the entries
    that are well formed: a dict whose [euro], [ou] and [ah], where
    present, are dicts.  The other entries are skipped. *)
Theorem parse_first_half_odds_counts json_data :
  (forall d,
     parse_first_half_odds py_str json_data = Odds d ->
     betting_companies_count d = length (first_half_odds d)
     /\ (betting_companies_count d <= total_companies d)%nat)
  /\ (forall fields data_fields entries,
        json_data = JObj fields -> fields <> [] ->
        differs_from_zero (obj_get_default "ErrCode" (JInt (-1)) fields) = false ->
        obj_get (py "Data") fields = Some (JObj data_fields) ->
        obj_get (py "mixodds") data_fields = Some (JArr entries) ->
        exists d,
          parse_first_half_odds py_str json_data = Odds d
          /\ total_companies d = length entries
          /\ betting_companies_count d
             = length (List.filter well_formed_entry entries)
          /\ first_half_odds d = parsed_companies entries).
Proof.
  split.
  - intros d. unfold parse_first_half_odds, parse_first_half_odds_try.
    destruct json_data as [| | | | |[|item items]]; try discriminate.
    destruct (differs_from_zero _); [discriminate|].
    destruct (get_of _ "mixodds" (JArr [])) as [mixodds|]; [|discriminate].
    cbn [bind].
    destruct (iterate mixodds) as [entries|]; [|discriminate].
    cbn [bind]. intros [= <-]. cbn.
    split; [reflexivity|]. rewrite parsed_companies_length.
    apply filter_length_le.
  - intros fields data_fields entries -> Hne Herr Hdata Hmix.
    unfold parse_first_half_odds, parse_first_half_odds_try.
    destruct fields as [|item items]; [congruence|].
    rewrite Herr. unfold obj_get_default at 1. rewrite Hdata.
    cbn [get_of bind]. unfold obj_get_default at 1. rewrite Hmix.
    cbn [iterate bind]. eexists. split; [reflexivity|]. cbn.
    split; [reflexivity|]. split; [apply parsed_companies_length | reflexivity].
Qed.

End OddsFacts.

Section DebugView.

Lemma enumerate_length {A} (l : list A) : length (enumerate l) = length l.
Proof. unfold enumerate. rewrite length_combine, length_seq. lia. Qed.

Lemma slice_prefix_length {A} (n : nat) (l : list A) :
  length (slice None (Some (Z.of_nat n)) l) = Nat.min n (length l).
Proof. rewrite slice_prefix. apply length_take. Qed.

Lemma preview_text_length cell : (length (preview_text cell) <= 53)%nat.
Proof.
  unfold preview_text.
  destruct (50 <? length (strip (text cell)))%nat eqn:E.
  - rewrite length_app.
    pose proof (slice_prefix_length 50 (strip (text cell))) as Hs.
    change (Z.of_nat 50) with 50 in Hs. rewrite Hs.
    change (length (py "...")) with 3%nat. lia.
  - apply Nat.ltb_ge in E. lia.
Qed.

(** X24: the debug view of a table counts all its data rows but shows the
    first three at most; each row shown has one entry for each of its
    cells, and the text of an entry has 53 characters at most. *)
Theorem debug_table_structure_bounds soup table_id d :
  debug_table_structure soup table_id = Data d ->
  length (dbg_sample_row_structure d) = Nat.min 3 (dbg_total_rows d)
  /\ Forall (fun r =>
               rs_cell_count r = length (rs_cells r)
               /\ Forall (fun c => (length (ci_text c) <= 53)%nat) (rs_cells r))
            (dbg_sample_row_structure d).
Proof.
  unfold debug_table_structure.
  destruct (find (tag_id (py "table") table_id) soup) as [table|];
    [|discriminate].
  intros [= <-]. cbn [dbg_sample_row_structure dbg_total_rows]. split.
  - rewrite length_map, enumerate_length.
    apply (slice_prefix_length 3).
  - apply List.Forall_forall. intros r Hr. apply in_map_iff in Hr as (ir & <- & _).
    cbn [rs_cell_count rs_cells]. split.
    + now rewrite length_map, enumerate_length.
    + apply List.Forall_forall. intros c Hc.
      apply in_map_iff in Hc as (jc & <- & _).
      cbn [ci_text]. apply preview_text_length.
Qed.

Lemma debug_table_structure_bounds_witness :
  length (dbg_sample_row_structure Samples.debug_info_v1)
  = Nat.min 3 (dbg_total_rows Samples.debug_info_v1)
  /\ Forall (fun r =>
               rs_cell_count r = length (rs_cells r)
               /\ Forall (fun c => (length (ci_text c) <= 53)%nat) (rs_cells r))
            (dbg_sample_row_structure Samples.debug_info_v1).
Proof.
  apply (debug_table_structure_bounds Samples.match_list_page (py "table_v1")
           Samples.debug_info_v1).
  reflexivity.
Defined.

End DebugView.

(** * The details of a match *)

Section MatchDataFacts.

Import HttpClient App.

Context {Time : Type}.
Variable json_loads : list ascii -> option json.
Variable markup : node -> list ascii.
Variable py_str : json -> list ascii.
Variable make_soup : content -> result node.
Variable flesh : list ascii.

Local Abbreviation store :=
  (store_result Time markup py_str make_soup).
Local Abbreviation page :=
  (store_page Time markup make_soup).

Lemma set_slot_times (d : match_data Time) k v :
  fetch_times (set_slot Time d k v) = fetch_times d.
Proof. reflexivity. Qed.

Lemma store_page_times (d : match_data Time) k c :
  fetch_times (page d k c) = fetch_times d.
Proof.
  unfold store_page. destruct (make_soup c); [|reflexivity].
  now destruct (parse_h2h_details _).
Qed.

Lemma store_result_times (d : match_data Time) r :
  fetch_times (store d r) = <[ fetched_key r := fetched_time r ]> (fetch_times d).
Proof.
  unfold store_result. cbv zeta.
  destruct (fetched_shape r).
  - destruct (bool_decide _); [apply store_page_times | reflexivity].
  - destruct (bool_decide _); reflexivity.
  - reflexivity.
Qed.

(** The time under a key is the time of the last result of that key. *)
Lemma fetch_times_fold rs (d : match_data Time) k :
  fetch_times (fold_left store rs d) !! k =
    match last (entries_of k rs) with
    | Some r => Some (fetched_time r)
    | None => fetch_times d !! k
    end.
Proof.
  induction rs as [|r rs IH] using rev_ind; [reflexivity|].
  rewrite fold_left_app. cbn [fold_left]. rewrite store_result_times.
  unfold entries_of in *. rewrite List.filter_app. cbn [List.filter].
  destruct (decide (fetched_key r = k)) as [<-|Hne].
  - rewrite bool_decide_true by reflexivity.
    now rewrite lookup_insert_eq, last_snoc.
  - rewrite bool_decide_false by exact Hne.
    rewrite lookup_insert_ne by exact Hne. now rewrite app_nil_r.
Qed.

Lemma match_urls_keys match_id :
  map fst (match_urls flesh match_id)
  = [py "h2h_details"; py "ah_odds"; py "corner_odds"; py "correct_score_odds";
     py "double_chance_odds"; py "odds_comp"; py "over_under_odds";
     py "first_half_odds"].
Proof. reflexivity. Qed.

Lemma match_urls_nodup match_id : NoDup (map fst (match_urls flesh match_id)).
Proof.
  rewrite match_urls_keys.
  apply (bool_decide_unpack (NoDup _)). vm_compute. exact I.
Qed.

Lemma entries_of_absent k (rs : list (fetched Time)) :
  ~ In k (map fetched_key rs) -> entries_of k rs = [].
Proof.
  unfold entries_of. induction rs as [|r rs IH]; [reflexivity|]. simpl.
  intros Hno. rewrite bool_decide_false by tauto. apply IH. tauto.
Qed.

Lemma entries_of_last k (rs : list (fetched Time)) r :
  last (entries_of k rs) = Some r -> In k (map fetched_key rs).
Proof.
  intros Hlast. apply last_Some_elem_of, list_elem_of_In in Hlast.
  unfold entries_of in Hlast. apply List.filter_In in Hlast as [Hin Hk].
  apply bool_decide_eq_true in Hk. subst k. now apply in_map.
Qed.

(** The loop leaves the id of the match as it is. *)
Lemma store_results_match_id match_id (rs : list (fetched Time)) :
  md_match_id (store_results Time markup py_str make_soup match_id rs) = match_id.
Proof.
  unfold store_results.
  enough (Hid : forall d : match_data Time,
             md_match_id (fold_left store rs d) = md_match_id d)
    by apply Hid.
  induction rs as [|r rs IH]; intros d; [reflexivity|].
  cbn [fold_left]. rewrite IH. unfold store_result. cbv zeta.
  destruct (fetched_shape r); repeat destruct (bool_decide _);
    try reflexivity.
  unfold store_page. destruct (make_soup _); [|reflexivity].
  now destruct (parse_h2h_details _).
Qed.

(** The times of the dict of a list of results. *)
Lemma store_results_times match_id (rs : list (fetched Time)) k :
  fetch_times (store_results Time markup py_str make_soup match_id rs) !! k
  = fetched_time <$> last (entries_of k rs).
Proof.
  unfold store_results. rewrite fetch_times_fold.
  destruct (last (entries_of k rs)); [reflexivity|]. apply lookup_empty.
Qed.

(** X25: for a match id above 0, [fetch_match_data_sync] returns a dict
    whose [fetch_times] has the eight keys of the requests and no other,
    each with the time its own request measured; for an id of 0 or below
    it raises the [APIError] of status 400, whatever the session would
    do. *)
Theorem fetch_match_data_sync_times net match_id :
  (match_id <= 0 ->
   fetch_match_data_sync Time json_loads markup py_str make_soup flesh net match_id
   = Raised (ApiExn (api_error_with (py "Invalid match ID") 400)))
  /\ (0 < match_id ->
      exists data,
        fetch_match_data_sync Time json_loads markup py_str make_soup flesh
          net match_id = Done data
        /\ md_match_id data = match_id
        /\ (forall k u,
              In (k, u) (match_urls flesh match_id) ->
              fetch_times data !! k
              = Some (fetched_time (fetch_url json_loads u k (net k u))))
        /\ (forall k,
              is_Some (fetch_times data !! k) ->
              In k (map fst (match_urls flesh match_id)))).
Proof.
  unfold fetch_match_data_sync. split.
  - intros Hle. now rewrite (proj2 (Z.leb_le _ _) Hle).
  - intros Hpos. rewrite (proj2 (Z.leb_gt _ _) Hpos).
    eexists. split; [reflexivity|].
    split; [apply store_results_match_id|]. split.
    + intros k u Hin. rewrite store_results_times, entries_of_fetch_all.
      now rewrite (filter_unique_key _ k u (match_urls_nodup match_id) Hin).
    + intros k [t Ht]. rewrite store_results_times in Ht.
      destruct (last (entries_of k _)) as [r|] eqn:Hlast; [|discriminate].
      apply entries_of_last in Hlast.
      now rewrite fetch_all_urls_keys in Hlast.
Qed.

Lemma fetch_url_html_key url key (o : observation Time) :
  fetched_shape (fetch_url json_loads url key o) = html ->
  key = py "h2h_details".
Proof.
  unfold fetch_url, handle. cbv zeta.
  destruct (obs_exchange o) as [e|r]; [now destruct (exn_cls e)|].
  destruct (status_error r); [discriminate|].
  destruct (bool_decide (key = py "h2h_details")) eqn:Hk.
  - intros _. now apply bool_decide_eq_true in Hk.
  - destruct (content_type_is_json r).
    + destruct (body_json r) as [j|e]; [discriminate | now destruct (exn_cls e)].
    + destruct (body_text r) as [t|e]; [|now destruct (exn_cls e)].
      now destruct (json_loads t).
Qed.

Lemma fetch_all_urls_in net urls (r : fetched Time) :
  In r (fetch_all_urls json_loads net urls) ->
  exists k u, In (k, u) urls /\ r = fetch_url json_loads u k (net k u).
Proof.
  unfold fetch_all_urls. rewrite in_map_iff. intros ([k u] & <- & Hin). eauto.
Qed.

Lemma store_result_own (d : match_data Time) r :
  fetched_key r <> py "h2h_details" ->
  slots (store d r) !! fetched_key r = Some (own_slot Time py_str r).
Proof.
  intros Hk. unfold store_result, own_slot. cbv zeta.
  destruct (fetched_shape r).
  - rewrite (bool_decide_false _ Hk). apply lookup_insert_eq.
  - destruct (bool_decide (fetched_key r = py "first_half_odds"));
      apply lookup_insert_eq.
  - apply lookup_insert_eq.
Qed.

Lemma store_result_other (d : match_data Time) r k :
  fetched_key r <> k ->
  (fetched_key r = py "h2h_details" -> k <> py "match_info" /\ k <> py "fixture") ->
  slots (store d r) !! k = slots d !! k.
Proof.
  intros Hk Hpage. unfold store_result. cbv zeta.
  destruct (fetched_shape r).
  - destruct (bool_decide (fetched_key r = py "h2h_details")) eqn:E.
    + apply bool_decide_eq_true in E. destruct (Hpage E) as [Hm Hf].
      unfold store_page. destruct (make_soup _) as [soup|e].
      * destruct (parse_h2h_details soup); cbn [slots set_slot];
          rewrite !lookup_insert_ne by congruence; reflexivity.
      * cbn [slots set_slot]. now rewrite lookup_insert_ne.
    + cbn [slots set_slot]. now rewrite lookup_insert_ne.
  - destruct (bool_decide _); cbn [slots set_slot]; now rewrite lookup_insert_ne.
  - cbn [slots set_slot]. now rewrite lookup_insert_ne.
Qed.

Lemma store_results_other rs (d : match_data Time) k :
  Forall (fun r => fetched_key r <> k
                   /\ (fetched_key r = py "h2h_details" ->
                       k <> py "match_info" /\ k <> py "fixture")) rs ->
  slots (fold_left store rs d) !! k = slots d !! k.
Proof.
  revert d. induction rs as [|r rs IH]; intros d Hall; [reflexivity|].
  apply Forall_cons_1 in Hall as [[Hk Hp] Hall]. cbn [fold_left].
  rewrite IH by exact Hall. now apply store_result_other.
Qed.

(** The results of the addresses after one of them leave its key alone,
    when the keys of the dict are all different. *)
Lemma later_results_other net (l2 : list (list ascii * list ascii)) k :
  ~ In k (map fst l2) ->
  k <> py "match_info" -> k <> py "fixture" ->
  Forall (fun r : fetched Time =>
            fetched_key r <> k
            /\ (fetched_key r = py "h2h_details" ->
                k <> py "match_info" /\ k <> py "fixture"))
         (fetch_all_urls json_loads net l2).
Proof.
  intros Hnotin Hm Hf. apply List.Forall_forall. intros x Hx.
  apply fetch_all_urls_in in Hx as (k2 & u2 & Hin2 & ->).
  rewrite fetch_url_key. split; [|tauto].
  intros ->. apply Hnotin. apply in_map_iff. now exists (k, u2).
Qed.

(** What the loop leaves under the key of a request that is not the one
    of the page, for any dict of addresses with that key once. *)
Lemma store_results_own net urls match_id k u :
  NoDup (map fst urls) -> In (k, u) urls ->
  k <> py "h2h_details" -> k <> py "match_info" -> k <> py "fixture" ->
  slots (store_results Time markup py_str make_soup match_id
           (fetch_all_urls json_loads net urls)) !! k
  = Some (own_slot Time py_str (fetch_url json_loads u k (net k u))).
Proof.
  intros Hnd Hin Hk Hm Hf.
  destruct (in_split _ _ Hin) as (l1 & l2 & ->).
  rewrite map_app in Hnd. cbn [map fst] in Hnd.
  apply NoDup_app in Hnd as (_ & _ & Hnd2).
  apply NoDup_cons in Hnd2 as [Hnotin _].
  unfold store_results, fetch_all_urls.
  rewrite map_app, fold_left_app. cbn [map fold_left fst snd].
  rewrite store_results_other.
  - set (r := fetch_url json_loads u k (net k u)).
    assert (Hkey : fetched_key r = k) by apply fetch_url_key.
    match goal with
    | |- slots (store_result _ _ _ _ ?d _) !! _ = _ =>
        pose proof (store_result_own d r) as Hown
    end.
    rewrite Hkey in Hown. now apply Hown.
  - apply (later_results_other net l2 k); [|exact Hm|exact Hf].
    intros Hin2. apply Hnotin. now apply list_elem_of_In.
Qed.

Lemma url_key_cases match_id k u :
  In (k, u) (match_urls flesh match_id) ->
  In k [py "h2h_details"; py "ah_odds"; py "corner_odds"; py "correct_score_odds";
        py "double_chance_odds"; py "odds_comp"; py "over_under_odds";
        py "first_half_odds"].
Proof.
  intros Hin. rewrite <- (match_urls_keys match_id).
  apply in_map_iff. now exists (k, u).
Qed.

Lemma url_key_not_extra match_id k u :
  In (k, u) (match_urls flesh match_id) ->
  k <> py "match_info" /\ k <> py "fixture".
Proof.
  intros Hin. apply url_key_cases in Hin. simpl in Hin.
  repeat (destruct Hin as [<- | Hin]; [split; discriminate|]). destruct Hin.
Qed.

Lemma Done_inj {A} (x y : A) : Done x = Done y -> x = y.
Proof. now intros [= ->]. Qed.

(** The dict a successful call returns is the one of the loop. *)
Lemma fetch_match_data_sync_Done net match_id data :
  fetch_match_data_sync Time json_loads markup py_str make_soup flesh net match_id
  = Done data ->
  data = store_results Time markup py_str make_soup match_id
           (fetch_all_urls json_loads net (match_urls flesh match_id)).
Proof.
  unfold fetch_match_data_sync.
  destruct (match_id <=? 0); [discriminate|].
  intros Hd. apply Done_inj in Hd. now symmetry.
Qed.

(** X26: the result of each request for odds ends, in the dict of the
    match, under its own key and nowhere else: as it came when its tag is
    [error], or when its tag is [json] and its key is not that of the odds
    of the first half; and as [parse_first_half_odds] makes it for that key.
    What the other requests return, the page included, does not change
    it. *)
Theorem fetch_match_data_sync_odds net match_id data k u :
  fetch_match_data_sync Time json_loads markup py_str make_soup flesh net match_id
  = Done data ->
  In (k, u) (match_urls flesh match_id) ->
  k <> py "h2h_details" ->
  let r := fetch_url json_loads u k (net k u) in
  slots data !! k =
    Some (match fetched_shape r with
          | json_shape =>
              if bool_decide (k = py "first_half_odds")
              then OddsSlot (parse_first_half_odds py_str
                               (content_value (fetched_content r)))
              else Passed (fetched_content r)
          | _ => Passed (fetched_content r)
          end).
Proof.
  intros Hd Hin Hk r. apply fetch_match_data_sync_Done in Hd. subst data.
  destruct (url_key_not_extra _ _ _ Hin) as [Hm Hf].
  rewrite (store_results_own net _ match_id k u
             (match_urls_nodup match_id) Hin Hk Hm Hf).
  fold r. unfold own_slot.
  assert (Hkey : fetched_key r = k) by apply fetch_url_key.
  rewrite Hkey.
  destruct (fetched_shape r) eqn:Hs; try reflexivity.
  apply fetch_url_html_key in Hs. congruence.
Qed.

(** What the loop leaves under the three keys of the page, for any dict of
    addresses that starts with the page and has none of the three keys
    after it. *)
Lemma store_results_page net match_id u rest soup :
  Forall (fun k => k <> py "h2h_details" /\ k <> py "match_info"
                   /\ k <> py "fixture") (map fst rest) ->
  fetched_shape (fetch_url json_loads u (py "h2h_details")
                   (net (py "h2h_details") u)) = html ->
  make_soup (fetched_content (fetch_url json_loads u (py "h2h_details")
                                (net (py "h2h_details") u))) = Return soup ->
  forall k v,
    In (k, v) [(py "match_info", MatchInfoSlot (parse_match_info markup soup));
               (py "fixture", FixtureSlot (parse_fixture soup));
               (py "h2h_details",
                match parse_h2h_details soup with
                | Return details => DetailsSlot details
                | Raise e => ErrorSlot (py "Failed to parse HTML: " ++ exn_msg e)
                end)] ->
    slots (store_results Time markup py_str make_soup match_id
             (fetch_all_urls json_loads net ((py "h2h_details", u) :: rest))) !! k
    = Some v.
Proof.
  intros Hrest Hshape Hsoup k v Hkv.
  set (r := fetch_url json_loads u (py "h2h_details") (net (py "h2h_details") u))
    in *.
  unfold store_results, fetch_all_urls. cbn [map fold_left fst snd]. fold r.
  assert (Hk : In k [py "match_info"; py "fixture"; py "h2h_details"]).
  { simpl in Hkv. simpl.
    destruct Hkv as [[= <- _]|[[= <- _]|[[= <- _]|[]]]]; tauto. }
  rewrite store_results_other.
  - unfold store_result. cbv zeta. rewrite Hshape.
    assert (Hkey : fetched_key r = py "h2h_details") by apply fetch_url_key.
    rewrite Hkey, bool_decide_true by reflexivity.
    unfold store_page. rewrite Hsoup.
    simpl in Hkv.
    destruct Hkv as [[= <- <-]|[[= <- <-]|[[= <- <-]|[]]]];
      destruct (parse_h2h_details soup); cbn [slots set_slot];
      rewrite ?lookup_insert_ne by discriminate; apply lookup_insert_eq.
  - apply List.Forall_forall. intros x Hx.
    apply in_map_iff in Hx as ([k2 u2] & <- & Hin2).
    rewrite fetch_url_key. cbn [fst].
    assert (H2 : k2 <> py "h2h_details" /\ k2 <> py "match_info"
                 /\ k2 <> py "fixture").
    { apply (proj1 (List.Forall_forall _ _) Hrest).
      apply in_map_iff. now exists (k2, u2). }
    destruct H2 as (Hh & Hm & Hf). split; [|tauto].
    simpl in Hk. destruct Hk as [<-|[<-|[<-|[]]]]; assumption.
Qed.

Lemma match_urls_page match_id :
  match_urls flesh match_id
  = (py "h2h_details", py "https://live20.nowgoal25.com/match/h2h-" ++ str_int match_id)
      :: tl (match_urls flesh match_id).
Proof. reflexivity. Qed.

Lemma match_urls_odds_keys match_id :
  Forall (fun k => k <> py "h2h_details" /\ k <> py "match_info"
                   /\ k <> py "fixture")
         (map fst (tl (match_urls flesh match_id))).
Proof.
  change (map fst (tl (match_urls flesh match_id)))
    with [py "ah_odds"; py "corner_odds"; py "correct_score_odds";
          py "double_chance_odds"; py "odds_comp"; py "over_under_odds";
          py "first_half_odds"].
  repeat (apply Forall_cons; split; [repeat split; discriminate|]).
  apply Forall_nil_2.
Qed.

(** X27: when the page comes back and BeautifulSoup reads it, the dict of
    the match has the match header under [match_info] and the fixtures
    under [fixture] whether or not the details of the page can be parsed:
    if [parse_h2h_details] raises, only the key [h2h_details] holds an
    error, with the text of the exception, and the two keys written before
    it stay. *)
Theorem fetch_match_data_sync_page net match_id data soup :
  fetch_match_data_sync Time json_loads markup py_str make_soup flesh net match_id
  = Done data ->
  let u := py "https://live20.nowgoal25.com/match/h2h-" ++ str_int match_id in
  let r := fetch_url json_loads u (py "h2h_details") (net (py "h2h_details") u) in
  fetched_shape r = html ->
  make_soup (fetched_content r) = Return soup ->
  slots data !! py "match_info" = Some (MatchInfoSlot (parse_match_info markup soup))
  /\ slots data !! py "fixture" = Some (FixtureSlot (parse_fixture soup))
  /\ slots data !! py "h2h_details"
     = Some (match parse_h2h_details soup with
             | Return details => DetailsSlot details
             | Raise e => ErrorSlot (py "Failed to parse HTML: " ++ exn_msg e)
             end).
Proof.
  intros Hd u r Hshape Hsoup. apply fetch_match_data_sync_Done in Hd. subst data.
  rewrite (match_urls_page match_id). fold u.
  pose proof (store_results_page net match_id u (tl (match_urls flesh match_id))
                soup (match_urls_odds_keys match_id) Hshape Hsoup) as Hpage.
  repeat split; apply Hpage; simpl; tauto.
Qed.

Lemma only_page_errors_insert m k v :
  only_page_errors m ->
  (forall msg, v = ErrorSlot msg ->
     k = py "h2h_details"
     /\ exists detail, msg = py "Failed to parse HTML: " ++ detail) ->
  only_page_errors (<[ k := v ]> m).
Proof.
  intros Hm Hv k' msg. rewrite lookup_insert. case_decide.
  - subst k'. intros [= ->]. now apply Hv.
  - apply Hm.
Qed.

Lemma store_result_only_page_errors (d : match_data Time) r :
  (fetched_shape r = html -> fetched_key r = py "h2h_details") ->
  only_page_errors (slots d) -> only_page_errors (slots (store d r)).
Proof.
  intros Hhtml Hd. unfold store_result. cbv zeta.
  destruct (fetched_shape r).
  - rewrite (bool_decide_true _ (Hhtml eq_refl)).
    unfold store_page. destruct (make_soup _) as [soup|e].
    + destruct (parse_h2h_details soup) as [details|e]; cbn [slots set_slot].
      * repeat (apply only_page_errors_insert; [|discriminate]). exact Hd.
      * apply only_page_errors_insert.
        -- repeat (apply only_page_errors_insert; [|discriminate]). exact Hd.
        -- intros msg [= <-]. split; [now apply Hhtml | eauto].
    + cbn [slots set_slot]. apply only_page_errors_insert; [exact Hd|].
      intros msg [= <-]. split; [now apply Hhtml | eauto].
  - destruct (bool_decide _); cbn [slots set_slot];
      (apply only_page_errors_insert; [exact Hd | discriminate]).
  - cbn [slots set_slot]. apply only_page_errors_insert; [exact Hd | discriminate].
Qed.

Lemma fold_store_only_page_errors (rs : list (fetched Time)) :
  Forall (fun r => fetched_shape r = html -> fetched_key r = py "h2h_details") rs ->
  forall d : match_data Time,
    only_page_errors (slots d) ->
    only_page_errors (slots (fold_left store rs d)).
Proof.
  induction rs as [|r rs IH]; intros Hall d Hd; [exact Hd|].
  apply Forall_cons_1 in Hall as [Hr Hall]. cbn [fold_left].
  apply IH; [exact Hall|]. now apply store_result_only_page_errors.
Qed.

(** The errors of the dict of any addresses are those of the page. *)
Lemma store_results_only_page_errors net match_id urls :
  only_page_errors
    (slots (store_results Time markup py_str make_soup match_id
              (fetch_all_urls json_loads net urls))).
Proof.
  unfold store_results. apply fold_store_only_page_errors.
  - apply List.Forall_forall. intros r Hr.
    apply fetch_all_urls_in in Hr as (k & u & _ & ->).
    intros Hs. rewrite fetch_url_key. now apply fetch_url_html_key in Hs.
  - intros k msg. cbn [slots]. rewrite lookup_empty. discriminate.
Qed.

(** X28: the dict of a match never holds the error of an unknown content
    type: the only error [fetch_match_data_sync] writes itself is the one
    of a page that could not be parsed, under [h2h_details]; every other
    error in the dict is the error dict of a request, passed on as it
    came. *)
Theorem fetch_match_data_sync_errors net match_id data k msg :
  fetch_match_data_sync Time json_loads markup py_str make_soup flesh net match_id
  = Done data ->
  slots data !! k = Some (ErrorSlot msg) ->
  k = py "h2h_details"
  /\ exists detail, msg = py "Failed to parse HTML: " ++ detail.
Proof.
  intros Hd Hslot. apply fetch_match_data_sync_Done in Hd. subst data.
  exact (store_results_only_page_errors net match_id
           (match_urls flesh match_id) k msg Hslot).
Qed.

End MatchDataFacts.

Section MatchDataChecks.

Import HttpClient App.

Lemma fetch_match_data_sync_odds_witness :
  slots Samples.sample_match_data !! py "ah_odds"
  = Some (Passed (JsonValue (JObj []))).
Proof.
  apply (fetch_match_data_sync_odds (Time := nat) loads_empty_object
           Samples.no_markup Samples.no_text Samples.soup_of_sample (py "0.5")
           net_all_ok 1 Samples.sample_match_data (py "ah_odds")
           (py "https://live20.nowgoal25.com/ajax/soccerajax?type=14&t=2&id=1")).
  - vm_compute. reflexivity.
  - right; left; reflexivity.
  - discriminate.
Defined.

Lemma fetch_match_data_sync_page_witness :
  slots Samples.sample_match_data !! py "match_info"
  = Some (MatchInfoSlot
            (parse_match_info Samples.no_markup Samples.broken_standings_page))
  /\ slots Samples.sample_match_data !! py "fixture"
     = Some (FixtureSlot (parse_fixture Samples.broken_standings_page))
  /\ slots Samples.sample_match_data !! py "h2h_details"
     = Some (ErrorSlot (py "Failed to parse HTML: list index out of range")).
Proof.
  apply (fetch_match_data_sync_page (Time := nat) loads_empty_object
           Samples.no_markup Samples.no_text Samples.soup_of_sample (py "0.5")
           net_all_ok 1 Samples.sample_match_data Samples.broken_standings_page).
  - vm_compute. reflexivity.
  - vm_compute. reflexivity.
  - vm_compute. reflexivity.
Defined.

Lemma fetch_match_data_sync_errors_witness :
  slots Samples.sample_match_data !! py "h2h_details"
  = Some (ErrorSlot (py "Failed to parse HTML: list index out of range"))
  /\ exists detail,
       py "Failed to parse HTML: list index out of range"
       = py "Failed to parse HTML: " ++ detail.
Proof.
  split; [vm_compute; reflexivity|].
  apply (fetch_match_data_sync_errors (Time := nat) loads_empty_object
           Samples.no_markup Samples.no_text Samples.soup_of_sample (py "0.5")
           net_all_ok 1 Samples.sample_match_data (py "h2h_details")).
  - vm_compute. reflexivity.
  - vm_compute. reflexivity.
Defined.

End MatchDataChecks.
